(** * Garmin training-plan sync: workout compiler and schedule calculator

    A shallow embedding of [garmin_workout_builder.py] (class
    [WorkoutBuilder]), of [sync_garmin.py] (class
    [GarminTrainingPlanSync]: the date arithmetic and the batch
    operations [upload_all], [delete_all] and [update_week]) and of
    [format_pace] of [export_activities.py], followed by the properties
    of the specification that concern them and by further properties
    of the code.

    Conventions of the embedding.
    - Python values loaded from the YAML plan are the inductive [value];
      mappings are finite maps keyed by strings.
    - Python [float] is IEEE-754 binary64, here the primitive [float];
      Python [int] is [Z].
    - Python [str] is [string]; the text is assumed to be ASCII (the
      case mapping, the white-space set and the digits are the ASCII
      ones).  The interpreter's limit on the number of digits
      accepted by [int(str)] is modelled at its default, 4300.
    - A raised exception is the [Raise] outcome of the [result] monad;
      statements are sequenced in source order, so the first exception
      raised by the source is the one returned.
    - A [datetime] is the ordinal of its day together with its time of
      day, which is how the library computes with [timedelta]s;
      [dateutil]'s parser is a parameter of the schedule functions.
    - Calls to the logger have no effect on the values computed and are
      left out; where the text they format can raise, its evaluation
      is kept.
    - The remote service is a parameter of the batch operations: a
      record of functions that answer a call, given the calls made
      before it, with a value or an exception.  An operation maps the
      history of calls to the extended history and an outcome. *)

From Stdlib Require Import ZArith String Ascii List Bool Lia.
From Stdlib Require Import PrimFloat SpecFloat FloatOps.
From Stdlib Require DecimalString.
From stdpp Require Import gmap strings.
Set Warnings "-inexact-float,-register-all".

Import ListNotations.
Open Scope string_scope.
Open Scope Z_scope.

(** ** The fragment of the Python run time used by the program *)

Module Py.

(** *** Exceptions and the exception monad *)

Inductive exn :=
| ValueError
| TypeError
| AttributeError
| KeyError
| IndexError
| ZeroDivisionError
| OverflowError.

Inductive result (A : Type) :=
| Ok (a : A)
| Raise (e : exn).
Arguments Ok {A} a.
Arguments Raise {A} e.

Definition bind {A B : Type} (m : result A) (k : A -> result B) : result B :=
  match m with
  | Ok a => k a
  | Raise e => Raise e
  end.

Definition is_ok {A : Type} (m : result A) : bool :=
  match m with Ok _ => true | Raise _ => false end.

Declare Scope py_scope.
Delimit Scope py_scope with py.
Notation "'let*' x ':=' m 'in' k" := (bind m (fun x => k))
  (at level 10, x binder, m at level 200, k at level 200) : py_scope.

(** *** Strings *)

Definition code (c : ascii) : N := N_of_ascii c.

(** [str.isspace] on ASCII: TAB, LF, VT, FF, CR, FS, GS, RS, US, SPACE. *)
Definition isspace (c : ascii) : bool :=
  ((9 <=? code c) && (code c <=? 13) || (28 <=? code c) && (code c <=? 32))%N.

Definition isdigit (c : ascii) : bool :=
  ((48 <=? code c) && (code c <=? 57))%N.

Definition digit_value (c : ascii) : Z := Z.of_N (code c) - 48.

Definition lower_char (c : ascii) : ascii :=
  if ((65 <=? code c) && (code c <=? 90))%N then ascii_of_N (code c + 32) else c.

Definition upper_char (c : ascii) : ascii :=
  if ((97 <=? code c) && (code c <=? 122))%N then ascii_of_N (code c - 32) else c.

Fixpoint lower (s : string) : string :=
  match s with
  | EmptyString => EmptyString
  | String c r => String (lower_char c) (lower r)
  end.

(** [str.capitalize] on ASCII text: first character upper-cased, the
    rest lower-cased. *)
Definition capitalize (s : string) : string :=
  match s with
  | EmptyString => EmptyString
  | String c r => String (upper_char c) (lower r)
  end.

Fixpoint lstrip (s : string) : string :=
  match s with
  | EmptyString => EmptyString
  | String c r => if isspace c then lstrip r else s
  end.

(** [rstrip] keeps a character when it, or some character after it, is
    not white space. *)
Fixpoint rstrip (s : string) : string :=
  match s with
  | EmptyString => EmptyString
  | String c r =>
      match rstrip r with
      | EmptyString => if isspace c then EmptyString else String c EmptyString
      | r' => String c r'
      end
  end.

Definition strip (s : string) : string := rstrip (lstrip s).

(** White space for the conversions [int(str)] and [float(str)], which
    skip it at both ends of ASCII text ([Py_ISSPACE]): TAB, LF, VT, FF,
    CR and SPACE, without the four separators that [str.strip] also
    removes. *)
Definition isspace_c (c : ascii) : bool :=
  ((9 <=? code c) && (code c <=? 13) || (code c =? 32))%N.

Fixpoint lstrip_c (s : string) : string :=
  match s with
  | EmptyString => EmptyString
  | String c r => if isspace_c c then lstrip_c r else s
  end.

Fixpoint rstrip_c (s : string) : string :=
  match s with
  | EmptyString => EmptyString
  | String c r =>
      match rstrip_c r with
      | EmptyString => if isspace_c c then EmptyString else String c EmptyString
      | r' => String c r'
      end
  end.

Definition strip_c (s : string) : string := rstrip_c (lstrip_c s).

Fixpoint startswith (p s : string) : bool :=
  match p, s with
  | EmptyString, _ => true
  | String a p', String b s' => Ascii.eqb a b && startswith p' s'
  | String _ _, EmptyString => false
  end.

(** [sub in s] for strings: [sub] occurs somewhere in [s]. *)
Fixpoint contains (sub s : string) : bool :=
  startswith sub s ||
  match s with
  | EmptyString => false
  | String _ r => contains sub r
  end.

(** [s.split(sep)] for a one-character separator (the program splits
    on ['-'] and on [':'] only). *)
Fixpoint split (sep : ascii) (s : string) : list string :=
  match s with
  | EmptyString => [EmptyString]
  | String c r =>
      if Ascii.eqb c sep then EmptyString :: split sep r
      else match split sep r with
           | [] => [String c EmptyString]
           | p :: ps => String c p :: ps
           end
  end.

(** [s.replace(old, new)] for a non-empty [old]: occurrences are
    replaced left to right without overlap.  [skip] counts the
    characters of a matched occurrence still to be dropped. *)
Fixpoint replace_from (old new : string) (skip : nat) (s : string) : string :=
  match s with
  | EmptyString => EmptyString
  | String c r =>
      match skip with
      | S k => replace_from old new k r
      | O =>
          if startswith old s
          then new ++ replace_from old new (Nat.pred (String.length old)) r
          else String c (replace_from old new O r)
      end
  end.

Definition replace (old new s : string) : string := replace_from old new O s.

(** [parts[i]] on a list. *)
Definition index {A : Type} (l : list A) (i : nat) : result A :=
  match nth_error l i with
  | Some x => Ok x
  | None => Raise IndexError
  end.

(** [str(n)] for an integer. *)
Definition str_of_int (n : Z) : string :=
  DecimalString.NilZero.string_of_int (Z.to_int n).

(** *** [int(str)] *)

(** A run of decimal digits in which single underscores may separate
    digits; the whole string has to be consumed. *)
Fixpoint digitpart (acc : Z) (after_digit : bool) (s : string) : option Z :=
  match s with
  | EmptyString => if after_digit then Some acc else None
  | String c r =>
      if isdigit c then digitpart (10 * acc + digit_value c) true r
      else if Ascii.eqb c "_" && after_digit then digitpart acc false r
      else None
  end.

Definition split_sign (s : string) : bool * string :=
  match s with
  | String "-" r => (true, r)
  | String "+" r => (false, r)
  | _ => (false, s)
  end.

(** The number of digits of a text. *)
Fixpoint count_digits (s : string) : Z :=
  match s with
  | EmptyString => 0
  | String c r => (if isdigit c then 1 else 0) + count_digits r
  end.

(** [sys.int_info.default_max_str_digits]: a decimal text of more
    digits is refused by [int] with [ValueError]. *)
Definition MAX_STR_DIGITS : Z := 4300.

Definition int_of_str (s : string) : result Z :=
  let '(neg, body) := split_sign (strip_c s) in
  match digitpart 0 false body with
  | Some n =>
      if MAX_STR_DIGITS <? count_digits body then Raise ValueError
      else Ok (if neg then - n else n)
  | None => Raise ValueError
  end.

(** *** Floating-point numbers *)

(** The binary64 number nearest to an integer, ties to even. *)
Definition nearest_float (n : Z) : float :=
  SF2Prim (binary_normalize prec emax n 0 false).

(** [float(n)] for an integer, also the conversion applied to an
    integer operand of a float operation.  An integer that would round
    to [2^1024], that is one of magnitude [2^1024 - 2^970] or more,
    raises [OverflowError]. *)
Definition float_of_int (n : Z) : result float :=
  if Z.abs n <? 2 ^ 1024 - 2 ^ 970
  then Ok (nearest_float n)
  else Raise OverflowError.

(** [int(x)] for a float: truncation towards zero. *)
Definition int_of_float (x : float) : result Z :=
  match Prim2SF x with
  | S754_zero _ => Ok 0
  | S754_finite s m e =>
      let a := Z.shiftl (Zpos m) e in
      Ok (if s then - a else a)
  | S754_infinity _ => Raise OverflowError
  | S754_nan => Raise ValueError
  end.

(** The binary64 number nearest to [(-1)^neg * m * 10^e], where the
    decimal numeral of [m] has at most [ndigits] digits.  Beyond
    [10^310] the result is infinite and below [10^-330] it is zero;
    in between the value is rounded exactly. *)
Definition float_of_decimal (neg : bool) (m : Z) (ndigits : Z) (e : Z) : float :=
  match m with
  | Zpos p =>
      if 310 <? e then (if neg then neg_infinity else infinity)
      else if e + ndigits <? -330 then (if neg then neg_zero else zero)
      else if 0 <=? e
           then SF2Prim (binary_normalize prec emax
                           ((if neg then - m else m) * 10 ^ e) 0 false)
           else SF2Prim (SFdiv prec emax
                           (S754_finite neg p 0)
                           (S754_finite false (Z.to_pos (10 ^ (- e))) 0))
  | _ => if neg then neg_zero else zero
  end.

(** Underscores in a numeric literal: each one stands between two
    digits.  The result is the text without them. *)
Fixpoint strip_underscores (prev : ascii) (s : string) : option string :=
  match s with
  | EmptyString => if Ascii.eqb prev "_" then None else Some EmptyString
  | String c r =>
      if Ascii.eqb c "_"
      then if isdigit prev then strip_underscores c r else None
      else if Ascii.eqb prev "_" && negb (isdigit c) then None
           else option_map (String c) (strip_underscores c r)
  end.

(** The longest prefix of digits: its value (continuing [acc]), the
    number of digits read and the rest of the text. *)
Fixpoint span_digits (acc : Z) (count : Z) (s : string) : Z * Z * string :=
  match s with
  | String c r =>
      if isdigit c then span_digits (10 * acc + digit_value c) (count + 1) r
      else (acc, count, s)
  | EmptyString => (acc, count, s)
  end.

(** The exponent part of a decimal literal, which ends the text; a
    text that is not an exponent part is refused. *)
Definition exponent_part (s : string) : option Z :=
  match s with
  | EmptyString => Some 0
  | String c r =>
      if Ascii.eqb c "e" || Ascii.eqb c "E"
      then let '(neg, body) := split_sign r in
           match span_digits 0 0 body with
           | (n, count, EmptyString) =>
               if 0 <? count then Some (if neg then - n else n) else None
           | _ => None
           end
      else None
  end.

(** [float(s)] for a string. *)
Definition float_of_str (s : string) : result float :=
  match strip_underscores " " (strip_c s) with
  | None => Raise ValueError
  | Some t =>
      let '(neg, body) := split_sign t in
      let word := lower body in
      if String.eqb word "inf" || String.eqb word "infinity"
      then Ok (if neg then neg_infinity else infinity)
      else if String.eqb word "nan" then Ok nan
      else
        let '(m1, c1, rest1) := span_digits 0 0 body in
        let '(m2, c2, rest2) :=
          match rest1 with
          | String "." r => let '(m, c, rest) := span_digits m1 0 r in (m, c, rest)
          | _ => (m1, 0, rest1)
          end in
        if 0 <? c1 + c2
        then match exponent_part rest2 with
             | Some e => Ok (float_of_decimal neg m2 (c1 + c2) (e - c2))
             | None => Raise ValueError
             end
        else Raise ValueError
  end.

(** *** Values *)

(** What [yaml.safe_load] builds for a plan: null, booleans, integers,
    floats, strings, sequences and mappings with string keys. *)
Inductive value :=
| VNone
| VBool (b : bool)
| VInt (n : Z)
| VFloat (x : float)
| VStr (s : string)
| VList (l : list value)
| VDict (d : gmap string value).

(** Truth value of an object ([if x], [not x]). *)
Definition truth (v : value) : bool :=
  match v with
  | VNone => false
  | VBool b => b
  | VInt n => negb (n =? 0)
  | VFloat x => negb (x =? 0)%float
  | VStr s => negb (String.eqb s "")
  | VList l => match l with [] => false | _ :: _ => true end
  | VDict d => negb (Nat.eqb (size d) 0)
  end.

(** [d.get(key, default)] on a dictionary. *)
Definition dict_get {V : Type} (d : gmap string V) (key : string) (default : V) : V :=
  match d !! key with
  | Some v => v
  | None => default
  end.

(** [obj.get(key, default)]: only mappings have the method. *)
Definition get (obj : value) (key : string) (default : value) : result value :=
  match obj with
  | VDict d => Ok (dict_get d key default)
  | _ => Raise AttributeError
  end.

Definition eq_str (v : value) (s : string) : bool :=
  match v with
  | VStr t => String.eqb t s
  | _ => false
  end.

(** [key in obj] for a string [key]: a key of a mapping, a substring
    of a string, an element of a sequence. *)
Definition contains_key (key : string) (obj : value) : result bool :=
  match obj with
  | VDict d => Ok (match d !! key with Some _ => true | None => false end)
  | VStr s => Ok (contains key s)
  | VList l => Ok (existsb (fun x => eq_str x key) l)
  | _ => Raise TypeError
  end.

(** [obj[key]] for a string [key]. *)
Definition getitem (obj : value) (key : string) : result value :=
  match obj with
  | VDict d => match d !! key with Some v => Ok v | None => Raise KeyError end
  | _ => Raise TypeError
  end.

(** [v * x] for a float [x]. *)
Definition mul_float (v : value) (x : float) : result float :=
  match v with
  | VInt n => bind (float_of_int n) (fun y => Ok (y * x)%float)
  | VBool b => Ok ((if b then 1 else 0) * x)%float
  | VFloat y => Ok (y * x)%float
  | _ => Raise TypeError
  end.

(** [x / n] for a float [x] and an integer [n]. *)
Definition div_float_int (x : float) (n : Z) : result float :=
  bind (float_of_int n) (fun y =>
    if n =? 0 then Raise ZeroDivisionError else Ok (x / y)%float).

(** [str(v)].  The text of floats, sequences and mappings is their
    [repr], which is a parameter here. *)
Definition str (repr : value -> string) (v : value) : string :=
  match v with
  | VNone => "None"
  | VBool true => "True"
  | VBool false => "False"
  | VInt n => str_of_int n
  | VStr s => s
  | _ => repr v
  end.

(** *** [datetime] *)

(** A [datetime] is the proleptic Gregorian ordinal of its day (day 1
    is 0001-01-01) with the time of day in microseconds; a
    [timedelta] of whole days is its number of days. *)
Record datetime := { ordinal : Z; time_of_day : Z }.

Definition MAXORDINAL : Z := 3652059.

Definition valid_datetime (d : datetime) : Prop :=
  1 <= ordinal d <= MAXORDINAL.

Definition timedelta (days : Z) : result Z :=
  if Z.abs days <=? 999999999 then Ok days else Raise OverflowError.

Definition timedelta_weeks (weeks : Z) : result Z := timedelta (7 * weeks).

Definition datetime_add (d : datetime) (delta : Z) : result datetime :=
  let o := ordinal d + delta in
  if (1 <=? o) && (o <=? MAXORDINAL)
  then Ok {| ordinal := o; time_of_day := time_of_day d |}
  else Raise OverflowError.

Definition datetime_sub (d : datetime) (delta : Z) : result datetime :=
  datetime_add d (- delta).

Definition is_leap (year : Z) : bool :=
  (year mod 4 =? 0) && (negb (year mod 100 =? 0) || (year mod 400 =? 0)).

Definition days_before_year (year : Z) : Z :=
  let y := year - 1 in y * 365 + y / 4 - y / 100 + y / 400.

Definition DAYS_IN_MONTH : list Z :=
  [31; 28; 31; 30; 31; 30; 31; 31; 30; 31; 30; 31].

Definition DAYS_BEFORE_MONTH : list Z :=
  [0; 31; 59; 90; 120; 151; 181; 212; 243; 273; 304; 334].

Definition days_in_month (year month : Z) : Z :=
  if (month =? 2) && is_leap year then 29
  else nth (Z.to_nat (month - 1)) DAYS_IN_MONTH 0.

Definition days_before_month (year month : Z) : Z :=
  nth (Z.to_nat (month - 1)) DAYS_BEFORE_MONTH 0
  + (if (2 <? month) && is_leap year then 1 else 0).

Definition ymd2ord (year month day : Z) : Z :=
  days_before_year year + days_before_month year month + day.

Definition ord2ymd (n : Z) : Z * Z * Z :=
  let n := n - 1 in
  let n400 := n / 146097 in let n := n mod 146097 in
  let year := n400 * 400 + 1 in
  let n100 := n / 36524 in let n := n mod 36524 in
  let n4 := n / 1461 in let n := n mod 1461 in
  let n1 := n / 365 in let n := n mod 365 in
  let year := year + n100 * 100 + n4 * 4 + n1 in
  if (n1 =? 4) || (n100 =? 4) then (year - 1, 12, 31)
  else
    let leapyear := (n1 =? 3) && (negb (n4 =? 24) || (n100 =? 3)) in
    let month := Z.shiftr (n + 50) 5 in
    let preceding :=
      nth (Z.to_nat (month - 1)) DAYS_BEFORE_MONTH 0
      + (if (2 <? month) && leapyear then 1 else 0) in
    if n <? preceding
    then
      let month := month - 1 in
      let preceding :=
        preceding - (nth (Z.to_nat (month - 1)) DAYS_IN_MONTH 0
                     + (if (month =? 2) && leapyear then 1 else 0)) in
      (year, month, n - preceding + 1)
    else (year, month, n - preceding + 1).

(** [datetime(year, month, day)], at midnight. *)
Definition datetime_of (year month day : Z) : result datetime :=
  if (1 <=? year) && (year <=? 9999) && (1 <=? month) && (month <=? 12)
     && (1 <=? day) && (day <=? days_in_month year month)
  then Ok {| ordinal := ymd2ord year month day; time_of_day := 0 |}
  else Raise ValueError.

(** The calendar date of a [datetime]: (year, month, day). *)
Definition date_of (d : datetime) : Z * Z * Z := ord2ymd (ordinal d).

End Py.

Import Py.
Open Scope py_scope.

(** ** Documents sent to the remote service *)

(** The target dictionary built by [get_target_speed_zone] and
    [get_no_target]; the two speed bounds are absent from the
    "no target" shape. *)
Module Target.
Record t := mk {
  workoutTargetTypeId : Z;
  workoutTargetTypeKey : string;
  targetValueOne : option float;
  targetValueTwo : option float
}.
End Target.

(** An [ExecutableStepDTO].  The nested [stepType] and [endCondition]
    dictionaries are flattened into their two keys each. *)
Module Step.
Record t := mk {
  stepOrder : Z;
  stepTypeId : Z;
  stepTypeKey : string;
  conditionTypeId : Z;
  conditionTypeKey : string;
  endConditionValue : value;
  targetType : Target.t;
  targetValueOne : option float;
  targetValueTwo : option float
}.
End Step.

(** A workout step is an executable step or a repeat group of
    executable steps (the key [type] of the dictionary). *)
Inductive workout_step :=
| ExecutableStepDTO (step : Step.t)
| RepeatGroupDTO (stepOrder : Z) (numberOfIterations : value)
                 (workoutSteps : list Step.t).

Record sport_type := {
  sportTypeId : Z;
  sportTypeKey : string;
  displayOrder : option Z
}.

Record workout_segment := {
  segmentOrder : Z;
  segmentSportType : sport_type;
  workoutSteps : list workout_step
}.

Record workout := {
  workoutName : string;
  description : value;
  sportType : sport_type;
  estimatedDurationInSecs : Z;
  workoutSegments : list workout_segment
}.

(** ** [garmin_workout_builder.py]: class [WorkoutBuilder] *)

Module WorkoutBuilder.

Definition meters_per_mile : float := 1609.34%float.

Section Builder.

(** [self.paces]: pace-zone name to pace text. *)
Variable paces : gmap string string.

(** Python's [repr], used by [str] on values that are not text. *)
Variable repr : value -> string.

Definition parse_distance (distance_str : value) : result float :=
  match distance_str with
  | VInt n => float_of_int n
  | VBool b => Ok (if b then 1 else 0)%float
  | VFloat x => Ok x
  | _ =>
      let distance_str := strip (str repr distance_str) in
      (* ranges like "8-9" *)
      if contains "-" distance_str
      then
        let parts := split "-" distance_str in
        let* upper := index parts 1 in
        float_of_str (strip upper)
      else float_of_str distance_str
  end.

Definition parse_duration (duration_str : value) : result Z :=
  match duration_str with
  | VStr s =>
      let duration_str := lower (strip s) in
      (* ranges like "20-25 min" *)
      let* duration_str :=
        if contains "-" duration_str
        then
          let parts := split "-" duration_str in
          let* upper := index parts 1 in
          Ok (strip upper)
        else Ok duration_str in
      if contains "min" duration_str
      then
        let* minutes := float_of_str (strip (replace "min" "" duration_str)) in
        int_of_float (minutes * 60)%float
      else if contains "sec" duration_str
      then
        let* seconds := float_of_str (strip (replace "sec" "" duration_str)) in
        int_of_float seconds
      else
        (* "HH:MM:SS" or "MM:SS"; [None] when neither returns *)
        let* clock :=
          if contains ":" duration_str
          then
            let parts := split ":" duration_str in
            if Nat.eqb (length parts) 3
            then
              let* h := bind (index parts 0) int_of_str in
              let* m := bind (index parts 1) int_of_str in
              let* s := bind (index parts 2) int_of_str in
              Ok (Some (h * 3600 + m * 60 + s))
            else if Nat.eqb (length parts) 2
            then
              let* m := bind (index parts 0) int_of_str in
              let* s := bind (index parts 1) int_of_str in
              Ok (Some (m * 60 + s))
            else Ok None
          else Ok None in
        match clock with
        | Some seconds => Ok seconds
        | None =>
            (* default: a number of seconds *)
            let* seconds := float_of_str duration_str in
            int_of_float seconds
        end
  | _ => Raise AttributeError
  end.

Definition pace_to_speed (pace_str : string) : result float :=
  let parts := split ":" pace_str in
  let* minutes := bind (index parts 0) int_of_str in
  let* seconds := bind (index parts 1) int_of_str in
  let pace_seconds_per_mile := minutes * 60 + seconds in
  let* speed_mps := div_float_int meters_per_mile pace_seconds_per_mile in
  Ok speed_mps.

Definition get_no_target : Target.t :=
  {| Target.workoutTargetTypeId := 1;
     Target.workoutTargetTypeKey := "no.target";
     Target.targetValueOne := None;
     Target.targetValueTwo := None |}.

(** [pace_zone not in self.paces] hashes [pace_zone]: sequences and
    mappings are unhashable; a hashable value that is not text is
    no key of the table. *)
Definition get_target_speed_zone (pace_zone : value) : result Target.t :=
  match pace_zone with
  | VList _ | VDict _ => Raise TypeError
  | VStr zone =>
      match paces !! zone with
      | None => Ok get_no_target
      | Some pace_str =>
          let* speed_mps := pace_to_speed pace_str in
          let target_low := (speed_mps * 0.95)%float in
          let target_high := (speed_mps * 1.05)%float in
          Ok {| Target.workoutTargetTypeId := 6;
                Target.workoutTargetTypeKey := "pace.zone";
                Target.targetValueOne := Some target_low;
                Target.targetValueTwo := Some target_high |}
      end
  | _ => Ok get_no_target
  end.

(** The two [pop]s move the speed bounds from the target dictionary
    to the step. *)
Definition create_executable_step
    (step_order : Z) (step_type_id : Z) (step_type_key : string)
    (end_condition_id : Z) (end_condition_key : string)
    (end_condition_value : value) (target_type : option Target.t) : Step.t :=
  let target := match target_type with Some t => t | None => get_no_target end in
  let target_value_one := Target.targetValueOne target in
  let target_value_two := Target.targetValueTwo target in
  let target :=
    {| Target.workoutTargetTypeId := Target.workoutTargetTypeId target;
       Target.workoutTargetTypeKey := Target.workoutTargetTypeKey target;
       Target.targetValueOne := None;
       Target.targetValueTwo := None |} in
  {| Step.stepOrder := step_order;
     Step.stepTypeId := step_type_id;
     Step.stepTypeKey := step_type_key;
     Step.conditionTypeId := end_condition_id;
     Step.conditionTypeKey := end_condition_key;
     Step.endConditionValue := end_condition_value;
     Step.targetType := target;
     Step.targetValueOne := target_value_one;
     Step.targetValueTwo := target_value_two |}.

Definition create_repeat_group
    (step_order : Z) (iterations : value) (steps : list Step.t) : workout_step :=
  RepeatGroupDTO step_order iterations steps.

Local Open Scope list_scope.

(** The state threaded through [_build_structured_workout]: the
    list [steps] and the counter [step_order]. *)
Definition build_state : Type := list workout_step * Z.

(** [# Warmup] *)
Definition warmup_phase (structure : value) (st : build_state) : result build_state :=
  let '(steps, step_order) := st in
  let* present := contains_key "warmup" structure in
  if present
  then
    let* warmup := getitem structure "warmup" in
    let* distance := get warmup "distance" (VInt 2) in
    let* distance_miles := parse_distance distance in
    let distance_meters := (distance_miles * meters_per_mile)%float in
    let* pace_zone := get warmup "pace" (VStr "general_aerobic") in
    let* target := get_target_speed_zone pace_zone in
    Ok (steps ++ [ExecutableStepDTO (create_executable_step
                    step_order 1 "warmup" 3 "distance"
                    (VFloat distance_meters) (Some target))],
        step_order + 1)
  else Ok (steps, step_order).

(** [# Work interval] *)
Definition work_interval (work : value) : result Step.t :=
  let* timed := contains_key "duration" work in
  if timed
  then
    (* time-based work interval *)
    let* duration_str := getitem work "duration" in
    let* duration_secs := parse_duration duration_str in
    let* pace_zone := get work "pace" (VStr "lactate_threshold") in
    let* target := get_target_speed_zone pace_zone in
    Ok (create_executable_step 1 3 "interval" 2 "time"
          (VInt duration_secs) (Some target))
  else
    (* distance-based work interval *)
    let* work_distance_meters := get work "distance" (VInt 600) in
    let* unit := get work "unit" VNone in
    let* work_distance_meters :=
      if eq_str unit "meters"
      then Ok work_distance_meters
      else
        let* meters := mul_float work_distance_meters meters_per_mile in
        Ok (VFloat meters) in
    let* pace_zone := get work "pace" (VStr "vo2max") in
    let* target := get_target_speed_zone pace_zone in
    Ok (create_executable_step 1 3 "interval" 3 "distance"
          work_distance_meters (Some target)).

(** [# Rest interval]: the steps it appends to [repeat_steps]. *)
Definition rest_interval (rest : value) : result (list Step.t) :=
  let* rest_type := get rest "type" VNone in
  if eq_str rest_type "jog"
  then
    let* timed := contains_key "duration" rest in
    let* rest_duration :=
      if timed
      then
        let* duration_str := getitem rest "duration" in
        parse_duration duration_str
      else Ok 150 in
    Ok [create_executable_step 2 4 "recovery" 2 "time"
          (VInt rest_duration) (Some get_no_target)]
  else Ok [].

(** [# Intervals] *)
Definition intervals_phase (structure : value) (st : build_state) : result build_state :=
  let '(steps, step_order) := st in
  let* present := contains_key "intervals" structure in
  if present
  then
    let* intervals := getitem structure "intervals" in
    let repeat_steps := [] in
    let* work := get intervals "work" (VDict ∅) in
    let* work_step := work_interval work in
    let repeat_steps := repeat_steps ++ [work_step] in
    let* rest := get intervals "rest" (VDict ∅) in
    let* rest_steps := rest_interval rest in
    let repeat_steps := repeat_steps ++ rest_steps in
    let* iterations := get intervals "repeat" (VInt 1) in
    Ok (steps ++ [create_repeat_group step_order iterations repeat_steps],
        step_order + 1)
  else Ok (steps, step_order).

(** [# Main work (for non-interval workouts)] *)
Definition main_phase (structure : value) (st : build_state) : result build_state :=
  let '(steps, step_order) := st in
  let* has_main := contains_key "main" structure in
  let* present :=
    if has_main
    then
      let* has_intervals := contains_key "intervals" structure in
      Ok (negb has_intervals)
    else Ok false in
  if present
  then
    let* main := getitem structure "main" in
    let* timed := contains_key "duration" main in
    let* steps :=
      if timed
      then
        let* duration_str := getitem main "duration" in
        let* duration_secs := parse_duration duration_str in
        let* pace_zone := get main "pace" (VStr "lactate_threshold") in
        let* target := get_target_speed_zone pace_zone in
        Ok (steps ++ [ExecutableStepDTO (create_executable_step
                        step_order 3 "interval" 2 "time"
                        (VInt duration_secs) (Some target))])
      else
        let* measured := contains_key "distance" main in
        if measured
        then
          let* distance := getitem main "distance" in
          let* distance_miles := parse_distance distance in
          let distance_meters := (distance_miles * meters_per_mile)%float in
          let* pace_zone := get main "pace" (VStr "marathon_pace") in
          let* target := get_target_speed_zone pace_zone in
          Ok (steps ++ [ExecutableStepDTO (create_executable_step
                          step_order 3 "interval" 3 "distance"
                          (VFloat distance_meters) (Some target))])
        else Ok steps in
    Ok (steps, step_order + 1)
  else Ok (steps, step_order).

(** [# Cooldown] *)
Definition cooldown_phase (structure : value) (st : build_state) : result build_state :=
  let '(steps, step_order) := st in
  let* present := contains_key "cooldown" structure in
  if present
  then
    let* cooldown := getitem structure "cooldown" in
    let* distance := get cooldown "distance" (VInt 2) in
    let* distance_miles := parse_distance distance in
    let distance_meters := (distance_miles * meters_per_mile)%float in
    let* pace_zone := get cooldown "pace" (VStr "general_aerobic") in
    let* target := get_target_speed_zone pace_zone in
    Ok (steps ++ [ExecutableStepDTO (create_executable_step
                    step_order 2 "cooldown" 3 "distance"
                    (VFloat distance_meters) (Some target))],
        step_order)
  else Ok (steps, step_order).

(** The body of the source function is the sequence of its four
    commented blocks, each acting on [steps] and [step_order]. *)
Definition _build_structured_workout (structure : value) (start_order : Z)
  : result (list workout_step) :=
  let steps := [] in
  let step_order := start_order in
  let* st := warmup_phase structure (steps, step_order) in
  let* st := intervals_phase structure st in
  let* st := main_phase structure st in
  let* st := cooldown_phase structure st in
  Ok (fst st).

Definition pace_zone_map : gmap string string :=
  {[ "recovery" := "recovery";
     "general_aerobic" := "general_aerobic";
     "endurance" := "endurance";
     "medium_long_run" := "endurance";
     "long_run" := "endurance";
     "marathon_pace_run" := "marathon_pace";
     "lactate_threshold" := "lactate_threshold";
     "vo2max" := "vo2max" ]}.

(** [pace_zone_map.get(workout_type, default)] hashes its key. *)
Definition pace_zone_map_get (workout_type : value) (default : string) : result string :=
  match workout_type with
  | VList _ | VDict _ => Raise TypeError
  | VStr t => Ok (dict_get pace_zone_map t default)
  | _ => Ok default
  end.

Definition _build_simple_workout (workout_type : value) (distance : value)
    (start_order : Z) : result (list workout_step) :=
  let distance := if negb (truth distance) then VInt 5 else distance in
  let* distance_miles := parse_distance distance in
  let distance_meters := (distance_miles * meters_per_mile)%float in
  let* pace_zone := pace_zone_map_get workout_type "general_aerobic" in
  let* target := get_target_speed_zone (VStr pace_zone) in
  Ok [ExecutableStepDTO (create_executable_step
        start_order 3 "interval" 3 "distance"
        (VFloat distance_meters) (Some target))].

Definition _estimate_duration (workout_data : gmap string value) : result Z :=
  let distance := dict_get workout_data "distance" VNone in
  if truth distance
  then
    let* distance_miles := parse_distance distance in
    (* 9 min/mile average pace *)
    let estimated_minutes := (distance_miles * 9)%float in
    int_of_float (estimated_minutes * 60)%float
  else Ok 3600.

Definition build_workout_from_yaml (workout_data : gmap string value)
    (workout_date : datetime) (week_number : Z) (day_name : string)
  : result workout :=
  let workout_type := dict_get workout_data "type" (VStr "general_aerobic") in
  let description := dict_get workout_data "description" (VStr "") in
  let distance := dict_get workout_data "distance" VNone in
  let workout_name :=
    ("NYC Marathon 2026 - Week " ++ str_of_int week_number
     ++ " - " ++ capitalize day_name)%string in
  let step_order := 1 in
  let* steps :=
    match workout_data !! "structure" with
    | Some structure => _build_structured_workout structure step_order
    | None => _build_simple_workout workout_type distance step_order
    end in
  let* estimated_duration := _estimate_duration workout_data in
  Ok {| workoutName := workout_name;
        description := description;
        sportType := {| sportTypeId := 1; sportTypeKey := "running";
                        displayOrder := None |};
        estimatedDurationInSecs := estimated_duration;
        workoutSegments :=
          [ {| segmentOrder := 1;
               segmentSportType := {| sportTypeId := 1; sportTypeKey := "running";
                                      displayOrder := Some 1 |};
               workoutSteps := steps |} ] |}.

End Builder.

End WorkoutBuilder.

(** ** [sync_garmin.py]: class [GarminTrainingPlanSync], schedule part *)

Module GarminTrainingPlanSync.

Section Sync.

(** [dateutil.parser.parse], a third-party function. *)
Variable parse_date : value -> result datetime.

(** [self.plan_data], as loaded from the YAML plan. *)
Variable plan_data : value.

Definition calculate_week_start_date (week_number : Z) : result datetime :=
  let* goal_event := getitem plan_data "goal_event" in
  let* race_date_str := getitem goal_event "date" in
  let* race_date := parse_date race_date_str in
  (* week N's Sunday = race_date - (19 - N) weeks *)
  let weeks_before_race := 19 - week_number in
  let* weeks := timedelta_weeks weeks_before_race in
  let* week_sunday := datetime_sub race_date weeks in
  (* Monday is 6 days before Sunday *)
  let* six_days := timedelta 6 in
  let* week_monday := datetime_sub week_sunday six_days in
  Ok week_monday.

Definition day_offset : gmap string Z :=
  {[ "monday" := 0;
     "tuesday" := 1;
     "wednesday" := 2;
     "thursday" := 3;
     "friday" := 4;
     "saturday" := 5;
     "sunday" := 6 ]}.

Definition get_workout_date (week_number : Z) (day_name : string) : result datetime :=
  let* week_start := calculate_week_start_date week_number in
  match day_offset !! lower day_name with
  | None => Raise ValueError
  | Some offset =>
      let* days := timedelta offset in
      datetime_add week_start days
  end.

End Sync.

(** *** Requests to Garmin Connect *)

(** A week of the plan file, as the batch operations read it: its
    number [week['week']] (an integer), its [week['block']] when the
    key is there, and the entries of [week['workouts']] in the order
    of the file, which is the order [items()] yields them in. *)
Module Week.
Record t := { week : Z; block : option value; workouts : list (string * value) }.
End Week.

(** The calls that reach the remote service:
    [api.get_workouts(start=0, limit=1000)],
    [garth.request("DELETE", "connectapi", url, api=True)],
    [garth.post("connectapi", url, json={"date": date}, api=True)] and
    [api.upload_workout(workout_json)]. *)
Inductive request :=
| GetWorkouts
| DeleteRequest (url : string)
| PostSchedule (url : string) (date : string)
| UploadWorkout (workout_json : workout).

Definition history := list request.

(** The remote service answers a call, given the calls made before
    it, with a value or an exception: the decoded JSON body of the
    listing and of an upload, the status code of a deletion and of a
    scheduling. *)
Record service := {
  get_workouts : history -> result value;
  delete_status : history -> string -> result Z;
  schedule_status : history -> string -> string -> result Z;
  upload_workout : history -> workout -> result value }.

(** Computations that call the service: they extend the history of
    calls and return or raise. *)
Definition io (A : Type) : Type := history -> history * result A.

Definition ret {A : Type} (a : A) : io A := fun h => (h, Ok a).

Definition lift {A : Type} (r : result A) : io A := fun h => (h, r).

Definition io_bind {A B : Type} (m : io A) (k : A -> io B) : io B :=
  fun h =>
    match m h with
    | (h', Ok a) => k a h'
    | (h', Raise e) => (h', Raise e)
    end.

(** [try: m except Exception as e: handler e]. *)
Definition try_except {A : Type} (m : io A) (handler : exn -> io A) : io A :=
  fun h =>
    match m h with
    | (h', Ok a) => (h', Ok a)
    | (h', Raise e) => handler e h'
    end.

Definition send {A : Type} (r : request) (answer : history -> result A) : io A :=
  fun h => ((h ++ [r])%list, answer h).

Notation "'let!' x ':=' m 'in' k" := (io_bind m (fun x => k))
  (at level 10, x binder, m at level 200, k at level 200) : py_scope.

(** [for item in items: state = body(state, item)]: the loop ends at
    the first exception that leaves the body. *)
Fixpoint for_each {A S : Type} (items : list A) (body : S -> A -> io S) (state : S)
  : io S :=
  match items with
  | [] => ret state
  | item :: rest => let! state' := body state item in for_each rest body state'
  end.

(** [obj[:n]]: strings and sequences can be sliced; the other values
    raise (a mapping raises [KeyError] instead from Python 3.12 on). *)
Definition slice_to (n : nat) (obj : value) : result value :=
  match obj with
  | VStr s => Ok (VStr (substring 0 n s))
  | VList l => Ok (VList (firstn n l))
  | _ => Raise TypeError
  end.

(** [data if isinstance(data, list) else [data]]. *)
Definition as_list (data : value) : list value :=
  match data with
  | VList l => l
  | _ => [data]
  end.

(** The counters [upload_all] logs when it ends. *)
Record upload_counts := {
  total_workouts : Z;
  uploaded_workouts : Z;
  skipped_workouts : Z }.

(** The counters [delete_all] logs when it has deleted. *)
Record deletion_counts := {
  found_count : Z;
  deleted_count : Z;
  failed_count : Z }.

Section Operations.

Variable parse_date : value -> result datetime.
Variable plan_data : value.

(** [self.workout_builder] is [WorkoutBuilder(self.plan_data['paces'])]. *)
Variable paces : gmap string string.
Variable repr : value -> string.

(** [date.strftime('%Y-%m-%d')], formatted by the C library. *)
Variable strftime : datetime -> string.

(** [self.api]. *)
Variable api : service.

(** [self.plan_data['weeks']]. *)
Variable weeks : list Week.t.

Definition delete_workout (workout_id : value) : io bool :=
  try_except
    (let url := "/workout-service/workout/" ++ str repr workout_id in
     let! status_code := send (DeleteRequest url) (fun h => delete_status api h url) in
     ret ((status_code =? 200) || (status_code =? 204)))
    (fun _ => ret false).

Definition schedule_workout (workout_id : value) (date : datetime) : io bool :=
  try_except
    (let date_str := strftime date in
     let url := "/workout-service/schedule/" ++ str repr workout_id in
     let! status_code :=
       send (PostSchedule url date_str) (fun h => schedule_status api h url date_str) in
     ret ((status_code =? 200) || (status_code =? 201) || (status_code =? 204)))
    (fun _ => ret false).

(** The statements [upload_all] and [update_week] share: build the
    document, upload it and, when the answer carries a workout id,
    schedule it.  The result tells whether the upload counts as done
    ([if result:]). *)
Definition upload_and_schedule (workout : value) (workout_date : datetime)
    (week_number : Z) (day_name : string) : io bool :=
  let! workout_json :=
    lift match workout with
         | VDict workout_data =>
             WorkoutBuilder.build_workout_from_yaml paces repr workout_data workout_date
               week_number day_name
         | _ => Raise AttributeError
         end in
  let! result :=
    send (UploadWorkout workout_json) (fun h => upload_workout api h workout_json) in
  if truth result
  then
    let! workout_id := lift (get result "workoutId" VNone) in
    let! _ :=
      if truth workout_id then schedule_workout workout_id workout_date
      else ret false in
    ret true
  else ret false.

(** The body of the inner loop of [upload_all]. *)
Definition upload_all_day (week_number : Z) (counts : upload_counts)
    (item : string * value) : io upload_counts :=
  let '(day_name, workout) := item in
  let! workout_date := lift (get_workout_date parse_date plan_data week_number day_name) in
  (* skip rest days *)
  let! workout_type := lift (get workout "type" VNone) in
  if eq_str workout_type "rest"
  then ret {| total_workouts := total_workouts counts;
              uploaded_workouts := uploaded_workouts counts;
              skipped_workouts := skipped_workouts counts + 1 |}
  else
    let counts := {| total_workouts := total_workouts counts + 1;
                     uploaded_workouts := uploaded_workouts counts;
                     skipped_workouts := skipped_workouts counts |} in
    try_except
      (let! description := lift (get workout "description" (VStr "N/A")) in
       let! _ := lift (slice_to 50 description) in
       let! uploaded := upload_and_schedule workout workout_date week_number day_name in
       ret (if uploaded
            then {| total_workouts := total_workouts counts;
                    uploaded_workouts := uploaded_workouts counts + 1;
                    skipped_workouts := skipped_workouts counts |}
            else counts))
      (fun _ => ret counts).

(** The body of the outer loop of [upload_all]. *)
Definition upload_all_week (counts : upload_counts) (week : Week.t) : io upload_counts :=
  let week_number := Week.week week in
  let! _ := lift match Week.block week with
                 | Some block => Ok block
                 | None => Raise KeyError
                 end in
  for_each (Week.workouts week) (upload_all_day week_number) counts.

Definition upload_all : io upload_counts :=
  for_each weeks upload_all_week
    {| total_workouts := 0; uploaded_workouts := 0; skipped_workouts := 0 |}.

(** The body of the filtering loop of [delete_all]. *)
Definition delete_all_filter (plan_workouts : list value) (workout : value)
  : io (list value) :=
  let! workout_name := lift (get workout "workoutName" (VStr "")) in
  let! in_plan := lift (contains_key "NYC Marathon 2026" workout_name) in
  ret (if in_plan then (plan_workouts ++ [workout])%list else plan_workouts).

(** The body of the deleting loop of [delete_all]. *)
Definition delete_all_delete (counts : deletion_counts) (workout : value)
  : io deletion_counts :=
  let! workout_id := lift (get workout "workoutId" VNone) in
  let! workout_name := lift (get workout "workoutName" (VStr "Unknown")) in
  try_except
    (let! deleted := delete_workout workout_id in
     ret (if deleted
          then {| found_count := found_count counts;
                  deleted_count := deleted_count counts + 1;
                  failed_count := failed_count counts |}
          else {| found_count := found_count counts;
                  deleted_count := deleted_count counts;
                  failed_count := failed_count counts + 1 |}))
    (fun _ =>
       ret {| found_count := found_count counts;
              deleted_count := deleted_count counts;
              failed_count := failed_count counts + 1 |}).

(** The result is what the summary logs, when the run gets there. *)
Definition delete_all : io (option deletion_counts) :=
  try_except
    (let! workouts_data := send GetWorkouts (get_workouts api) in
     if negb (truth workouts_data) then ret None
     else
       let workouts := as_list workouts_data in
       (* filter workouts that match the plan name pattern *)
       let! plan_workouts := for_each workouts delete_all_filter [] in
       match plan_workouts with
       | [] => ret None
       | _ =>
           (* delete each workout *)
           let! counts :=
             for_each plan_workouts delete_all_delete
               {| found_count := Z.of_nat (length plan_workouts);
                  deleted_count := 0;
                  failed_count := 0 |} in
           ret (Some counts)
       end)
    (fun _ => ret None).

(** Step 1 of [update_week]: the body of its loop, on the counter
    [deleted_count]. *)
Definition update_week_delete (week_number : Z) (deleted_count : Z) (workout : value)
  : io Z :=
  let! workout_name := lift (get workout "workoutName" (VStr "")) in
  let! in_week :=
    lift (contains_key ("Week " ++ str_of_int week_number) workout_name) in
  let! in_plan :=
    if in_week then lift (contains_key "NYC Marathon 2026" workout_name)
    else ret false in
  if in_plan
  then
    let! workout_id := lift (get workout "workoutId" VNone) in
    let! deleted := delete_workout workout_id in
    ret (if deleted then deleted_count + 1 else deleted_count)
  else ret deleted_count.

(** Step 2 of [update_week]: the body of its loop, on the counters
    [(uploaded_count, failed_count)]. *)
Definition update_week_day (week_number : Z) (counts : Z * Z)
    (item : string * value) : io (Z * Z) :=
  let '(uploaded_count, failed_count) := counts in
  let '(day_name, workout) := item in
  let! workout_date := lift (get_workout_date parse_date plan_data week_number day_name) in
  (* skip rest days *)
  let! workout_type := lift (get workout "type" VNone) in
  if eq_str workout_type "rest" then ret counts
  else
    try_except
      (let! uploaded := upload_and_schedule workout workout_date week_number day_name in
       ret (if uploaded then (uploaded_count + 1, failed_count)
            else (uploaded_count, failed_count + 1)))
      (fun _ => ret (uploaded_count, failed_count + 1)).

(** The result is the pair [(uploaded_count, failed_count)] the
    summary logs; there is none when the week is not in the plan. *)
Definition update_week (week_number : Z) : io (option (Z * Z)) :=
  (* validate week number *)
  let week_numbers := map Week.week weeks in
  if negb (existsb (Z.eqb week_number) week_numbers) then ret None
  else
    (* find the week data *)
    match find (fun week => Week.week week =? week_number) weeks with
    | None => ret None
    | Some week_data =>
        (* calculate week date range *)
        let! week_start := lift (calculate_week_start_date parse_date plan_data week_number) in
        let! six_days := lift (timedelta 6) in
        let! week_end := lift (datetime_add week_start six_days) in
        (* step 1: delete existing workouts for this week *)
        let! _ :=
          try_except
            (let! workouts_data := send GetWorkouts (get_workouts api) in
             let workouts := as_list workouts_data in
             let! deleted_count :=
               for_each workouts (update_week_delete week_number) 0 in
             ret tt)
            (fun _ => ret tt) in
        (* step 2: upload new workouts for this week *)
        let! counts :=
          for_each (Week.workouts week_data) (update_week_day week_number) (0, 0) in
        ret (Some counts)
    end.

End Operations.

(** A parser for the ISO form [YYYY-MM-DD], on which
    [dateutil.parser.parse] returns that day at midnight; it is the
    instance used to run the calculator on concrete plans. *)
Definition parse_iso_date (timestr : value) : result datetime :=
  match timestr with
  | VStr s =>
      match split "-" s with
      | [y; m; d] =>
          let* year := int_of_str y in
          let* month := int_of_str m in
          let* day := int_of_str d in
          datetime_of year month day
      | _ => Raise ValueError
      end
  | _ => Raise TypeError
  end.

End GarminTrainingPlanSync.

(** ** [export_activities.py]: the pace of an activity *)

Module ExportActivities.

(** [f"{n:02d}"]: at least two characters, padded with a zero. *)
Definition format_02d (n : Z) : string :=
  if (0 <=? n) && (n <? 10) then "0" ++ str_of_int n else str_of_int n.

(** [v == 0]. *)
Definition eq_zero (v : value) : bool :=
  match v with
  | VInt n => n =? 0
  | VBool b => negb b
  | VFloat x => (x =? 0)%float
  | _ => false
  end.

Definition format_pace (meters_per_second : value) : result string :=
  if negb (truth meters_per_second) || eq_zero meters_per_second then Ok "N/A"
  else
    (* m/s to miles per hour *)
    let* mph := mul_float meters_per_second 2.23694 in
    if (mph =? 0)%float then Ok "N/A"
    else
      let min_per_mile := (60 / mph)%float in
      let* minutes := int_of_float min_per_mile in
      let* minutes_float := float_of_int minutes in
      let* seconds := int_of_float ((min_per_mile - minutes_float) * 60)%float in
      Ok (str_of_int minutes ++ ":" ++ format_02d seconds).

End ExportActivities.

(** ** Vocabulary of the statements *)

Import WorkoutBuilder GarminTrainingPlanSync.

(** The leaf steps of a top-level step: itself, or the children of a
    repeat group. *)
Definition leaf_steps (s : workout_step) : list Step.t :=
  match s with
  | ExecutableStepDTO step => [step]
  | RepeatGroupDTO _ _ children => children
  end.

(** The top-level steps of a workout document. *)
Definition workout_steps (doc : workout) : list workout_step :=
  flat_map workoutSteps (workoutSegments doc).

Definition target_type_id (step : Step.t) : Z :=
  Target.workoutTargetTypeId (Step.targetType step).

(** Target type 1 is "no target", 6 is "pace zone"; 4 is heart rate. *)
Definition pace_or_no_target (step : Step.t) : Prop :=
  target_type_id step = 1 \/ target_type_id step = 6.

Definition leaves_targeted (steps : list workout_step) : Prop :=
  Forall (fun s => Forall pace_or_no_target (leaf_steps s)) steps.

(** The offset of a weekday name as the specification gives it:
    monday = 0, tuesday = 1, ... sunday = 6; other names have none. *)
Definition weekday_offset (name : string) : option Z :=
  if String.eqb name "monday" then Some 0
  else if String.eqb name "tuesday" then Some 1
  else if String.eqb name "wednesday" then Some 2
  else if String.eqb name "thursday" then Some 3
  else if String.eqb name "friday" then Some 4
  else if String.eqb name "saturday" then Some 5
  else if String.eqb name "sunday" then Some 6
  else None.

(** The "pace zone" target around a speed. *)
Definition pace_zone_target (speed_mps : float) : Target.t :=
  {| Target.workoutTargetTypeId := 6;
     Target.workoutTargetTypeKey := "pace.zone";
     Target.targetValueOne := Some (speed_mps * 0.95)%float;
     Target.targetValueTwo := Some (speed_mps * 1.05)%float |}.

(** Decimal numerals: non-empty text made of the digits 0..9, and the
    number such a text denotes. *)
Fixpoint all_digits (s : string) : bool :=
  match s with
  | EmptyString => true
  | String c r => isdigit c && all_digits r
  end.

Definition decimal_text (s : string) : bool :=
  negb (String.eqb s "") && all_digits s.

Fixpoint digits_value (acc : Z) (s : string) : Z :=
  match s with
  | EmptyString => acc
  | String c r => digits_value (10 * acc + digit_value c) r
  end.

Fixpoint has_char (sep : ascii) (s : string) : bool :=
  match s with
  | EmptyString => false
  | String c r => Ascii.eqb c sep || has_char sep r
  end.

(** ** Inputs used in the statements *)

(** The pace table [{lactate_threshold: "6:30"}]. *)
Definition threshold_paces : gmap string string :=
  {[ "lactate_threshold" := "6:30" ]}.

(** The structure
    [{intervals: {work: {duration: "20-25 min", pace: "lactate_threshold"},
                  rest: {type: "jog"}, repeat: 3}}]. *)
Definition threshold_intervals : value :=
  VDict {[ "intervals" :=
    VDict {[ "work" := VDict {[ "duration" := VStr "20-25 min";
                                "pace" := VStr "lactate_threshold" ]};
             "rest" := VDict {[ "type" := VStr "jog" ]};
             "repeat" := VInt 3 ]} ]}.

(** A workout holding that structure. *)
Definition threshold_workout : gmap string value :=
  {[ "type" := VStr "lactate_threshold";
     "structure" := threshold_intervals ]}.

(** A rest day: [{type: rest}]. *)
Definition rest_day : gmap string value := {[ "type" := VStr "rest" ]}.

(** A simple workout with an explicit zero distance. *)
Definition zero_distance_workout : gmap string value :=
  {[ "type" := VStr "general_aerobic"; "distance" := VInt 0 ]}.

(** An intervals phase whose work part gives neither duration nor
    distance: [{intervals: {work: {pace: "vo2max"}}}]. *)
Definition bare_intervals : value :=
  VDict {[ "intervals" := VDict {[ "work" := VDict {[ "pace" := VStr "vo2max" ]} ]} ]}.

(** A plan whose goal event is on 2026-11-01. *)
Definition nyc_plan : value :=
  VDict {[ "goal_event" := VDict {[ "name" := VStr "NYC Marathon";
                                    "date" := VStr "2026-11-01" ]} ]}.

Definition goal_day : datetime := {| ordinal := 739921; time_of_day := 0 |}.

(** The work and recovery steps expected from [threshold_intervals]:
    25 minutes at 6:30 per mile give or take 5%, then a 150-second jog. *)
Definition threshold_work_step : Step.t :=
  {| Step.stepOrder := 1;
     Step.stepTypeId := 3;
     Step.stepTypeKey := "interval";
     Step.conditionTypeId := 2;
     Step.conditionTypeKey := "time";
     Step.endConditionValue := VInt 1500;
     Step.targetType :=
       {| Target.workoutTargetTypeId := 6;
          Target.workoutTargetTypeKey := "pace.zone";
          Target.targetValueOne := None;
          Target.targetValueTwo := None |};
     Step.targetValueOne := Some (meters_per_mile / 390 * 0.95)%float;
     Step.targetValueTwo := Some (meters_per_mile / 390 * 1.05)%float |}.

Definition threshold_recovery_step : Step.t :=
  {| Step.stepOrder := 2;
     Step.stepTypeId := 4;
     Step.stepTypeKey := "recovery";
     Step.conditionTypeId := 2;
     Step.conditionTypeKey := "time";
     Step.endConditionValue := VInt 150;
     Step.targetType := get_no_target;
     Step.targetValueOne := None;
     Step.targetValueTwo := None |}.

(** The default simple step: five miles at the given target. *)
Definition five_mile_step (start_order : Z) (target : Target.t) : Step.t :=
  create_executable_step start_order 3 "interval" 3 "distance"
    (VFloat (5 * meters_per_mile)%float) (Some target).

(** The document of a simple workout made of the given steps. *)
Definition simple_document (name : string) (steps : list workout_step) : workout :=
  {| workoutName := name;
     description := VStr "";
     sportType := {| sportTypeId := 1; sportTypeKey := "running";
                     displayOrder := None |};
     estimatedDurationInSecs := 3600;
     workoutSegments :=
       [ {| segmentOrder := 1;
            segmentSportType := {| sportTypeId := 1; sportTypeKey := "running";
                                   displayOrder := Some 1 |};
            workoutSteps := steps |} ] |}.

Definition zero_distance_document : workout :=
  simple_document "NYC Marathon 2026 - Week 3 - Friday"
    [ExecutableStepDTO (five_mile_step 1 get_no_target)].


(** A [repr] to run the builder with; no statement depends on it. *)
Definition plain_repr (v : value) : string := "".

Import ExportActivities.

(** ** More vocabulary *)

(** Text of ASCII characters, on which the case mappings of the model
    are those of Python. *)
Fixpoint ascii_text (s : string) : bool :=
  match s with
  | EmptyString => true
  | String c r => (code c <? 128)%N && ascii_text r
  end.

(** [date.weekday()]: Monday is 0 and Sunday is 6. *)
Definition weekday (d : datetime) : Z := (ordinal d + 6) mod 7.

(** The goal date a plan yields: the three first statements of
    [calculate_week_start_date]. *)
Definition race_date (parse_date : value -> result datetime) (plan_data : value)
  : result datetime :=
  let* goal_event := getitem plan_data "goal_event" in
  let* race_date_str := getitem goal_event "date" in
  parse_date race_date_str.

(** The role of a top-level step: the key of its step type, or
    ["repeat"] for a repeat group; and its [stepOrder]. *)
Definition step_role (s : workout_step) : string :=
  match s with
  | ExecutableStepDTO step => Step.stepTypeKey step
  | RepeatGroupDTO _ _ _ => "repeat"
  end.

Definition step_order_of (s : workout_step) : Z :=
  match s with
  | ExecutableStepDTO step => Step.stepOrder step
  | RepeatGroupDTO order _ _ => order
  end.

(** The identifier pairs the remote service knows, as the builder
    writes them. *)
Definition step_type_pair (step : Step.t) : Prop :=
  (Step.stepTypeId step = 1 /\ Step.stepTypeKey step = "warmup")
  \/ (Step.stepTypeId step = 2 /\ Step.stepTypeKey step = "cooldown")
  \/ (Step.stepTypeId step = 3 /\ Step.stepTypeKey step = "interval")
  \/ (Step.stepTypeId step = 4 /\ Step.stepTypeKey step = "recovery").

Definition end_condition_pair (step : Step.t) : Prop :=
  (Step.conditionTypeId step = 2 /\ Step.conditionTypeKey step = "time")
  \/ (Step.conditionTypeId step = 3 /\ Step.conditionTypeKey step = "distance").

(** The two shapes of a step's target: no target and no bounds, or a
    pace zone with the bounds 0.95 and 1.05 times one speed.  In both
    the [targetType] dictionary itself carries no bound. *)
Definition target_pair (step : Step.t) : Prop :=
  (Step.targetType step
   = {| Target.workoutTargetTypeId := 1;
        Target.workoutTargetTypeKey := "no.target";
        Target.targetValueOne := None;
        Target.targetValueTwo := None |}
   /\ Step.targetValueOne step = None /\ Step.targetValueTwo step = None)
  \/ (exists speed,
        Step.targetType step
        = {| Target.workoutTargetTypeId := 6;
             Target.workoutTargetTypeKey := "pace.zone";
             Target.targetValueOne := None;
             Target.targetValueTwo := None |}
        /\ Step.targetValueOne step = Some (speed * 0.95)%float
        /\ Step.targetValueTwo step = Some (speed * 1.05)%float).

Definition leaf_well_formed (step : Step.t) : Prop :=
  step_type_pair step /\ end_condition_pair step /\ target_pair step
  /\ (Step.stepTypeKey step = "recovery" ->
      Step.conditionTypeKey step = "time"
      /\ Target.workoutTargetTypeId (Step.targetType step) = 1
      /\ Target.workoutTargetTypeKey (Step.targetType step) = "no.target")
  /\ (Step.stepTypeKey step = "warmup" \/ Step.stepTypeKey step = "cooldown" ->
      Step.conditionTypeKey step = "distance")
  /\ (Step.conditionTypeKey step = "time" ->
      exists seconds, Step.endConditionValue step = VInt seconds).

Definition leaves_well_formed (steps : list workout_step) : Prop :=
  Forall (fun s => Forall leaf_well_formed (leaf_steps s)) steps.

(** Role and order of a top-level step, and 1 for [true]. *)
Definition role_and_order (s : workout_step) : string * Z :=
  (step_role s, step_order_of s).

Definition one_if (b : bool) : Z := if b then 1 else 0.



(** A structure with warmup, main and cooldown, and one whose main
    block gives neither duration nor distance. *)
Definition long_run_phases : gmap string value :=
  {[ "warmup" := VDict ∅;
     "main" := VDict {[ "distance" := VInt 8 ]};
     "cooldown" := VDict ∅ ]}.

Definition long_run_structure : value := VDict long_run_phases.

Definition long_run_steps : list workout_step :=
  [ExecutableStepDTO (create_executable_step 1 1 "warmup" 3 "distance"
                        (VFloat 3218.68%float) (Some get_no_target));
   ExecutableStepDTO (create_executable_step 2 3 "interval" 3 "distance"
                        (VFloat (8 * meters_per_mile)%float) (Some get_no_target));
   ExecutableStepDTO (create_executable_step 3 2 "cooldown" 3 "distance"
                        (VFloat 3218.68%float) (Some get_no_target))].


(** The recovery step of a repeat group, of the given length. *)
Definition recovery_step (seconds : Z) : Step.t :=
  create_executable_step 2 4 "recovery" 2 "time" (VInt seconds) (Some get_no_target).

(** Whether a text, or a sequence, mentions one of the four phase
    names the builder looks for. *)
Definition mentions_phase (structure : value) : bool :=
  match contains_key "warmup" structure, contains_key "intervals" structure,
        contains_key "main" structure, contains_key "cooldown" structure with
  | Ok a, Ok b, Ok c, Ok d => a || b || c || d
  | _, _, _, _ => false
  end.

(** Work intervals used as examples: a numeric duration, a textual
    distance in meters, a textual distance in miles. *)
Definition numeric_duration_work : gmap string value :=
  {[ "duration" := VInt 90; "distance" := VInt 1 ]}.

Definition metric_text_work : gmap string value :=
  {[ "distance" := VStr "800"; "unit" := VStr "meters" ]}.

Definition text_distance_work : gmap string value :=
  {[ "distance" := VStr "0.5" ]}.

(** Fields joined by colons, as in "1:30:00". *)
Fixpoint clock_text (fields : list string) : string :=
  match fields with
  | [] => EmptyString
  | [field] => field
  | field :: rest => field ++ String ":" (clock_text rest)
  end.

Definition decimal_fields (fields : list string) : Prop :=
  Forall (fun field => decimal_text field = true) fields.

(** Fields of at most 4300 characters: [int] converts no decimal
    numeral of more digits. *)
Definition int_sized (fields : list string) : Prop :=
  Forall (fun field => (String.length field <= 4300)%nat) fields.

(** *** Vocabulary of the batch operations *)

(** The name the builder gives the workout of a day of a week. *)
Definition plan_workout_name (week_number : Z) (day_name : string) : string :=
  "NYC Marathon 2026 - Week " ++ str_of_int week_number ++ " - " ++ capitalize day_name.

Definition delete_url (repr : value -> string) (workout_id : value) : string :=
  "/workout-service/workout/" ++ str repr workout_id.

Definition schedule_url (repr : value -> string) (workout_id : value) : string :=
  "/workout-service/schedule/" ++ str repr workout_id.

(** A day whose workout is a mapping of type ["rest"]. *)
Definition is_rest_day (workout : value) : bool :=
  match workout with
  | VDict workout_data => eq_str (dict_get workout_data "type" VNone) "rest"
  | _ => false
  end.

(** The calls made for one day of the plan: the upload of the document
    built for that day and its date, alone or directly followed by
    the scheduling of the uploaded workout on that same date. *)
Definition day_calls (parse_date : value -> result datetime) (plan_data : value)
    (paces : gmap string string) (repr : value -> string)
    (strftime : datetime -> string)
    (week_number : Z) (item : string * value) (calls : list request) : Prop :=
  exists workout_data workout_date workout_json,
    snd item = VDict workout_data
    /\ is_rest_day (snd item) = false
    /\ get_workout_date parse_date plan_data week_number (fst item) = Ok workout_date
    /\ build_workout_from_yaml paces repr workout_data workout_date week_number (fst item)
       = Ok workout_json
    /\ (calls = [UploadWorkout workout_json]
        \/ exists workout_id,
             truth workout_id = true
             /\ calls = [UploadWorkout workout_json;
                         PostSchedule (schedule_url repr workout_id)
                           (strftime workout_date)]).

(** The calls made for a plan: for some of its days, in turn. *)
Definition plan_calls (parse_date : value -> result datetime) (plan_data : value)
    (paces : gmap string string) (repr : value -> string)
    (strftime : datetime -> string) (weeks : list Week.t)
    (calls : list request) : Prop :=
  exists blocks,
    calls = concat blocks
    /\ Forall (fun block =>
                 exists week item,
                   In week weeks /\ In item (Week.workouts week)
                   /\ day_calls parse_date plan_data paces repr strftime
                        (Week.week week) item block) blocks.

(** What [upload_all] needs of a plan to run to its end: every week
    has a block, every day has a date and a mapping. *)
Definition day_ready (parse_date : value -> result datetime) (plan_data : value)
    (week_number : Z) (item : string * value) : Prop :=
  is_ok (get_workout_date parse_date plan_data week_number (fst item)) = true
  /\ exists workout_data, snd item = VDict workout_data.

Definition week_ready (parse_date : value -> result datetime) (plan_data : value)
    (week : Week.t) : Prop :=
  Week.block week <> None
  /\ Forall (day_ready parse_date plan_data (Week.week week)) (Week.workouts week).

(** The days of a week, and of a plan, whose workout passes a test. *)
Definition count_in (p : value -> bool) (items : list (string * value)) : Z :=
  Z.of_nat (length (List.filter p (map snd items))).

Definition count_days (p : value -> bool) (weeks : list Week.t) : Z :=
  fold_right (fun week n => count_in p (Week.workouts week) + n) 0 weeks.

Definition is_workout_day (workout : value) : bool := negb (is_rest_day workout).

Definition is_upload (r : request) : bool :=
  match r with UploadWorkout _ => true | _ => false end.

Definition count_uploads (h : history) : Z := Z.of_nat (length (List.filter is_upload h)).

(** An answer to an upload that counts as an upload done: a mapping
    that is not empty.  An exception, an empty or null result and a
    result that is no mapping do not count. *)
Definition counted_answer (answer : result value) : bool :=
  match answer with
  | Ok (VDict d) => truth (VDict d)
  | _ => false
  end.

(** The uploads among [calls], made after the history [h], whose
    answer counts. *)
Fixpoint counted_uploads (api : service) (h : history) (calls : list request) : Z :=
  match calls with
  | [] => 0
  | r :: rest =>
      (match r with
       | UploadWorkout workout_json =>
           if counted_answer (upload_workout api h workout_json) then 1 else 0
       | _ => 0
       end)
      + counted_uploads api (h ++ [r])%list rest
  end.

(** The test [delete_all] and [update_week] apply to a listed workout. *)
Definition named_in_plan (workout : value) : result bool :=
  let* workout_name := get workout "workoutName" (VStr "") in
  contains_key "NYC Marathon 2026" workout_name.

Definition named_in_week (week_number : Z) (workout : value) : result bool :=
  let* workout_name := get workout "workoutName" (VStr "") in
  let* in_week := contains_key ("Week " ++ str_of_int week_number) workout_name in
  if in_week then contains_key "NYC Marathon 2026" workout_name else Ok false.

Definition selected (test : value -> result bool) (workout : value) : bool :=
  match test workout with Ok b => b | Raise _ => false end.

Definition listed_id (workout : value) : value :=
  match workout with
  | VDict d => dict_get d "workoutId" VNone
  | _ => VNone
  end.

(** *** Inputs used in the statements on the batch operations *)

Definition two_digits (n : Z) : string :=
  if n <? 10 then "0" ++ str_of_int n else str_of_int n.

(** [strftime('%Y-%m-%d')] for the years of four digits; it is the
    instance used to run the operations on concrete plans. *)
Definition iso_date (d : datetime) : string :=
  let '(year, month, day) := date_of d in
  str_of_int year ++ "-" ++ two_digits month ++ "-" ++ two_digits day.

(** Two weeks of a plan: a rest day, the threshold intervals and an
    easy run in week 1, an easy run in week 12. *)
Definition sample_weeks : list Week.t :=
  [ {| Week.week := 1;
       Week.block := Some (VStr "base");
       Week.workouts := [ ("monday", VDict rest_day);
                          ("tuesday", VDict threshold_workout);
                          ("friday", VDict zero_distance_workout) ] |};
    {| Week.week := 12;
       Week.block := Some (VStr "race preparation");
       Week.workouts := [ ("monday", VDict zero_distance_workout) ] |} ].

(** A service that lists the given workouts, accepts every request
    and numbers the uploads by the calls made so far. *)
Definition accepting_service (listing : value) : service :=
  {| get_workouts := fun _ => Ok listing;
     delete_status := fun _ _ => Ok 204;
     schedule_status := fun _ _ _ => Ok 200;
     upload_workout := fun h _ =>
       Ok (VDict {[ "workoutId" := VInt (Z.of_nat (length h) + 1) ]}) |}.

(** A service that answers the first call with an empty result and
    is [accepting_service] from then on. *)
Definition slow_starting_service : service :=
  {| get_workouts := fun _ => Ok VNone;
     delete_status := fun _ _ => Ok 204;
     schedule_status := fun _ _ _ => Ok 200;
     upload_workout := fun h workout_json =>
       match h with
       | [] => Ok (VDict ∅)
       | _ => upload_workout (accepting_service VNone) h workout_json
       end |}.

(** The deletion request for a listed workout. *)
Definition delete_request (repr : value -> string) (workout : value) : request :=
  DeleteRequest (delete_url repr (listed_id workout)).

(** Four listed workouts: two of this plan (weeks 1 and 12), one of
    another plan, and one the user named after the race. *)
Definition listed_week_one : gmap string value :=
  {[ "workoutId" := VInt 101;
     "workoutName" := VStr "NYC Marathon 2026 - Week 1 - Tuesday" ]}.

Definition listed_other_plan : gmap string value :=
  {[ "workoutId" := VInt 102;
     "workoutName" := VStr "Boston 2027 - Week 1 - Tuesday" ]}.

Definition listed_week_twelve : gmap string value :=
  {[ "workoutId" := VInt 103;
     "workoutName" := VStr "NYC Marathon 2026 - Week 12 - Monday" ]}.

Definition listed_shakeout : gmap string value :=
  {[ "workoutId" := VInt 104;
     "workoutName" := VStr "Shakeout before NYC Marathon 2026" ]}.

Definition sample_listing : value :=
  VList [ VDict listed_week_one; VDict listed_other_plan;
          VDict listed_week_twelve; VDict listed_shakeout ].

(** The document built for the easy run of week 12. *)
Definition week_twelve_document : workout :=
  simple_document "NYC Marathon 2026 - Week 12 - Monday"
    [ExecutableStepDTO (five_mile_step 1 get_no_target)].

(** The calls of a deletion step: the listing and the deletions. *)
Definition lists_or_deletes (r : request) : Prop :=
  r = GetWorkouts \/ exists url, r = DeleteRequest url.

(** The weeks of the plan that carry a number. *)
Definition weeks_numbered (week_number : Z) (weeks : list Week.t) : list Week.t :=
  List.filter (fun week => Week.week week =? week_number) weeks.

(** *** Vocabulary of the pace round trip *)

(** The pace text "m:ss" of [m] minutes and [s] seconds. *)
Definition pace_text (m s : Z) : string := str_of_int m ++ ":" ++ format_02d s.

(** What the exporter prints for the speed the builder computes. *)
Definition pace_round_trip (pace : string) : result string :=
  let* speed_mps := pace_to_speed pace in
  format_pace (VFloat speed_mps).

(** The paces "m:ss" with [m] below [minutes] and [ss] below 60 that
    come back unchanged, that of zero seconds apart. *)
Definition paces_come_back (minutes : nat) : bool :=
  forallb (fun m =>
    forallb (fun s =>
      let pace := pace_text (Z.of_nat m) (Z.of_nat s) in
      match (m, s) with
      | (O, O) => true
      | _ => match pace_round_trip pace with
             | Ok text => String.eqb text pace
             | Raise _ => false
             end
      end) (seq 0 60)) (seq 0 minutes).

(** A week with a misspelt day after a valid one. *)
Definition misspelt_week : Week.t :=
  {| Week.week := 1;
     Week.block := Some (VStr "base");
     Week.workouts := [ ("tuesday", VDict threshold_workout);
                        ("wendesday", VDict zero_distance_workout) ] |}.

(** ** Reasoning about the exception monad *)

Lemma bind_Ok {A B : Type} (m : result A) (k : A -> result B) (b : B) :
  bind m k = Ok b -> exists a, m = Ok a /\ k a = Ok b.
Proof.
  destruct m as [a|e]; simpl; intros H.
  - exists a. split; [reflexivity | exact H].
  - discriminate H.
Qed.

(** Splits a successful run into the successful runs of its parts. *)
Ltac run_inv :=
  repeat match goal with
    | H : bind _ _ = Ok _ |- _ =>
        let a := fresh "a" in
        let Ha := fresh "Ha" in
        apply bind_Ok in H; destruct H as (a & Ha & H)
    | H : Ok _ = Ok _ |- _ => inversion H; subst; clear H
    | H : Raise _ = Ok _ |- _ => discriminate H
    | H : (let '(_, _) := ?p in _) = Ok _ |- _ => destruct p
    | H : (if ?b then _ else _) = Ok _ |- _ => destruct b eqn:?
    | H : match ?x with _ => _ end = Ok _ |- _ => destruct x eqn:?
    end.

(** ** Decimal text *)

Lemma isdigit_facts c :
  isdigit c = true ->
  isspace c = false
  /\ 0 <= digit_value c <= 9
  /\ Ascii.eqb c ":" = false /\ Ascii.eqb c "-" = false
  /\ Ascii.eqb c "+" = false /\ Ascii.eqb c "_" = false
  /\ Ascii.eqb c "." = false.
Proof.
  destruct c as [[] [] [] [] [] [] [] []]; vm_compute; intros H;
    try discriminate H; repeat split; try reflexivity; intros H'; discriminate H'.
Qed.

Lemma all_digits_no_char sep s :
  (forall c, isdigit c = true -> Ascii.eqb c sep = false) ->
  all_digits s = true -> has_char sep s = false.
Proof.
  intros Hsep. induction s as [| c r IH]; simpl; [reflexivity |].
  intros H. apply andb_prop in H. destruct H as [Hc Hr].
  rewrite (Hsep c Hc), (IH Hr). reflexivity.
Qed.

Lemma lstrip_decimal s : all_digits s = true -> lstrip s = s.
Proof.
  destruct s as [| c r]; simpl; [reflexivity |].
  intros H. apply andb_prop in H. destruct H as [Hc _].
  destruct (isdigit_facts c Hc) as [-> _]. reflexivity.
Qed.

Lemma rstrip_decimal s : all_digits s = true -> rstrip s = s.
Proof.
  induction s as [| c r IH]; simpl; [reflexivity |].
  intros H. apply andb_prop in H. destruct H as [Hc Hr].
  rewrite (IH Hr). destruct (isdigit_facts c Hc) as [-> _].
  destruct r; reflexivity.
Qed.

Lemma strip_decimal s : all_digits s = true -> strip s = s.
Proof.
  intros H. unfold strip. rewrite (lstrip_decimal s H). exact (rstrip_decimal s H).
Qed.

Lemma isspace_c_isspace c : isspace_c c = true -> isspace c = true.
Proof.
  destruct c as [[] [] [] [] [] [] [] []]; vm_compute; intros H;
    first [reflexivity | discriminate H].
Qed.

Lemma not_isspace_c c : isspace c = false -> isspace_c c = false.
Proof.
  intros H. destruct (isspace_c c) eqn:E; [| reflexivity].
  rewrite (isspace_c_isspace c E) in H. discriminate H.
Qed.

(** Text that [str.strip] leaves alone is left alone by the
    conversions as well. *)
Lemma lstrip_c_stripped s : lstrip s = s -> lstrip_c s = s.
Proof.
  destruct s as [| c r]; [reflexivity |]. cbn [lstrip lstrip_c].
  destruct (isspace c) eqn:E.
  - intros H. exfalso.
    assert (Hlen : forall t, (String.length (lstrip t) <= String.length t)%nat).
    { induction t as [| d t IH]; cbn [lstrip String.length]; [lia |].
      destruct (isspace d); cbn [String.length]; lia. }
    pose proof (Hlen r) as Hr. rewrite H in Hr. cbn [String.length] in Hr. lia.
  - intros _. rewrite (not_isspace_c c E). reflexivity.
Qed.

Lemma rstrip_c_stripped s : rstrip s = s -> rstrip_c s = s.
Proof.
  induction s as [| c r IH]; [reflexivity |]. cbn [rstrip rstrip_c].
  destruct (rstrip r) as [| d r'] eqn:Er.
  - destruct (isspace c) eqn:E; [discriminate |].
    intros H. injection H as <-. cbn [rstrip_c].
    rewrite (not_isspace_c c E). reflexivity.
  - intros H. injection H as <-. rewrite (IH eq_refl). reflexivity.
Qed.

Lemma strip_c_stripped s : lstrip s = s -> rstrip s = s -> strip_c s = s.
Proof.
  intros Hl Hr. unfold strip_c. rewrite (lstrip_c_stripped s Hl).
  exact (rstrip_c_stripped s Hr).
Qed.

Lemma strip_c_decimal s : all_digits s = true -> strip_c s = s.
Proof.
  intros H. apply strip_c_stripped; [exact (lstrip_decimal s H) | exact (rstrip_decimal s H)].
Qed.

Lemma count_digits_decimal s :
  all_digits s = true -> count_digits s = Z.of_nat (String.length s).
Proof.
  induction s as [| c r IH]; [reflexivity |]. cbn [all_digits count_digits String.length].
  intros H. apply andb_prop in H. destruct H as [Hc Hr].
  rewrite Hc, (IH Hr). lia.
Qed.

Lemma split_without sep s : has_char sep s = false -> split sep s = [s].
Proof.
  induction s as [| c r IH]; simpl; [reflexivity |].
  intros H. apply orb_false_elim in H. destruct H as [Hc Hr].
  rewrite Hc, (IH Hr). reflexivity.
Qed.

Lemma split_at_first sep a b :
  has_char sep a = false ->
  split sep (a ++ String sep b) = a :: split sep b.
Proof.
  induction a as [| c r IH]; simpl.
  - intros _. rewrite Ascii.eqb_refl. reflexivity.
  - intros H. apply orb_false_elim in H. destruct H as [Hc Hr].
    rewrite Hc, (IH Hr). reflexivity.
Qed.

Lemma contains_char_middle sep a b :
  contains (String sep EmptyString) (a ++ String sep b) = true.
Proof.
  induction a as [| c r IH]; simpl.
  - rewrite Ascii.eqb_refl. reflexivity.
  - rewrite IH. apply orb_true_r.
Qed.

Lemma digitpart_decimal s acc :
  all_digits s = true -> digitpart acc true s = Some (digits_value acc s).
Proof.
  revert acc. induction s as [| c r IH]; intros acc; simpl; [reflexivity |].
  intros H. apply andb_prop in H. destruct H as [Hc Hr].
  rewrite Hc. exact (IH _ Hr).
Qed.

Lemma int_of_str_decimal s :
  decimal_text s = true -> (String.length s <= 4300)%nat ->
  int_of_str s = Ok (digits_value 0 s).
Proof.
  unfold decimal_text. intros H Hlen. apply andb_prop in H. destruct H as [Hne Hd].
  unfold int_of_str. rewrite (strip_c_decimal s Hd).
  pose proof (count_digits_decimal s Hd) as Hcount.
  destruct s as [| c r]; [discriminate Hne |].
  simpl in Hd. apply andb_prop in Hd. destruct Hd as [Hc Hr].
  assert (Hsign : split_sign (String c r) = (false, String c r)).
  { destruct (isdigit_facts c Hc) as (_ & _ & _ & Hminus & Hplus & _).
    unfold split_sign.
    destruct (Ascii.eqb_spec c "-") as [-> |]; [discriminate Hminus |].
    destruct (Ascii.eqb_spec c "+") as [-> |]; [discriminate Hplus |].
    destruct c as [[] [] [] [] [] [] [] []]; try reflexivity; congruence. }
  rewrite Hsign. cbn [digitpart]. rewrite Hc.
  rewrite (digitpart_decimal r _ Hr). rewrite Hcount.
  unfold MAX_STR_DIGITS.
  destruct (Z.ltb_spec 4300 (Z.of_nat (String.length (String c r)))); [lia | reflexivity].
Qed.

Lemma digits_value_bounds s acc :
  0 <= acc -> all_digits s = true ->
  0 <= digits_value acc s < (acc + 1) * 10 ^ Z.of_nat (String.length s).
Proof.
  revert acc. induction s as [| c r IH]; intros acc Hacc Hd.
  - simpl. lia.
  - simpl in Hd. apply andb_prop in Hd. destruct Hd as [Hc Hr].
    destruct (isdigit_facts c Hc) as (_ & Hv & _).
    cbn [digits_value String.length].
    specialize (IH (10 * acc + digit_value c) ltac:(lia) Hr).
    rewrite Nat2Z.inj_succ, Z.pow_succ_r by lia.
    split; [lia |].
    eapply Z.lt_le_trans; [exact (proj2 IH) |].
    assert (0 < 10 ^ Z.of_nat (String.length r)) by (apply Z.pow_pos_nonneg; lia).
    nia.
Qed.

Lemma split_sign_decimal s :
  decimal_text s = true -> split_sign s = (false, s).
Proof.
  unfold decimal_text. intros H. apply andb_prop in H. destruct H as [Hne Hd].
  destruct s as [| c r]; [discriminate Hne |].
  simpl in Hd. apply andb_prop in Hd. destruct Hd as [Hc _].
  destruct (isdigit_facts c Hc) as (_ & _ & _ & Hminus & Hplus & _).
  unfold split_sign.
  destruct (Ascii.eqb_spec c "-") as [-> |]; [discriminate Hminus |].
  destruct (Ascii.eqb_spec c "+") as [-> |]; [discriminate Hplus |].
  destruct c as [[] [] [] [] [] [] [] []]; try reflexivity; congruence.
Qed.

Lemma strip_underscores_decimal s prev :
  Ascii.eqb prev "_" = false -> all_digits s = true ->
  strip_underscores prev s = Some s.
Proof.
  revert prev. induction s as [| c r IH]; intros prev Hprev Hd; simpl.
  - rewrite Hprev. reflexivity.
  - simpl in Hd. apply andb_prop in Hd. destruct Hd as [Hc Hr].
    destruct (isdigit_facts c Hc) as (_ & _ & _ & _ & _ & Hu & _).
    rewrite Hu, Hc, Hprev. simpl. rewrite (IH c Hu Hr). reflexivity.
Qed.

Lemma lower_decimal s : all_digits s = true -> lower s = s.
Proof.
  induction s as [| c r IH]; simpl; [reflexivity |].
  intros H. apply andb_prop in H. destruct H as [Hc Hr].
  rewrite (IH Hr). f_equal.
  destruct c as [[] [] [] [] [] [] [] []]; try reflexivity; discriminate Hc.
Qed.

Lemma decimal_not_word s c w :
  decimal_text s = true -> isdigit c = false -> String.eqb s (String c w) = false.
Proof.
  unfold decimal_text. intros H Hc. apply andb_prop in H. destruct H as [Hne Hd].
  destruct s as [| d r]; [reflexivity |].
  simpl in Hd. apply andb_prop in Hd. destruct Hd as [Hdigit _].
  simpl. destruct (Ascii.eqb_spec d c) as [-> |]; [congruence | reflexivity].
Qed.

Lemma span_digits_decimal s acc count :
  all_digits s = true ->
  span_digits acc count s
  = (digits_value acc s, count + Z.of_nat (String.length s), EmptyString).
Proof.
  revert acc count. induction s as [| c r IH]; intros acc count Hd.
  - simpl. rewrite Z.add_0_r. reflexivity.
  - simpl in Hd. apply andb_prop in Hd. destruct Hd as [Hc Hr].
    cbn [span_digits digits_value String.length]. rewrite Hc.
    rewrite (IH _ _ Hr). rewrite Nat2Z.inj_succ. do 2 f_equal. lia.
Qed.

Lemma float_of_decimal_integer m ndigits :
  0 <= m -> 0 <= ndigits -> float_of_decimal false m ndigits 0 = nearest_float m.
Proof.
  intros Hm Hn. unfold float_of_decimal.
  destruct m as [| p | p]; [reflexivity | | lia].
  change (310 <? 0) with false. cbn iota.
  destruct (Z.ltb_spec (0 + ndigits) (-330)); [lia |].
  change (0 <=? 0) with true. cbn iota.
  change (10 ^ 0) with 1. rewrite Z.mul_1_r. reflexivity.
Qed.

(** [float] of a decimal numeral is the float nearest to its value. *)
Lemma float_of_str_decimal s :
  decimal_text s = true -> float_of_str s = Ok (nearest_float (digits_value 0 s)).
Proof.
  intros Hs. pose proof Hs as Hs'. unfold decimal_text in Hs'.
  apply andb_prop in Hs'. destruct Hs' as [Hne Hd].
  unfold float_of_str. rewrite (strip_c_decimal s Hd).
  rewrite (strip_underscores_decimal s " " eq_refl Hd).
  rewrite (split_sign_decimal s Hs). rewrite (lower_decimal s Hd).
  rewrite (decimal_not_word s "i" "nf" Hs eq_refl).
  rewrite (decimal_not_word s "i" "nfinity" Hs eq_refl).
  rewrite (decimal_not_word s "n" "an" Hs eq_refl). cbn [orb].
  rewrite (span_digits_decimal s 0 0 Hd).
  cbn [exponent_part].
  assert (Hlen : 0 < Z.of_nat (String.length s)).
  { destruct s; [discriminate Hne | simpl; lia]. }
  destruct (Z.ltb_spec 0 (0 + Z.of_nat (String.length s) + 0)); [| lia].
  rewrite Z.sub_0_r.
  rewrite float_of_decimal_integer; [reflexivity | | lia].
  exact (proj1 (digits_value_bounds s 0 ltac:(lia) Hd)).
Qed.

Lemma rstrip_app x y :
  rstrip y = y -> y <> EmptyString -> rstrip (x ++ y) = (x ++ y)%string.
Proof.
  intros Hy Hne. induction x as [| c r IH]; [exact Hy |].
  change (String c r ++ y)%string with (String c (r ++ y)).
  cbn [rstrip]. rewrite IH.
  destruct (r ++ y)%string eqn:E; [| reflexivity].
  destruct r; simpl in E; [contradiction | discriminate E].
Qed.

Lemma strip_range a b :
  decimal_text a = true -> decimal_text b = true ->
  strip (a ++ String "-" b) = (a ++ String "-" b)%string.
Proof.
  unfold decimal_text. intros Ha Hb.
  apply andb_prop in Ha. destruct Ha as [Hane Had].
  apply andb_prop in Hb. destruct Hb as [Hbne Hbd].
  unfold strip.
  assert (Hl : lstrip (a ++ String "-" b) = (a ++ String "-" b)%string).
  { destruct a as [| c r]; [discriminate Hane |].
    simpl in Had. apply andb_prop in Had. destruct Had as [Hc _].
    simpl. destruct (isdigit_facts c Hc) as [-> _]. reflexivity. }
  rewrite Hl. apply rstrip_app; [| discriminate].
  simpl. rewrite (rstrip_decimal b Hbd).
  destruct b; [discriminate Hbne | reflexivity].
Qed.

(** ** Target resolution *)

Lemma get_target_speed_zone_shape paces pace_zone target :
  get_target_speed_zone paces pace_zone = Ok target ->
  target = get_no_target \/ exists speed, target = pace_zone_target speed.
Proof.
  unfold get_target_speed_zone. intros H.
  destruct pace_zone; run_inv; auto; right; eexists; reflexivity.
Qed.

Lemma get_target_speed_zone_id paces pace_zone target :
  get_target_speed_zone paces pace_zone = Ok target ->
  Target.workoutTargetTypeId target = 1 \/ Target.workoutTargetTypeId target = 6.
Proof.
  intros H. apply get_target_speed_zone_shape in H.
  destruct H as [-> | [speed ->]]; [left | right]; reflexivity.
Qed.

Lemma create_executable_step_target_id o ti tk ci ck v target :
  target_type_id (create_executable_step o ti tk ci ck v (Some target))
  = Target.workoutTargetTypeId target.
Proof. reflexivity. Qed.

Lemma created_step_targeted paces pace_zone target o ti tk ci ck v :
  get_target_speed_zone paces pace_zone = Ok target ->
  pace_or_no_target (create_executable_step o ti tk ci ck v (Some target)).
Proof.
  intros H. unfold pace_or_no_target.
  rewrite create_executable_step_target_id.
  exact (get_target_speed_zone_id _ _ _ H).
Qed.

Lemma leaves_targeted_snoc steps step :
  leaves_targeted steps ->
  Forall pace_or_no_target (leaf_steps step) ->
  leaves_targeted (steps ++ [step]).
Proof.
  intros Hs Hl. unfold leaves_targeted.
  apply Forall_app. split; [exact Hs | constructor; [exact Hl | constructor]].
Qed.

(** ** The phases keep every leaf on target type 1 or 6 *)

Section PhaseInvariant.

Variable paces : gmap string string.
Variable repr : value -> string.

Lemma warmup_phase_targeted structure steps o steps' o' :
  warmup_phase paces repr structure (steps, o) = Ok (steps', o') ->
  leaves_targeted steps -> leaves_targeted steps'.
Proof.
  unfold warmup_phase. intros H Hs. run_inv; [| exact Hs].
  apply leaves_targeted_snoc; [exact Hs |].
  constructor; [| constructor].
  eapply created_step_targeted; eassumption.
Qed.

Lemma work_interval_targeted work step :
  work_interval paces work = Ok step -> pace_or_no_target step.
Proof.
  unfold work_interval. intros H.
  run_inv; eapply created_step_targeted; eassumption.
Qed.

Lemma rest_interval_targeted rest children :
  rest_interval rest = Ok children -> Forall pace_or_no_target children.
Proof.
  unfold rest_interval. intros H.
  run_inv; repeat constructor.
Qed.

Lemma intervals_phase_targeted structure steps o steps' o' :
  intervals_phase paces structure (steps, o) = Ok (steps', o') ->
  leaves_targeted steps -> leaves_targeted steps'.
Proof.
  unfold intervals_phase. intros H Hs. run_inv; [| exact Hs].
  apply leaves_targeted_snoc; [exact Hs |].
  unfold create_repeat_group. simpl.
  constructor.
  - eapply work_interval_targeted; eassumption.
  - eapply rest_interval_targeted; eassumption.
Qed.

Lemma main_phase_targeted structure steps o steps' o' :
  main_phase paces repr structure (steps, o) = Ok (steps', o') ->
  leaves_targeted steps -> leaves_targeted steps'.
Proof.
  unfold main_phase. intros H Hs.
  run_inv; try exact Hs;
    (apply leaves_targeted_snoc; [exact Hs |];
     constructor; [| constructor];
     eapply created_step_targeted; eassumption).
Qed.

Lemma cooldown_phase_targeted structure steps o steps' o' :
  cooldown_phase paces repr structure (steps, o) = Ok (steps', o') ->
  leaves_targeted steps -> leaves_targeted steps'.
Proof.
  unfold cooldown_phase. intros H Hs. run_inv; [| exact Hs].
  apply leaves_targeted_snoc; [exact Hs |].
  constructor; [| constructor].
  eapply created_step_targeted; eassumption.
Qed.

Lemma build_structured_workout_targeted structure start_order steps :
  _build_structured_workout paces repr structure start_order = Ok steps ->
  leaves_targeted steps.
Proof.
  unfold _build_structured_workout. intros H.
  apply bind_Ok in H. destruct H as ([s1 o1] & H1 & H).
  apply bind_Ok in H. destruct H as ([s2 o2] & H2 & H).
  apply bind_Ok in H. destruct H as ([s3 o3] & H3 & H).
  apply bind_Ok in H. destruct H as ([s4 o4] & H4 & H).
  inversion H; subst; clear H. simpl.
  eapply cooldown_phase_targeted; [exact H4 |].
  eapply main_phase_targeted; [exact H3 |].
  eapply intervals_phase_targeted; [exact H2 |].
  eapply warmup_phase_targeted; [exact H1 |].
  constructor.
Qed.

Lemma build_simple_workout_targeted workout_type distance start_order steps :
  _build_simple_workout paces repr workout_type distance start_order = Ok steps ->
  leaves_targeted steps.
Proof.
  unfold _build_simple_workout. intros H. run_inv.
  constructor; [| constructor].
  constructor; [| constructor].
  eapply created_step_targeted; eassumption.
Qed.

End PhaseInvariant.

(** ** Schedule calculator *)

Lemma day_offset_range name offset :
  day_offset !! name = Some offset -> 0 <= offset <= 6.
Proof.
  unfold day_offset. intros H.
  repeat (apply lookup_insert_Some in H; destruct H as [[_ <-] | [_ H]]; [lia |]).
  apply lookup_singleton_Some in H. destruct H as [_ <-]. lia.
Qed.

(** The table [day_offset] of the code gives each weekday name the
    offset of the specification, and knows no other name. *)
Lemma weekday_offset_table name offset :
  weekday_offset name = Some offset <-> day_offset !! name = Some offset.
Proof.
  split.
  - unfold weekday_offset.
    repeat match goal with
           | |- context [String.eqb name ?literal] =>
               destruct (String.eqb_spec name literal) as [-> | _];
               [intros H; injection H as <-; vm_compute; reflexivity |]
           end.
    discriminate.
  - unfold day_offset. intros H.
    repeat (apply lookup_insert_Some in H;
            destruct H as [[<- <-] | [_ H]]; [reflexivity |]).
    apply lookup_singleton_Some in H. destruct H as [<- <-]. reflexivity.
Qed.

Lemma timedelta_small days :
  Z.abs days <= 999999999 -> timedelta days = Ok days.
Proof.
  intros H. unfold timedelta.
  destruct (Z.leb_spec (Z.abs days) 999999999); [reflexivity | lia].
Qed.

Lemma datetime_add_in_range d delta :
  1 <= ordinal d + delta <= MAXORDINAL ->
  datetime_add d delta
  = Ok {| ordinal := ordinal d + delta; time_of_day := time_of_day d |}.
Proof.
  intros [Hlo Hhi]. unfold datetime_add.
  destruct (Z.leb_spec 1 (ordinal d + delta)); [| lia].
  destruct (Z.leb_spec (ordinal d + delta) MAXORDINAL); [reflexivity | lia].
Qed.

Section Schedule.

Variable parse_date : value -> result datetime.
Variables plan_data goal_event race_date_str : value.
Variable goal : datetime.

Hypothesis plan_goal_event : getitem plan_data "goal_event" = Ok goal_event.
Hypothesis plan_goal_date : getitem goal_event "date" = Ok race_date_str.
Hypothesis goal_parsed : parse_date race_date_str = Ok goal.
Hypothesis goal_valid : valid_datetime goal.

Lemma calculate_week_start_date_ordinal week_number :
  1 <= week_number <= 19 ->
  1 <= ordinal goal - 7 * (19 - week_number) - 6 ->
  calculate_week_start_date parse_date plan_data week_number
  = Ok {| ordinal := ordinal goal - 7 * (19 - week_number) - 6;
          time_of_day := time_of_day goal |}.
Proof.
  intros Hw Hlo. unfold calculate_week_start_date.
  rewrite plan_goal_event. cbn [bind].
  rewrite plan_goal_date. cbn [bind].
  rewrite goal_parsed. cbn [bind].
  unfold timedelta_weeks. rewrite timedelta_small by lia. cbn [bind].
  destruct goal_valid as [Hg1 Hg2]. unfold MAXORDINAL in *.
  unfold datetime_sub.
  rewrite datetime_add_in_range by (unfold MAXORDINAL; lia). cbn [bind].
  rewrite timedelta_small by lia. cbn [bind].
  rewrite datetime_add_in_range by (unfold MAXORDINAL; cbn [ordinal]; lia).
  cbn [ordinal time_of_day]. do 2 f_equal; lia.
Qed.

Lemma get_workout_date_ordinal week_number day_name offset :
  1 <= week_number <= 19 ->
  day_offset !! lower day_name = Some offset ->
  1 <= ordinal goal - 7 * (19 - week_number) - 6 ->
  get_workout_date parse_date plan_data week_number day_name
  = Ok {| ordinal := ordinal goal - 7 * (19 - week_number) - 6 + offset;
          time_of_day := time_of_day goal |}.
Proof.
  intros Hw Hday Hlo. unfold get_workout_date.
  rewrite calculate_week_start_date_ordinal by assumption. cbn [bind].
  rewrite Hday.
  pose proof (day_offset_range _ _ Hday) as Hoff.
  rewrite timedelta_small by lia. cbn [bind].
  destruct goal_valid as [Hg1 Hg2]. unfold MAXORDINAL in *.
  rewrite datetime_add_in_range by (unfold MAXORDINAL; cbn [ordinal]; lia).
  reflexivity.
Qed.

End Schedule.

(** ** Intervals *)

(** With neither duration nor distance the work step is ended by
    distance: the default 600 as it is when the unit is "meters",
    and 600 * 1609.34 = 965604 otherwise. *)
Lemma work_interval_default_distance paces (work : gmap string value) step :
  work !! "duration" = None ->
  work !! "distance" = None ->
  work_interval paces (VDict work) = Ok step ->
  Step.conditionTypeId step = 3
  /\ Step.endConditionValue step
     = (if eq_str (dict_get work "unit" VNone) "meters"
        then VInt 600 else VFloat 965604%float).
Proof.
  intros Hduration Hdistance H. unfold work_interval in H.
  cbn [contains_key get bind] in H. rewrite Hduration in H.
  cbn [bind] in H.
  assert (Hdefault : dict_get work "distance" (VInt 600) = VInt 600)
    by (unfold dict_get; rewrite Hdistance; reflexivity).
  rewrite Hdefault in H.
  destruct (eq_str (dict_get work "unit" VNone) "meters").
  - cbn [bind] in H. run_inv. split; reflexivity.
  - replace (mul_float (VInt 600) meters_per_mile) with (@Ok float 965604%float) in H
      by (vm_compute; reflexivity).
    cbn [bind] in H. run_inv. split; reflexivity.
Qed.

(** An intervals phase adds exactly one step, a repeat group whose
    iteration count is the [repeat] entry (1 by default) and whose
    children are the work step, followed by the recovery step when the
    rest type is "jog". *)
Lemma intervals_phase_repeat_group paces (structure intervals : gmap string value)
    steps step_order steps' step_order' :
  structure !! "intervals" = Some (VDict intervals) ->
  intervals_phase paces (VDict structure) (steps, step_order) = Ok (steps', step_order') ->
  exists work_step rest_steps,
    steps' = (steps ++ [RepeatGroupDTO step_order
                          (dict_get intervals "repeat" (VInt 1))
                          (work_step :: rest_steps)])%list
    /\ step_order' = step_order + 1
    /\ (rest_steps = []
        \/ exists recovery, rest_steps = [recovery]
                            /\ Step.stepTypeKey recovery = "recovery").
Proof.
  intros Hintervals H. unfold intervals_phase in H.
  cbn [contains_key getitem bind] in H. rewrite Hintervals in H.
  cbn [bind get] in H.
  apply bind_Ok in H. destruct H as (work_step & _ & H).
  apply bind_Ok in H. destruct H as (rest_steps & Hrest & H).
  inversion H; subst; clear H.
  exists work_step, rest_steps. split; [reflexivity |]. split; [reflexivity |].
  unfold rest_interval in Hrest. run_inv; auto;
    right; eexists; split; reflexivity.
Qed.

(** ** Properties of the specification *)

(** C6: for every week number in 1..19 and every recognised weekday
    name, [get_workout_date] is the goal date minus (19 - week) weeks
    minus 6 days plus the weekday's offset, which is the one
    [weekday_offset] spells out (monday = 0, tuesday = 1, ...
    sunday = 6), whenever that Monday is a representable date; for
    week 19 and "sunday" it is the goal date itself. *)
Theorem C6_workout_date_formula
    (parse_date : value -> result datetime)
    (plan_data goal_event race_date_str : value) (goal : datetime)
    (week_number : Z) (day_name : string) (offset : Z) :
  getitem plan_data "goal_event" = Ok goal_event ->
  getitem goal_event "date" = Ok race_date_str ->
  parse_date race_date_str = Ok goal ->
  valid_datetime goal ->
  1 <= week_number <= 19 ->
  weekday_offset (lower day_name) = Some offset ->
  1 <= ordinal goal - 7 * (19 - week_number) - 6 ->
  0 <= offset <= 6
  /\ get_workout_date parse_date plan_data week_number day_name
     = Ok {| ordinal := ordinal goal - 7 * (19 - week_number) - 6 + offset;
             time_of_day := time_of_day goal |}
  /\ (week_number = 19 -> lower day_name = "sunday" ->
      get_workout_date parse_date plan_data week_number day_name = Ok goal).
Proof.
  intros Hge Hdate Hparse Hvalid Hw Hday Hlo.
  apply weekday_offset_table in Hday.
  pose proof (get_workout_date_ordinal parse_date plan_data goal_event
                race_date_str goal Hge Hdate Hparse Hvalid
                week_number day_name offset Hw Hday Hlo) as Hdate_eq.
  split; [exact (day_offset_range _ _ Hday) |].
  split; [exact Hdate_eq |].
  intros -> Hsunday. rewrite Hdate_eq.
  rewrite Hsunday in Hday.
  assert (offset = 6) as -> by (vm_compute in Hday; congruence).
  destruct goal as [o t]. cbn [ordinal time_of_day]. do 2 f_equal; lia.
Qed.

Lemma C6_workout_date_formula_witness :
  get_workout_date parse_iso_date nyc_plan 19 "Sunday" = Ok goal_day.
Proof.
  refine (proj2 (proj2 (C6_workout_date_formula parse_iso_date nyc_plan
            (VDict {[ "name" := VStr "NYC Marathon"; "date" := VStr "2026-11-01" ]})
            (VStr "2026-11-01") goal_day 19 "Sunday" 6 _ _ _ _ _ _ _)) _ _);
    try reflexivity; try (unfold valid_datetime, MAXORDINAL; simpl; lia);
    simpl; lia.
Defined.

(** C4 (as amended): for a plan whose goal event is on 2026-11-01, the
    Monday of week 1 is 2026-06-22, that is 18 weeks and 6 days before
    the goal; 2026-06-29 is the Monday of week 2. *)
Theorem C4_week_one_monday
    (parse_date : value -> result datetime) (plan_data goal_event : value) :
  getitem plan_data "goal_event" = Ok goal_event ->
  getitem goal_event "date" = Ok (VStr "2026-11-01") ->
  parse_date (VStr "2026-11-01") = datetime_of 2026 11 1 ->
  (exists monday,
      calculate_week_start_date parse_date plan_data 1 = Ok monday
      /\ date_of monday = (2026, 6, 22))
  /\ (exists monday,
      calculate_week_start_date parse_date plan_data 2 = Ok monday
      /\ date_of monday = (2026, 6, 29)).
Proof.
  intros Hge Hdate Hparse.
  assert (Hgoal : parse_date (VStr "2026-11-01") = Ok goal_day)
    by (rewrite Hparse; reflexivity).
  assert (Hvalid : valid_datetime goal_day)
    by (unfold valid_datetime, MAXORDINAL; simpl; lia).
  split; eexists;
    (split;
     [ apply (calculate_week_start_date_ordinal parse_date plan_data goal_event
                (VStr "2026-11-01") goal_day Hge Hdate Hgoal Hvalid);
       simpl; lia
     | reflexivity ]).
Qed.

Lemma C4_week_one_monday_witness :
  exists monday,
    calculate_week_start_date parse_iso_date nyc_plan 1 = Ok monday
    /\ date_of monday = (2026, 6, 22).
Proof.
  exact (proj1 (C4_week_one_monday parse_iso_date nyc_plan
                  (VDict {[ "name" := VStr "NYC Marathon";
                            "date" := VStr "2026-11-01" ]})
                  eq_refl eq_refl eq_refl)).
Defined.

(** C4 as stated fails: on the plan with goal date 2026-11-01 the
    Monday of week 1 is not 2026-06-29. *)
Lemma C4_week_one_monday_counterexample :
  calculate_week_start_date parse_iso_date nyc_plan 1
  = Ok {| ordinal := 739789; time_of_day := 0 |}
  /\ date_of {| ordinal := 739789; time_of_day := 0 |} = (2026, 6, 22)
  /\ calculate_week_start_date parse_iso_date nyc_plan 1 <> datetime_of 2026 6 29.
Proof.
  split; [reflexivity |]. split; [reflexivity |].
  intros H. vm_compute in H. discriminate H.
Qed.

(** C1: the structure [threshold_intervals] compiled against the pace
    table [{lactate_threshold: "6:30"}] gives exactly one top-level
    step, a repeat group of 3 iterations with exactly two children in
    order: a work leaf ended by time at 1500 seconds with a pace-zone
    target (type 6), then a recovery leaf ended by time at 150 seconds
    with no target (type 1). *)
Theorem C1_threshold_intervals (repr : value -> string) (workout_date : datetime) :
  _build_structured_workout threshold_paces repr threshold_intervals 1
  = Ok [RepeatGroupDTO 1 (VInt 3) [threshold_work_step; threshold_recovery_step]]
  /\ (exists doc,
        build_workout_from_yaml threshold_paces repr threshold_workout
          workout_date 1 "tuesday" = Ok doc
        /\ workout_steps doc
           = [RepeatGroupDTO 1 (VInt 3) [threshold_work_step; threshold_recovery_step]])
  /\ Step.conditionTypeId threshold_work_step = 2
  /\ Step.endConditionValue threshold_work_step = VInt 1500
  /\ target_type_id threshold_work_step = 6
  /\ Step.conditionTypeId threshold_recovery_step = 2
  /\ Step.endConditionValue threshold_recovery_step = VInt 150
  /\ target_type_id threshold_recovery_step = 1.
Proof.
  assert (Hsteps :
    _build_structured_workout threshold_paces repr threshold_intervals 1
    = Ok [RepeatGroupDTO 1 (VInt 3) [threshold_work_step; threshold_recovery_step]])
    by (vm_compute; reflexivity).
  split; [exact Hsteps |].
  split; [| repeat split; reflexivity].
  unfold build_workout_from_yaml.
  replace (threshold_workout !! "structure") with (Some threshold_intervals)
    by (vm_compute; reflexivity).
  rewrite Hsteps. cbn [bind].
  replace (_estimate_duration repr threshold_workout) with (@Ok Z 3600)
    by (vm_compute; reflexivity).
  cbn [bind]. eexists. split; [reflexivity |].
  unfold workout_steps. simpl. reflexivity.
Qed.

(** C3: on a range the parsers take the text after the first hyphen,
    whichever bound is larger: "20-25 min" is 1500 seconds and "8-9" is
    9 miles, but "25-20 min" is 1200 seconds and "9-8" is 8 miles. *)
Theorem C3_range_takes_second_bound (repr : value -> string) :
  parse_duration (VStr "20-25 min") = Ok 1500
  /\ parse_distance repr (VStr "8-9") = Ok 9%float
  /\ parse_duration (VStr "25-20 min") = Ok 1200
  /\ parse_distance repr (VStr "9-8") = Ok 8%float.
Proof. repeat split; vm_compute; reflexivity. Qed.

(** C5: an intervals phase whose work part gives neither duration nor
    distance compiles to a distance-ended work leaf of 600 * 1609.34 =
    965604 meters, since no unit is given; the value is 600 only when
    the unit is "meters". *)
Theorem C5_default_work_distance (repr : value -> string) :
  (exists step,
      _build_structured_workout ∅ repr bare_intervals 1
      = Ok [RepeatGroupDTO 1 (VInt 1) [step]]
      /\ Step.conditionTypeId step = 3
      /\ Step.endConditionValue step = VFloat 965604%float
      /\ Step.endConditionValue step = VFloat (600 * meters_per_mile)%float)
  /\ (exists step,
      work_interval ∅ (VDict {[ "unit" := VStr "meters" ]}) = Ok step
      /\ Step.conditionTypeId step = 3
      /\ Step.endConditionValue step = VInt 600).
Proof.
  split; eexists; (split; [vm_compute; reflexivity |]);
    repeat split; vm_compute; reflexivity.
Qed.

(** ** Pace strings *)

Lemma float_of_int_in_range n :
  Z.abs n < 2 ^ 1024 - 2 ^ 970 -> float_of_int n = Ok (nearest_float n).
Proof.
  intros H. unfold float_of_int.
  destruct (Z.ltb_spec (Z.abs n) (2 ^ 1024 - 2 ^ 970)); [reflexivity | lia].
Qed.

Lemma div_float_int_zero x : div_float_int x 0 = Raise ZeroDivisionError.
Proof. reflexivity. Qed.

Lemma div_float_int_nonzero x n :
  n <> 0 -> Z.abs n < 2 ^ 1024 - 2 ^ 970 ->
  div_float_int x n = Ok (x / nearest_float n)%float.
Proof.
  intros Hn Hr. unfold div_float_int.
  rewrite float_of_int_in_range by exact Hr. cbn [bind].
  destruct (Z.eqb_spec n 0); [contradiction | reflexivity].
Qed.

(** [pace_to_speed] in terms of the two numbers read from the text. *)
Lemma pace_to_speed_parts pace p0 p1 rest minutes seconds :
  split ":" pace = p0 :: p1 :: rest ->
  int_of_str p0 = Ok minutes ->
  int_of_str p1 = Ok seconds ->
  pace_to_speed pace = div_float_int meters_per_mile (minutes * 60 + seconds).
Proof.
  intros Hs H0 H1. unfold pace_to_speed. rewrite Hs.
  cbn [index nth_error bind]. rewrite H0. cbn [bind].
  rewrite H1. cbn [bind].
  destruct (div_float_int meters_per_mile (minutes * 60 + seconds)); reflexivity.
Qed.

(** On a range of two decimal numerals [parse_distance] is the second
    numeral, whatever the first. *)
Lemma parse_distance_range repr a b :
  decimal_text a = true -> decimal_text b = true ->
  parse_distance repr (VStr (a ++ String "-" b))
  = Ok (nearest_float (digits_value 0 b)).
Proof.
  intros Ha Hb. unfold parse_distance. cbn [str].
  rewrite (strip_range a b Ha Hb).
  rewrite (contains_char_middle "-" a b).
  pose proof Ha as Ha'. pose proof Hb as Hb'. unfold decimal_text in Ha', Hb'.
  apply andb_prop in Ha'. destruct Ha' as [_ Had].
  apply andb_prop in Hb'. destruct Hb' as [_ Hbd].
  rewrite split_at_first
    by (apply all_digits_no_char; [intros c Hc; apply (isdigit_facts c Hc) | exact Had]).
  rewrite split_without
    by (apply all_digits_no_char; [intros c Hc; apply (isdigit_facts c Hc) | exact Hbd]).
  cbn [index nth_error bind].
  rewrite (strip_decimal b Hbd). exact (float_of_str_decimal b Hb).
Qed.

(** On a pace text of two decimal numerals [pace_to_speed] divides
    1609.34 by the number of seconds they denote. *)
Lemma pace_to_speed_decimal minutes seconds :
  decimal_text minutes = true -> decimal_text seconds = true ->
  (String.length minutes <= 4300)%nat -> (String.length seconds <= 4300)%nat ->
  pace_to_speed (minutes ++ String ":" seconds)
  = div_float_int meters_per_mile
      (digits_value 0 minutes * 60 + digits_value 0 seconds).
Proof.
  intros Hm Hs Hlm Hls.
  pose proof Hm as Hm'. pose proof Hs as Hs'. unfold decimal_text in Hm', Hs'.
  apply andb_prop in Hm'. destruct Hm' as [_ Hmd].
  apply andb_prop in Hs'. destruct Hs' as [_ Hsd].
  apply (pace_to_speed_parts _ minutes seconds []).
  - rewrite split_at_first
      by (apply all_digits_no_char; [intros c Hc; apply (isdigit_facts c Hc) | exact Hmd]).
    rewrite split_without
      by (apply all_digits_no_char; [intros c Hc; apply (isdigit_facts c Hc) | exact Hsd]).
    reflexivity.
  - exact (int_of_str_decimal minutes Hm Hlm).
  - exact (int_of_str_decimal seconds Hs Hls).
Qed.

Lemma pace_seconds_in_range minutes seconds :
  0 <= minutes < 10 ^ 300 -> 0 <= seconds < 10 ^ 300 ->
  Z.abs (minutes * 60 + seconds) < 2 ^ 1024 - 2 ^ 970.
Proof.
  assert (H : 61 * 10 ^ 300 < 2 ^ 1024 - 2 ^ 970) by (vm_compute; reflexivity).
  remember (10 ^ 300) as bound. remember (2 ^ 1024 - 2 ^ 970) as limit.
  intros Hm Hs. rewrite Z.abs_eq by lia. lia.
Qed.

Lemma decimal_text_below s :
  decimal_text s = true -> (String.length s <= 300)%nat ->
  0 <= digits_value 0 s < 10 ^ 300.
Proof.
  unfold decimal_text. intros H Hlen. apply andb_prop in H. destruct H as [_ Hd].
  pose proof (digits_value_bounds s 0 ltac:(lia) Hd) as [Hlo Hhi].
  split; [exact Hlo |].
  eapply Z.lt_le_trans; [exact Hhi |].
  rewrite Z.mul_1_l. apply Z.pow_le_mono_r; lia.
Qed.

(** C7: a zone name that is no key of the pace table resolves, without
    error, to the "no target" shape of type 1; a zone name whose pace
    text converts to a speed resolves to the type-6 range from
    0.95 * speed to 1.05 * speed, and a pace text "M:S" of two decimal
    numerals (of at most 300 digits) denoting a positive number of
    seconds does convert. *)
Theorem C7_resolve_target (paces : gmap string string) (zone : string) :
  (paces !! zone = None ->
   get_target_speed_zone paces (VStr zone) = Ok get_no_target
   /\ Target.workoutTargetTypeId get_no_target = 1)
  /\ (forall pace speed,
        paces !! zone = Some pace ->
        pace_to_speed pace = Ok speed ->
        get_target_speed_zone paces (VStr zone)
        = Ok {| Target.workoutTargetTypeId := 6;
                Target.workoutTargetTypeKey := "pace.zone";
                Target.targetValueOne := Some (speed * 0.95)%float;
                Target.targetValueTwo := Some (speed * 1.05)%float |})
  /\ (forall minutes seconds,
        paces !! zone = Some (minutes ++ String ":" seconds)%string ->
        decimal_text minutes = true -> decimal_text seconds = true ->
        (String.length minutes <= 300)%nat -> (String.length seconds <= 300)%nat ->
        0 < digits_value 0 minutes * 60 + digits_value 0 seconds ->
        exists speed,
          speed = (meters_per_mile
                   / nearest_float (digits_value 0 minutes * 60
                                    + digits_value 0 seconds))%float
          /\ pace_to_speed (minutes ++ String ":" seconds) = Ok speed
          /\ get_target_speed_zone paces (VStr zone)
             = Ok {| Target.workoutTargetTypeId := 6;
                     Target.workoutTargetTypeKey := "pace.zone";
                     Target.targetValueOne := Some (speed * 0.95)%float;
                     Target.targetValueTwo := Some (speed * 1.05)%float |}).
Proof.
  assert (Hknown : forall pace speed,
             paces !! zone = Some pace ->
             pace_to_speed pace = Ok speed ->
             get_target_speed_zone paces (VStr zone)
             = Ok {| Target.workoutTargetTypeId := 6;
                     Target.workoutTargetTypeKey := "pace.zone";
                     Target.targetValueOne := Some (speed * 0.95)%float;
                     Target.targetValueTwo := Some (speed * 1.05)%float |}).
  { intros pace speed Hsome Hspeed. unfold get_target_speed_zone.
    rewrite Hsome, Hspeed. reflexivity. }
  split; [| split].
  - intros Hnone. unfold get_target_speed_zone. rewrite Hnone.
    split; reflexivity.
  - exact Hknown.
  - intros minutes seconds Hsome Hm Hs Hlm Hls Hpos.
    eexists. split; [reflexivity |].
    assert (Hspeed : pace_to_speed (minutes ++ String ":" seconds)
                     = Ok (meters_per_mile
                           / nearest_float (digits_value 0 minutes * 60
                                            + digits_value 0 seconds))%float).
    { rewrite (pace_to_speed_decimal minutes seconds Hm Hs) by lia.
      apply div_float_int_nonzero; [lia |].
      apply pace_seconds_in_range; apply decimal_text_below; assumption. }
    split; [exact Hspeed |].
    exact (Hknown _ _ Hsome Hspeed).
Qed.

Lemma C7_resolve_target_witness :
  get_target_speed_zone threshold_paces (VStr "tempo") = Ok get_no_target
  /\ get_target_speed_zone threshold_paces (VStr "lactate_threshold")
     = Ok (pace_zone_target (meters_per_mile / 390)%float)
  /\ exists speed,
      speed = (meters_per_mile / nearest_float 390)%float
      /\ pace_to_speed "6:30" = Ok speed
      /\ get_target_speed_zone threshold_paces (VStr "lactate_threshold")
         = Ok (pace_zone_target speed).
Proof.
  pose proof (C7_resolve_target threshold_paces "tempo") as [Hunknown _].
  pose proof (C7_resolve_target threshold_paces "lactate_threshold")
    as (_ & Hknown & Htext).
  split; [exact (proj1 (Hunknown eq_refl)) |].
  split; [exact (Hknown "6:30" (meters_per_mile / 390)%float eq_refl eq_refl) |].
  apply (Htext "6" "30" eq_refl eq_refl eq_refl);
    [apply Nat.leb_le; reflexivity | apply Nat.leb_le; reflexivity | reflexivity].
Defined.

(** C9: [pace_to_speed] divides 1609.34 by minutes * 60 + seconds with
    no guard.  On a pace text whose two numbers give a positive number
    of seconds it returns the quotient, and the zone resolves to a pace
    target; on one that gives zero, such as "0:00", it raises
    [ZeroDivisionError], and so does the resolution of a zone mapped to
    it, instead of falling back to "no target". *)
Theorem C9_zero_pace_raises
    (paces : gmap string string) (zone pace p0 p1 : string) (rest : list string)
    (minutes seconds : Z) :
  paces !! zone = Some pace ->
  split ":" pace = p0 :: p1 :: rest ->
  int_of_str p0 = Ok minutes ->
  int_of_str p1 = Ok seconds ->
  (minutes * 60 + seconds = 0 ->
   pace_to_speed pace = Raise ZeroDivisionError
   /\ get_target_speed_zone paces (VStr zone) = Raise ZeroDivisionError)
  /\ (0 < minutes * 60 + seconds < 2 ^ 1024 - 2 ^ 970 ->
      pace_to_speed pace
      = Ok (meters_per_mile / nearest_float (minutes * 60 + seconds))%float
      /\ get_target_speed_zone paces (VStr zone)
         = Ok (pace_zone_target
                 (meters_per_mile / nearest_float (minutes * 60 + seconds))%float)).
Proof.
  intros Hzone Hs H0 H1.
  pose proof (pace_to_speed_parts pace p0 p1 rest minutes seconds Hs H0 H1) as Hp.
  split.
  - intros Hzero. rewrite Hzero in Hp. rewrite div_float_int_zero in Hp.
    split; [exact Hp |].
    unfold get_target_speed_zone. rewrite Hzone, Hp. reflexivity.
  - intros Hpos. rewrite div_float_int_nonzero in Hp by lia.
    split; [exact Hp |].
    unfold get_target_speed_zone. rewrite Hzone, Hp. reflexivity.
Qed.

Lemma C9_zero_pace_raises_witness :
  (pace_to_speed "0:00" = Raise ZeroDivisionError
   /\ get_target_speed_zone {[ "recovery" := "0:00" ]} (VStr "recovery")
      = Raise ZeroDivisionError)
  /\ (pace_to_speed "6:30" = Ok (meters_per_mile / nearest_float 390)%float
      /\ get_target_speed_zone threshold_paces (VStr "lactate_threshold")
         = Ok (pace_zone_target (meters_per_mile / nearest_float 390)%float)).
Proof.
  split.
  - exact (proj1 (C9_zero_pace_raises {[ "recovery" := "0:00" ]} "recovery" "0:00"
                    "0" "00" [] 0 0 eq_refl eq_refl eq_refl eq_refl) eq_refl).
  - apply (proj2 (C9_zero_pace_raises threshold_paces "lactate_threshold" "6:30"
                    "6" "30" [] 6 30 eq_refl eq_refl eq_refl eq_refl)).
    simpl. lia.
Defined.

(** ** Simple workouts *)

Lemma parse_distance_five repr : parse_distance repr (VInt 5) = Ok 5%float.
Proof. vm_compute. reflexivity. Qed.

(** With a falsy distance the simple builder is the five-mile step at
    the zone of the workout type. *)
Lemma build_simple_workout_falsy paces repr workout_type distance start_order :
  truth distance = false ->
  _build_simple_workout paces repr workout_type distance start_order
  = (let* pace_zone := pace_zone_map_get workout_type "general_aerobic" in
     let* target := get_target_speed_zone paces (VStr pace_zone) in
     Ok [ExecutableStepDTO (five_mile_step start_order target)]).
Proof.
  intros Hfalsy. unfold _build_simple_workout. rewrite Hfalsy.
  cbn [negb]. rewrite parse_distance_five. reflexivity.
Qed.

Lemma estimate_duration_falsy repr (workout_data : gmap string value) :
  truth (dict_get workout_data "distance" VNone) = false ->
  _estimate_duration repr workout_data = Ok 3600.
Proof. intros H. unfold _estimate_duration. rewrite H. reflexivity. Qed.

(** C10: in simple-workout compilation a falsy distance (absent, null,
    the number 0, ...) is replaced by 5 miles: the compilation is that
    of the five-mile step, and every document it returns holds a single
    distance-ended leaf of 5 * 1609.34 = 8046.7 meters, never one of
    length zero. *)
Theorem C10_falsy_distance_is_five_miles
    (paces : gmap string string) (repr : value -> string)
    (workout_data : gmap string value) (workout_date : datetime)
    (week_number : Z) (day_name : string) (workout_type distance : value) :
  workout_data !! "structure" = None ->
  dict_get workout_data "type" (VStr "general_aerobic") = workout_type ->
  dict_get workout_data "distance" VNone = distance ->
  truth distance = false ->
  _build_simple_workout paces repr workout_type distance 1
  = (let* pace_zone := pace_zone_map_get workout_type "general_aerobic" in
     let* target := get_target_speed_zone paces (VStr pace_zone) in
     Ok [ExecutableStepDTO (five_mile_step 1 target)])
  /\ (forall doc,
        build_workout_from_yaml paces repr workout_data workout_date
          week_number day_name = Ok doc ->
        exists step,
          workout_steps doc = [ExecutableStepDTO step]
          /\ Step.conditionTypeId step = 3
          /\ Step.endConditionValue step = VFloat (5 * meters_per_mile)%float
          /\ Step.endConditionValue step = VFloat 8046.7%float
          /\ Step.endConditionValue step <> VFloat 0%float).
Proof.
  intros Hstruct Htype Hdistance Hfalsy.
  split; [exact (build_simple_workout_falsy _ _ _ _ _ Hfalsy) |].
  intros doc Hdoc. unfold build_workout_from_yaml in Hdoc.
  rewrite Hstruct, Htype, Hdistance in Hdoc.
  rewrite (build_simple_workout_falsy _ _ _ _ _ Hfalsy) in Hdoc.
  rewrite <- Hdistance in Hfalsy.
  rewrite (estimate_duration_falsy _ _ Hfalsy) in Hdoc.
  apply bind_Ok in Hdoc. destruct Hdoc as (steps & Hsteps & Hdoc).
  apply bind_Ok in Hsteps. destruct Hsteps as (pace_zone & _ & Hsteps).
  apply bind_Ok in Hsteps. destruct Hsteps as (target & _ & Hsteps).
  cbn [bind] in Hdoc. inversion Hsteps; subst steps; clear Hsteps.
  inversion Hdoc; subst doc; clear Hdoc.
  exists (five_mile_step 1 target).
  split; [reflexivity |].
  split; [reflexivity |].
  split; [reflexivity |].
  split; [vm_compute; reflexivity |].
  intros H. vm_compute in H. discriminate H.
Qed.

Lemma C10_falsy_distance_is_five_miles_witness :
  _build_simple_workout threshold_paces plain_repr (VStr "general_aerobic") (VInt 0) 1
  = Ok [ExecutableStepDTO (five_mile_step 1 get_no_target)]
  /\ build_workout_from_yaml threshold_paces plain_repr zero_distance_workout
       goal_day 3 "friday" = Ok zero_distance_document
  /\ exists step,
      workout_steps zero_distance_document = [ExecutableStepDTO step]
      /\ Step.conditionTypeId step = 3
      /\ Step.endConditionValue step = VFloat (5 * meters_per_mile)%float
      /\ Step.endConditionValue step = VFloat 8046.7%float
      /\ Step.endConditionValue step <> VFloat 0%float.
Proof.
  pose proof (C10_falsy_distance_is_five_miles threshold_paces plain_repr
                zero_distance_workout goal_day 3 "friday"
                (VStr "general_aerobic") (VInt 0) eq_refl eq_refl eq_refl eq_refl)
    as [Hsimple Hdoc].
  split; [exact Hsimple |].
  split; [reflexivity |].
  exact (Hdoc zero_distance_document eq_refl).
Defined.




(** C8: whatever the workout (simple or structured) and the pace table,
    every leaf step of a document the compiler returns has target type
    1 (no target) or 6 (pace zone), and never 4 (heart rate). *)
Theorem C8_target_types
    (paces : gmap string string) (repr : value -> string)
    (workout_data : gmap string value) (workout_date : datetime)
    (week_number : Z) (day_name : string) (doc : workout) :
  build_workout_from_yaml paces repr workout_data workout_date week_number day_name
  = Ok doc ->
  forall step leaf,
    In step (workout_steps doc) ->
    In leaf (leaf_steps step) ->
    (target_type_id leaf = 1 \/ target_type_id leaf = 6)
    /\ target_type_id leaf <> 4.
Proof.
  intros Hdoc step leaf Hstep Hleaf.
  assert (Hall : leaves_targeted (workout_steps doc)).
  { unfold build_workout_from_yaml in Hdoc.
    apply bind_Ok in Hdoc. destruct Hdoc as (steps & Hsteps & Hdoc).
    apply bind_Ok in Hdoc. destruct Hdoc as (duration & _ & Hdoc).
    inversion Hdoc; subst doc; clear Hdoc.
    unfold workout_steps. cbn [workoutSegments flat_map workoutSteps].
    rewrite app_nil_r.
    destruct (workout_data !! "structure") as [structure |].
    - eapply build_structured_workout_targeted; exact Hsteps.
    - eapply build_simple_workout_targeted; exact Hsteps. }
  unfold leaves_targeted in Hall.
  pose proof (proj1 (List.Forall_forall _ _) Hall step Hstep) as Hleaves.
  pose proof (proj1 (List.Forall_forall _ _) Hleaves leaf Hleaf) as Htarget.
  clear Hall Hleaves. rename Htarget into Hall.
  split; [exact Hall |].
  destruct Hall as [H | H]; rewrite H; discriminate.
Qed.

Lemma C8_target_types_witness :
  ((target_type_id threshold_work_step = 1 \/ target_type_id threshold_work_step = 6)
   /\ target_type_id threshold_work_step <> 4)
  /\ ((target_type_id threshold_recovery_step = 1
       \/ target_type_id threshold_recovery_step = 6)
      /\ target_type_id threshold_recovery_step <> 4).
Proof.
  split;
    apply (C8_target_types threshold_paces plain_repr threshold_workout goal_day
             1 "tuesday" _ eq_refl
             (RepeatGroupDTO 1 (VInt 3) [threshold_work_step; threshold_recovery_step]));
    simpl; auto.
Defined.

(** ** More on the schedule calculator *)

Lemma day_offset_cases name offset :
  day_offset !! name = Some offset ->
  (name = "monday" /\ offset = 0) \/ (name = "tuesday" /\ offset = 1)
  \/ (name = "wednesday" /\ offset = 2) \/ (name = "thursday" /\ offset = 3)
  \/ (name = "friday" /\ offset = 4) \/ (name = "saturday" /\ offset = 5)
  \/ (name = "sunday" /\ offset = 6).
Proof.
  unfold day_offset. intros H.
  repeat (apply lookup_insert_Some in H;
          destruct H as [[<- <-] | [_ H]]; [tauto |]).
  apply lookup_singleton_Some in H. destruct H as [<- <-]. tauto.
Qed.

Lemma day_offset_injective name1 name2 offset :
  day_offset !! name1 = Some offset -> day_offset !! name2 = Some offset ->
  name1 = name2.
Proof.
  intros H1 H2.
  apply day_offset_cases in H1. apply day_offset_cases in H2.
  intuition (subst; try lia; try reflexivity).
Qed.

Lemma datetime_add_Ok d delta d' :
  datetime_add d delta = Ok d' ->
  ordinal d' = ordinal d + delta /\ time_of_day d' = time_of_day d
  /\ 1 <= ordinal d' <= MAXORDINAL.
Proof.
  unfold datetime_add. intros H.
  destruct (Z.leb_spec 1 (ordinal d + delta));
    destruct (Z.leb_spec (ordinal d + delta) MAXORDINAL);
    simpl in H; try discriminate H.
  inversion H; subst; clear H. simpl. lia.
Qed.

Lemma timedelta_Ok days delta : timedelta days = Ok delta -> delta = days.
Proof.
  unfold timedelta. intros H.
  destruct (Z.abs days <=? 999999999); [congruence | discriminate H].
Qed.

(** What a returned week start is, in terms of the goal date. *)
Lemma calculate_week_start_date_Ok parse_date plan_data week_number monday :
  calculate_week_start_date parse_date plan_data week_number = Ok monday ->
  exists goal,
    race_date parse_date plan_data = Ok goal
    /\ ordinal monday = ordinal goal - 7 * (19 - week_number) - 6
    /\ time_of_day monday = time_of_day goal.
Proof.
  unfold calculate_week_start_date, race_date. intros H.
  apply bind_Ok in H. destruct H as (goal_event & Hge & H). rewrite Hge.
  apply bind_Ok in H. destruct H as (text & Htext & H). cbn [bind]. rewrite Htext.
  apply bind_Ok in H. destruct H as (goal & Hgoal & H). cbn [bind]. rewrite Hgoal.
  apply bind_Ok in H. destruct H as (weeks & Hweeks & H).
  apply bind_Ok in H. destruct H as (sunday & Hsunday & H).
  apply bind_Ok in H. destruct H as (six & Hsix & H).
  apply bind_Ok in H. destruct H as (result & Hresult & H).
  inversion H; subst result; clear H.
  unfold timedelta_weeks in Hweeks.
  apply timedelta_Ok in Hweeks. apply timedelta_Ok in Hsix. subst weeks six.
  unfold datetime_sub in Hsunday, Hresult.
  apply datetime_add_Ok in Hsunday. apply datetime_add_Ok in Hresult.
  exists goal. split; [reflexivity |]. split; [lia | intuition congruence].
Qed.

(** What a returned workout date is, in terms of the goal date. *)
Lemma get_workout_date_Ok parse_date plan_data week_number day_name date :
  get_workout_date parse_date plan_data week_number day_name = Ok date ->
  exists goal offset,
    race_date parse_date plan_data = Ok goal
    /\ day_offset !! lower day_name = Some offset
    /\ 0 <= offset <= 6
    /\ ordinal date = ordinal goal - 7 * (19 - week_number) - 6 + offset
    /\ time_of_day date = time_of_day goal
    /\ 1 <= ordinal date <= MAXORDINAL.
Proof.
  unfold get_workout_date. intros H.
  apply bind_Ok in H. destruct H as (monday & Hmonday & H).
  apply calculate_week_start_date_Ok in Hmonday.
  destruct Hmonday as (goal & Hgoal & Hord & Htime).
  destruct (day_offset !! lower day_name) as [offset |] eqn:Hday;
    [| discriminate H].
  apply bind_Ok in H. destruct H as (days & Hdays & H).
  apply timedelta_Ok in Hdays. subst days.
  apply datetime_add_Ok in H.
  exists goal, offset. split; [exact Hgoal |]. split; [reflexivity |].
  split; [exact (day_offset_range _ _ Hday) |].
  intuition (try lia; congruence).
Qed.

Lemma lower_char_idempotent c : lower_char (lower_char c) = lower_char c.
Proof. destruct c as [[] [] [] [] [] [] [] []]; reflexivity. Qed.

Lemma lower_upper_char c : lower_char (upper_char c) = lower_char c.
Proof. destruct c as [[] [] [] [] [] [] [] []]; reflexivity. Qed.

Lemma lower_idempotent s : lower (lower s) = lower s.
Proof.
  induction s as [| c r IH]; simpl; [reflexivity |].
  rewrite lower_char_idempotent, IH. reflexivity.
Qed.

Lemma lower_capitalize s : lower (capitalize s) = lower s.
Proof.
  destruct s as [| c r]; simpl; [reflexivity |].
  rewrite lower_upper_char, lower_idempotent. reflexivity.
Qed.

(** X1: two days of the plan are scheduled in the order of their
    (week, weekday) pairs: the earlier week first and, within a week,
    Monday to Sunday, that is by the offsets monday = 0, tuesday = 1,
    ... sunday = 6 that [weekday_offset] spells out; hence two
    returned dates coincide only for the same week and the same
    weekday name up to case. *)
Theorem X1_schedule_is_ordered
    (parse_date : value -> result datetime) (plan_data : value)
    (week1 week2 : Z) (day1 day2 : string) (date1 date2 : datetime)
    (offset1 offset2 : Z) :
  get_workout_date parse_date plan_data week1 day1 = Ok date1 ->
  get_workout_date parse_date plan_data week2 day2 = Ok date2 ->
  weekday_offset (lower day1) = Some offset1 ->
  weekday_offset (lower day2) = Some offset2 ->
  (ordinal date1 < ordinal date2
   <-> week1 < week2 \/ (week1 = week2 /\ offset1 < offset2))
  /\ (ordinal date1 = ordinal date2 -> week1 = week2 /\ lower day1 = lower day2).
Proof.
  intros H1 H2 Ho1 Ho2.
  apply weekday_offset_table in Ho1. apply weekday_offset_table in Ho2.
  apply get_workout_date_Ok in H1. destruct H1 as (g1 & o1 & Hg1 & Hd1 & Hr1 & Hord1 & _).
  apply get_workout_date_Ok in H2. destruct H2 as (g2 & o2 & Hg2 & Hd2 & Hr2 & Hord2 & _).
  assert (g2 = g1) by congruence. subst g2.
  assert (o1 = offset1) by congruence. assert (o2 = offset2) by congruence.
  subst o1 o2. split; [lia |].
  intros Heq. assert (week1 = week2 /\ offset1 = offset2) as [-> ->] by lia.
  split; [reflexivity |].
  exact (day_offset_injective _ _ _ Hd1 Hd2).
Qed.

Lemma X1_schedule_is_ordered_witness :
  (739808 < 739810 <-> 3 < 4 \/ (3 = 4 /\ 5 < 0))
  /\ (739808 = 739810 -> 3 = 4 /\ lower "Saturday" = lower "MONDAY").
Proof.
  exact (X1_schedule_is_ordered parse_iso_date nyc_plan 3 4 "Saturday" "MONDAY"
           {| ordinal := 739808; time_of_day := 0 |}
           {| ordinal := 739810; time_of_day := 0 |} 5 0
           eq_refl eq_refl eq_refl eq_refl).
Defined.

(** X2: the weeks tile the calendar: every returned workout date lies
    in the seven days that start at the week's start date, and the
    Monday of the next week is the day after the Sunday of a week
    (so week 20 starts the day after the goal date). *)
Theorem X2_weeks_tile_the_calendar
    (parse_date : value -> result datetime) (plan_data : value)
    (week_number : Z) (day_name : string) (monday date : datetime) :
  calculate_week_start_date parse_date plan_data week_number = Ok monday ->
  get_workout_date parse_date plan_data week_number day_name = Ok date ->
  ordinal monday <= ordinal date <= ordinal monday + 6
  /\ (lower day_name = "monday" -> date = monday)
  /\ (lower day_name = "sunday" ->
      forall next_monday,
        calculate_week_start_date parse_date plan_data (week_number + 1)
        = Ok next_monday ->
        ordinal next_monday = ordinal date + 1).
Proof.
  intros Hm Hd.
  apply calculate_week_start_date_Ok in Hm. destruct Hm as (g & Hg & Hmo & Hmt).
  apply get_workout_date_Ok in Hd.
  destruct Hd as (g' & o & Hg' & Hday & Hr & Hord & Htime & _).
  assert (g' = g) by congruence. subst g'.
  split; [lia |]. split.
  - intros Hname. rewrite Hname in Hday.
    assert (o = 0) by (vm_compute in Hday; congruence). subst o.
    destruct date as [od td], monday as [om tm]. simpl in *. f_equal; lia.
  - intros Hname next Hnext. rewrite Hname in Hday.
    assert (o = 6) by (vm_compute in Hday; congruence). subst o.
    apply calculate_week_start_date_Ok in Hnext.
    destruct Hnext as (g2 & Hg2 & Hno & _).
    assert (g2 = g) by congruence. subst g2. lia.
Qed.

Lemma X2_weeks_tile_the_calendar_witness :
  739915 <= 739921 <= 739915 + 6
  /\ (lower "Sunday" = "monday" ->
      {| ordinal := 739921; time_of_day := 0 |}
      = {| ordinal := 739915; time_of_day := 0 |})
  /\ (lower "Sunday" = "sunday" ->
      forall next_monday,
        calculate_week_start_date parse_iso_date nyc_plan (19 + 1) = Ok next_monday ->
        ordinal next_monday = 739921 + 1).
Proof.
  exact (X2_weeks_tile_the_calendar parse_iso_date nyc_plan 19 "Sunday"
           {| ordinal := 739915; time_of_day := 0 |}
           {| ordinal := 739921; time_of_day := 0 |} eq_refl eq_refl).
Defined.

(** X3: [get_workout_date] adds the weekday's offset to a week start
    that is the goal date's weekday plus one.  With the offsets that
    [weekday_offset] spells out (monday = 0, tuesday = 1, ...
    sunday = 6), which number the weekdays as [date.weekday()] does:
    when the goal date is a Sunday every returned date falls on the
    weekday it is named after; in general its weekday is that of the
    goal date shifted by offset + 1. *)
Theorem X3_dates_fall_on_their_weekday
    (parse_date : value -> result datetime) (plan_data : value)
    (goal : datetime) (week_number : Z) (day_name : string)
    (date : datetime) (offset : Z) :
  race_date parse_date plan_data = Ok goal ->
  get_workout_date parse_date plan_data week_number day_name = Ok date ->
  weekday_offset (lower day_name) = Some offset ->
  weekday date = (weekday goal + 1 + offset) mod 7
  /\ (weekday goal = 6 -> weekday date = offset).
Proof.
  intros Hgoal Hd Hday.
  apply weekday_offset_table in Hday.
  apply get_workout_date_Ok in Hd.
  destruct Hd as (g & o & Hg & Hday' & Hr & Hord & _).
  assert (g = goal) by congruence. assert (o = offset) by congruence. subst g o.
  unfold weekday. rewrite Hord.
  split; [| intros Hsunday]; Z.div_mod_to_equations; lia.
Qed.

Lemma X3_dates_fall_on_their_weekday_witness :
  weekday {| ordinal := 739790; time_of_day := 0 |} = (weekday goal_day + 1 + 1) mod 7
  /\ (weekday goal_day = 6 -> weekday {| ordinal := 739790; time_of_day := 0 |} = 1).
Proof.
  exact (X3_dates_fall_on_their_weekday parse_iso_date nyc_plan goal_day 1 "tuesday"
           {| ordinal := 739790; time_of_day := 0 |} 1 eq_refl eq_refl eq_refl).
Defined.

(** X4: weekday names written in ASCII are matched without regard to
    case: for a day name of ASCII characters, [get_workout_date] gives
    the same outcome for the name, its lower-case form and its
    capitalised form. *)
Theorem X4_weekday_names_ignore_case
    (parse_date : value -> result datetime) (plan_data : value)
    (week_number : Z) (day_name : string) :
  ascii_text day_name = true ->
  get_workout_date parse_date plan_data week_number (lower day_name)
  = get_workout_date parse_date plan_data week_number day_name
  /\ get_workout_date parse_date plan_data week_number (capitalize day_name)
     = get_workout_date parse_date plan_data week_number day_name.
Proof.
  intros _. unfold get_workout_date.
  rewrite lower_idempotent, lower_capitalize. split; reflexivity.
Qed.

Lemma X4_weekday_names_ignore_case_witness :
  get_workout_date parse_iso_date nyc_plan 19 (lower "sUNDAY")
  = get_workout_date parse_iso_date nyc_plan 19 "sUNDAY"
  /\ get_workout_date parse_iso_date nyc_plan 19 (capitalize "sUNDAY")
     = get_workout_date parse_iso_date nyc_plan 19 "sUNDAY".
Proof.
  apply (X4_weekday_names_ignore_case parse_iso_date nyc_plan 19 "sUNDAY").
  reflexivity.
Defined.

(** X5: errors of [get_workout_date]: an error in computing the week
    start is raised whatever the day name; once the week start is
    computed, a name that is none of the seven weekday names (after
    lower-casing) raises [ValueError]. *)
Theorem X5_unknown_weekday_is_value_error
    (parse_date : value -> result datetime) (plan_data : value)
    (week_number : Z) (day_name : string) :
  (forall e,
      calculate_week_start_date parse_date plan_data week_number = Raise e ->
      get_workout_date parse_date plan_data week_number day_name = Raise e)
  /\ (forall monday,
        calculate_week_start_date parse_date plan_data week_number = Ok monday ->
        lower day_name <> "monday" -> lower day_name <> "tuesday" ->
        lower day_name <> "wednesday" -> lower day_name <> "thursday" ->
        lower day_name <> "friday" -> lower day_name <> "saturday" ->
        lower day_name <> "sunday" ->
        get_workout_date parse_date plan_data week_number day_name
        = Raise ValueError).
Proof.
  unfold get_workout_date. split.
  - intros e He. rewrite He. reflexivity.
  - intros monday Hm H1 H2 H3 H4 H5 H6 H7. rewrite Hm. cbn [bind].
    destruct (day_offset !! lower day_name) as [offset |] eqn:Hday; [| reflexivity].
    apply day_offset_cases in Hday. intuition congruence.
Qed.

Lemma X5_unknown_weekday_is_value_error_witness :
  get_workout_date parse_iso_date nyc_plan 200000000 "monday" = Raise OverflowError
  /\ get_workout_date parse_iso_date nyc_plan 1 "mon" = Raise ValueError.
Proof.
  split.
  - exact (proj1 (X5_unknown_weekday_is_value_error parse_iso_date nyc_plan
                    200000000 "monday") OverflowError eq_refl).
  - apply (proj2 (X5_unknown_weekday_is_value_error parse_iso_date nyc_plan 1 "mon")
             {| ordinal := 739789; time_of_day := 0 |} eq_refl);
      intros H; discriminate H.
Defined.

(** ** More on the step compiler *)

Lemma created_leaf_well_formed paces pace_zone target o ti tk ci ck v :
  get_target_speed_zone paces pace_zone = Ok target ->
  (ti = 1 /\ tk = "warmup" \/ ti = 2 /\ tk = "cooldown" \/ ti = 3 /\ tk = "interval") ->
  (ci = 3 /\ ck = "distance" \/ ci = 2 /\ ck = "time" /\ tk = "interval"
                                 /\ exists seconds, v = VInt seconds) ->
  leaf_well_formed (create_executable_step o ti tk ci ck v (Some target)).
Proof.
  intros Ht Hrole Hcond.
  assert (Htarget : target_pair (create_executable_step o ti tk ci ck v (Some target))).
  { apply get_target_speed_zone_shape in Ht. destruct Ht as [-> | [speed ->]].
    - left. repeat split; reflexivity.
    - right. exists speed. repeat split; reflexivity. }
  unfold leaf_well_formed, step_type_pair, end_condition_pair.
  cbn [create_executable_step Step.stepTypeId Step.stepTypeKey Step.conditionTypeId
       Step.conditionTypeKey Step.endConditionValue].
  split; [tauto |]. split; [tauto |]. split; [exact Htarget |].
  split; [intros ->; destruct Hrole as [[_ H] | [[_ H] | [_ H]]]; discriminate H |].
  split.
  - intros [-> | ->];
      (destruct Hcond as [[_ ->] | (_ & _ & H & _)]; [reflexivity | discriminate H]).
  - intros ->. destruct Hcond as [[_ H] | (_ & _ & _ & Hs)]; [discriminate H | exact Hs].
Qed.

Lemma recovery_leaf_well_formed seconds :
  leaf_well_formed (create_executable_step 2 4 "recovery" 2 "time"
                      (VInt seconds) (Some get_no_target)).
Proof.
  unfold leaf_well_formed, step_type_pair, end_condition_pair, target_pair.
  cbn [create_executable_step Step.stepTypeId Step.stepTypeKey Step.conditionTypeId
       Step.conditionTypeKey Step.endConditionValue Step.targetType
       Step.targetValueOne Step.targetValueTwo].
  split; [tauto |]. split; [tauto |]. split; [left; repeat split; reflexivity |].
  split; [intros _; repeat split; reflexivity |].
  split; [intros [H | H]; discriminate H |].
  intros _. exists seconds. reflexivity.
Qed.

Lemma leaves_well_formed_snoc steps step :
  leaves_well_formed steps ->
  Forall leaf_well_formed (leaf_steps step) ->
  leaves_well_formed (steps ++ [step]).
Proof.
  intros Hs Hl. unfold leaves_well_formed.
  apply Forall_app. split; [exact Hs | constructor; [exact Hl | constructor]].
Qed.

Lemma Ok_injective {A : Type} (a b : A) : @Ok A a = Ok b -> a = b.
Proof. intros H. injection H as H. exact H. Qed.

(** As [run_inv], substituting only variables. *)
Ltac run_split :=
  repeat match goal with
    | H : bind _ _ = Ok _ |- _ =>
        let a := fresh "a" in
        let Ha := fresh "Ha" in
        apply bind_Ok in H; destruct H as (a & Ha & H)
    | H : Ok ?x = Ok ?y |- _ =>
        apply Ok_injective in H;
        first [ subst y | subst x | (injection H as ? ?; subst) | revert H ]
    | H : Raise _ = Ok _ |- _ => discriminate H
    | H : (let '(_, _) := ?p in _) = Ok _ |- _ => destruct p
    | H : (if ?b then _ else _) = Ok _ |- _ => destruct b eqn:?
    | H : match ?x with _ => _ end = Ok _ |- _ => destruct x eqn:?
    end; intros.

(** Closes the goal that a freshly created leaf is well formed. *)
Ltac created_leaf :=
  first
    [ apply recovery_leaf_well_formed
    | eapply created_leaf_well_formed;
      [ eassumption
      | tauto
      | first [ left; split; reflexivity
              | right; repeat split; eexists; reflexivity ] ] ].

Section LeafInvariant.

Variable paces : gmap string string.
Variable repr : value -> string.

Lemma warmup_phase_well_formed structure steps o steps' o' :
  warmup_phase paces repr structure (steps, o) = Ok (steps', o') ->
  leaves_well_formed steps -> leaves_well_formed steps'.
Proof.
  unfold warmup_phase. intros H Hs. run_inv; [| exact Hs].
  apply leaves_well_formed_snoc; [exact Hs |].
  constructor; [created_leaf | constructor].
Qed.

Lemma work_interval_well_formed work step :
  work_interval paces work = Ok step -> leaf_well_formed step.
Proof.
  unfold work_interval. intros H. run_inv; created_leaf.
Qed.

Lemma rest_interval_well_formed rest children :
  rest_interval rest = Ok children -> Forall leaf_well_formed children.
Proof.
  unfold rest_interval. intros H.
  run_inv; repeat constructor; created_leaf.
Qed.

Lemma intervals_phase_well_formed structure steps o steps' o' :
  intervals_phase paces structure (steps, o) = Ok (steps', o') ->
  leaves_well_formed steps -> leaves_well_formed steps'.
Proof.
  unfold intervals_phase. intros H Hs. run_inv; [| exact Hs].
  apply leaves_well_formed_snoc; [exact Hs |].
  unfold create_repeat_group. simpl. constructor.
  - eapply work_interval_well_formed; eassumption.
  - eapply rest_interval_well_formed; eassumption.
Qed.

Lemma main_phase_well_formed structure steps o steps' o' :
  main_phase paces repr structure (steps, o) = Ok (steps', o') ->
  leaves_well_formed steps -> leaves_well_formed steps'.
Proof.
  unfold main_phase. intros H Hs.
  run_split; try exact Hs;
    (apply leaves_well_formed_snoc; [exact Hs |];
     constructor; [created_leaf | constructor]).
Qed.

Lemma cooldown_phase_well_formed structure steps o steps' o' :
  cooldown_phase paces repr structure (steps, o) = Ok (steps', o') ->
  leaves_well_formed steps -> leaves_well_formed steps'.
Proof.
  unfold cooldown_phase. intros H Hs. run_inv; [| exact Hs].
  apply leaves_well_formed_snoc; [exact Hs |].
  constructor; [created_leaf | constructor].
Qed.

Lemma build_structured_workout_well_formed structure start_order steps :
  _build_structured_workout paces repr structure start_order = Ok steps ->
  leaves_well_formed steps.
Proof.
  unfold _build_structured_workout. intros H.
  apply bind_Ok in H. destruct H as ([s1 o1] & H1 & H).
  apply bind_Ok in H. destruct H as ([s2 o2] & H2 & H).
  apply bind_Ok in H. destruct H as ([s3 o3] & H3 & H).
  apply bind_Ok in H. destruct H as ([s4 o4] & H4 & H).
  inversion H; subst; clear H. simpl.
  eapply cooldown_phase_well_formed; [exact H4 |].
  eapply main_phase_well_formed; [exact H3 |].
  eapply intervals_phase_well_formed; [exact H2 |].
  eapply warmup_phase_well_formed; [exact H1 |].
  constructor.
Qed.

Lemma build_simple_workout_well_formed workout_type distance start_order steps :
  _build_simple_workout paces repr workout_type distance start_order = Ok steps ->
  leaves_well_formed steps.
Proof.
  unfold _build_simple_workout. intros H. run_inv.
  constructor; [| constructor].
  constructor; [created_leaf | constructor].
Qed.

End LeafInvariant.

(** X6: every leaf step of a document the compiler returns uses the
    identifier pairs of the remote service consistently: step type
    (1 warmup, 2 cooldown, 3 interval, 4 recovery), end condition
    (2 time, 3 distance; never the lap button), and target (1 with no
    bounds, or 6 with the bounds 0.95 and 1.05 times one speed, the
    bounds standing on the step and not inside [targetType]).  Recovery
    steps are ended by time and untargeted, warmup and cooldown by
    distance, and a time limit is an integer number of seconds. *)
Theorem X6_leaves_are_well_formed
    (paces : gmap string string) (repr : value -> string)
    (workout_data : gmap string value) (workout_date : datetime)
    (week_number : Z) (day_name : string) (doc : workout) :
  build_workout_from_yaml paces repr workout_data workout_date week_number day_name
  = Ok doc ->
  forall step leaf,
    In step (workout_steps doc) -> In leaf (leaf_steps step) ->
    leaf_well_formed leaf.
Proof.
  intros Hdoc step leaf Hstep Hleaf.
  assert (Hall : leaves_well_formed (workout_steps doc)).
  { unfold build_workout_from_yaml in Hdoc.
    apply bind_Ok in Hdoc. destruct Hdoc as (steps & Hsteps & Hdoc).
    apply bind_Ok in Hdoc. destruct Hdoc as (duration & _ & Hdoc).
    inversion Hdoc; subst doc; clear Hdoc.
    unfold workout_steps. cbn [workoutSegments flat_map workoutSteps].
    rewrite app_nil_r.
    destruct (workout_data !! "structure") as [structure |].
    - eapply build_structured_workout_well_formed; exact Hsteps.
    - eapply build_simple_workout_well_formed; exact Hsteps. }
  unfold leaves_well_formed in Hall.
  pose proof (proj1 (List.Forall_forall _ _) Hall step Hstep) as Hleaves.
  exact (proj1 (List.Forall_forall _ _) Hleaves leaf Hleaf).
Qed.

Lemma X6_leaves_are_well_formed_witness :
  leaf_well_formed threshold_work_step /\ leaf_well_formed threshold_recovery_step.
Proof.
  split;
    apply (X6_leaves_are_well_formed threshold_paces plain_repr threshold_workout
             goal_day 1 "tuesday" _ eq_refl
             (RepeatGroupDTO 1 (VInt 3) [threshold_work_step; threshold_recovery_step]));
    simpl; auto.
Defined.

(** *** Layout of a structured workout *)

Section Layout.

Variable paces : gmap string string.
Variable repr : value -> string.

Lemma warmup_phase_layout structure steps o steps' o' :
  warmup_phase paces repr structure (steps, o) = Ok (steps', o') ->
  exists present,
    contains_key "warmup" structure = Ok present
    /\ map role_and_order steps'
       = (map role_and_order steps ++ if present then [("warmup", o)] else [])%list
    /\ o' = o + one_if present.
Proof.
  unfold warmup_phase. intros H.
  apply bind_Ok in H. destruct H as (present & Hp & H).
  exists present. split; [exact Hp |].
  destruct present; run_split.
  - rewrite map_app. split; [reflexivity | reflexivity].
  - rewrite app_nil_r. split; [reflexivity | unfold one_if; lia].
Qed.

Lemma intervals_phase_layout structure steps o steps' o' :
  intervals_phase paces structure (steps, o) = Ok (steps', o') ->
  exists present,
    contains_key "intervals" structure = Ok present
    /\ map role_and_order steps'
       = (map role_and_order steps ++ if present then [("repeat", o)] else [])%list
    /\ o' = o + one_if present.
Proof.
  unfold intervals_phase. intros H.
  apply bind_Ok in H. destruct H as (present & Hp & H).
  exists present. split; [exact Hp |].
  destruct present; run_split.
  - rewrite map_app. split; [reflexivity | reflexivity].
  - rewrite app_nil_r. split; [reflexivity | unfold one_if; lia].
Qed.

Lemma main_phase_layout structure steps o steps' o' :
  main_phase paces repr structure (steps, o) = Ok (steps', o') ->
  exists has_main has_intervals main_steps,
    contains_key "main" structure = Ok has_main
    /\ (has_main = true -> contains_key "intervals" structure = Ok has_intervals)
    /\ (has_main = false -> has_intervals = false)
    /\ (main_steps = [] \/ main_steps = [("interval", o)])
    /\ map role_and_order steps'
       = (map role_and_order steps
          ++ if has_main && negb has_intervals then main_steps else [])%list
    /\ o' = o + one_if (has_main && negb has_intervals).
Proof.
  unfold main_phase. intros H.
  apply bind_Ok in H. destruct H as (has_main & Hm & H).
  destruct has_main.
  - apply bind_Ok in H. destruct H as (present & Hp & H).
    apply bind_Ok in Hp. destruct Hp as (has_intervals & Hi & Hp).
    apply Ok_injective in Hp. subst present.
    exists true, has_intervals.
    destruct has_intervals; cbn [negb andb] in *.
    + exists []. run_split. rewrite app_nil_r.
      repeat split; auto. unfold one_if. lia.
    + apply bind_Ok in H. destruct H as (main & Hmain & H).
      apply bind_Ok in H. destruct H as (timed & Ht & H).
      apply bind_Ok in H. destruct H as (steps2 & Hs & H).
      apply Ok_injective in H. injection H as <- <-.
      destruct timed.
      * exists [("interval", o)]. run_split. rewrite map_app.
        repeat split; auto.
      * apply bind_Ok in Hs. destruct Hs as (measured & Hd & Hs).
        destruct measured.
        -- exists [("interval", o)]. run_split. rewrite map_app.
           repeat split; auto.
        -- exists []. run_split. rewrite app_nil_r. repeat split; auto.
  - exists false, false, []. cbn [bind] in H. run_split.
    rewrite app_nil_r. cbn [andb].
    repeat split; auto; try discriminate. unfold one_if. lia.
Qed.

Lemma cooldown_phase_layout structure steps o steps' o' :
  cooldown_phase paces repr structure (steps, o) = Ok (steps', o') ->
  exists present,
    contains_key "cooldown" structure = Ok present
    /\ map role_and_order steps'
       = (map role_and_order steps ++ if present then [("cooldown", o)] else [])%list.
Proof.
  unfold cooldown_phase. intros H.
  apply bind_Ok in H. destruct H as (present & Hp & H).
  exists present. split; [exact Hp |].
  destruct present; run_split.
  - rewrite map_app. reflexivity.
  - rewrite app_nil_r. reflexivity.
Qed.

(** The top-level steps of a structured workout, by role and order. *)
Lemma build_structured_workout_layout structure start_order steps :
  _build_structured_workout paces repr structure start_order = Ok steps ->
  exists has_warmup has_intervals has_main has_cooldown main_steps,
    contains_key "warmup" structure = Ok has_warmup
    /\ contains_key "intervals" structure = Ok has_intervals
    /\ contains_key "main" structure = Ok has_main
    /\ contains_key "cooldown" structure = Ok has_cooldown
    /\ (main_steps = [] \/ main_steps = [("interval", start_order + one_if has_warmup)])
    /\ map role_and_order steps
       = ((if has_warmup then [("warmup", start_order)] else [])
          ++ (if has_intervals then [("repeat", start_order + one_if has_warmup)]
              else if has_main then main_steps else [])
          ++ (if has_cooldown
              then [("cooldown",
                     start_order + one_if has_warmup
                     + one_if (has_intervals || has_main))]
              else []))%list.
Proof.
  unfold _build_structured_workout. intros H.
  apply bind_Ok in H. destruct H as ([s1 o1] & H1 & H).
  apply bind_Ok in H. destruct H as ([s2 o2] & H2 & H).
  apply bind_Ok in H. destruct H as ([s3 o3] & H3 & H).
  apply bind_Ok in H. destruct H as ([s4 o4] & H4 & H).
  apply Ok_injective in H. cbn [fst] in H. subst steps.
  apply warmup_phase_layout in H1. destruct H1 as (hw & Hw & L1 & O1).
  apply intervals_phase_layout in H2. destruct H2 as (hi & Hi & L2 & O2).
  apply main_phase_layout in H3.
  destruct H3 as (hm & hi' & ms & Hm & Hi1 & Hi2 & Hms & L3 & O3).
  apply cooldown_phase_layout in H4. destruct H4 as (hc & Hc & L4).
  assert (Hsame : hm = true -> hi' = hi).
  { intros E. specialize (Hi1 E). congruence. }
  exists hw, hi, hm, hc, (if hi then [] else ms).
  split; [exact Hw |]. split; [exact Hi |]. split; [exact Hm |]. split; [exact Hc |].
  subst o1 o2 o3. rewrite L4, L3, L2, L1. clear L1 L2 L3 L4.
  destruct hm.
  - rewrite (Hsame eq_refl) in *. clear Hsame Hi1 Hi2.
    destruct hi; cbn [one_if andb negb orb] in *.
    + split; [left; reflexivity |].
      rewrite <- ?app_assoc. destruct hw, hc; cbn [map one_if app];
        repeat first [reflexivity | lia | f_equal].
    + split; [destruct Hms as [-> | ->]; [left | right]; repeat first [reflexivity | lia | f_equal] |].
      rewrite <- ?app_assoc. destruct hw, hc; cbn [map one_if app];
        rewrite ?app_nil_r; repeat first [reflexivity | lia | f_equal].
  - rewrite (Hi2 eq_refl) in *. clear Hsame Hi1 Hi2. cbn [andb] in *.
    split.
    + destruct hi; [left; reflexivity |].
      cbn [one_if] in Hms. rewrite Z.add_0_r in Hms. exact Hms.
    + cbn [map app]. rewrite ?app_nil_r.
      destruct hw, hi, hc; cbn [one_if app orb];
        repeat first [reflexivity | lia | f_equal].
Qed.

End Layout.

Lemma role_and_order_fst steps :
  map step_role steps = map fst (map role_and_order steps).
Proof. rewrite map_map. reflexivity. Qed.


(** X7: a structured workout is compiled in the fixed order warmup,
    then intervals or main, then cooldown, each at most once: the roles
    of the top-level steps are "warmup" if the structure has a warmup,
    then "repeat" (a repeat group) if it has intervals, or else at most
    one "interval" step if it has a main block, then "cooldown" if it
    has one.  With intervals present the main block is not compiled. *)
Theorem X7_phases_in_fixed_order
    (paces : gmap string string) (repr : value -> string)
    (structure : value) (start_order : Z) (steps : list workout_step) :
  _build_structured_workout paces repr structure start_order = Ok steps ->
  exists has_warmup has_intervals has_main has_cooldown main_roles,
    contains_key "warmup" structure = Ok has_warmup
    /\ contains_key "intervals" structure = Ok has_intervals
    /\ contains_key "main" structure = Ok has_main
    /\ contains_key "cooldown" structure = Ok has_cooldown
    /\ (main_roles = [] \/ main_roles = ["interval"])
    /\ map step_role steps
       = ((if has_warmup then ["warmup"] else [])
          ++ (if has_intervals then ["repeat"]
              else if has_main then main_roles else [])
          ++ (if has_cooldown then ["cooldown"] else []))%list
    /\ (length steps <= 3)%nat.
Proof.
  intros H. apply build_structured_workout_layout in H.
  destruct H as (hw & hi & hm & hc & ms & Hw & Hi & Hm & Hc & Hms & L).
  exists hw, hi, hm, hc, (map fst ms).
  split; [exact Hw |]. split; [exact Hi |]. split; [exact Hm |]. split; [exact Hc |].
  split; [destruct Hms as [-> | ->]; [left | right]; reflexivity |].
  assert (Hroles : map step_role steps
                   = ((if hw then ["warmup"] else [])
                      ++ (if hi then ["repeat"] else if hm then map fst ms else [])
                      ++ (if hc then ["cooldown"] else []))%list).
  { rewrite role_and_order_fst, L, !map_app.
    destruct hw, hi, hm, hc; reflexivity. }
  split; [exact Hroles |].
  rewrite <- (length_map step_role), Hroles.
  destruct Hms as [-> | ->]; destruct hw, hi, hm, hc; simpl; lia.
Qed.

Lemma X7_phases_in_fixed_order_witness :
  exists has_warmup has_intervals has_main has_cooldown main_roles,
    contains_key "warmup" long_run_structure = Ok has_warmup
    /\ contains_key "intervals" long_run_structure = Ok has_intervals
    /\ contains_key "main" long_run_structure = Ok has_main
    /\ contains_key "cooldown" long_run_structure = Ok has_cooldown
    /\ (main_roles = [] \/ main_roles = ["interval"])
    /\ ["warmup"; "interval"; "cooldown"]
       = ((if has_warmup then ["warmup"] else [])
          ++ (if has_intervals then ["repeat"]
              else if has_main then main_roles else [])
          ++ (if has_cooldown then ["cooldown"] else []))%list
    /\ (3 <= 3)%nat.
Proof.
  destruct (_build_structured_workout ∅ plain_repr long_run_structure 1)
    as [steps | e] eqn:E; [| vm_compute in E; discriminate E].
  pose proof (X7_phases_in_fixed_order ∅ plain_repr long_run_structure 1 steps E) as H.
  vm_compute in E. injection E as <-. exact H.
Defined.



(** *** What the structured builder ignores *)

Lemma contains_key_delete key gone (d : gmap string value) :
  key <> gone ->
  contains_key key (VDict (delete gone d)) = contains_key key (VDict d).
Proof.
  intros Hne. unfold contains_key. rewrite lookup_delete_ne by congruence.
  reflexivity.
Qed.

Lemma getitem_delete key gone (d : gmap string value) :
  key <> gone ->
  getitem (VDict (delete gone d)) key = getitem (VDict d) key.
Proof.
  intros Hne. unfold getitem. rewrite lookup_delete_ne by congruence.
  reflexivity.
Qed.

Lemma get_delete key gone (d : gmap string value) default :
  key <> gone ->
  get (VDict (delete gone d)) key default = get (VDict d) key default.
Proof.
  intros Hne. unfold get, dict_get. rewrite lookup_delete_ne by congruence.
  reflexivity.
Qed.

Section Ignored.

Variable paces : gmap string string.
Variable repr : value -> string.

Lemma main_phase_with_intervals (structure : gmap string value) intervals st :
  structure !! "intervals" = Some intervals ->
  main_phase paces repr (VDict structure) st = Ok st.
Proof.
  intros Hi. unfold main_phase. destruct st as [steps o].
  cbn [contains_key bind]. rewrite Hi.
  destruct (structure !! "main"); reflexivity.
Qed.

Lemma main_phase_without_main (structure : gmap string value) st :
  structure !! "main" = None ->
  main_phase paces repr (VDict structure) st = Ok st.
Proof.
  intros Hm. unfold main_phase. destruct st as [steps o].
  cbn [contains_key bind]. rewrite Hm. reflexivity.
Qed.

End Ignored.

(** X9: when the structure has an [intervals] entry, its [main] entry
    plays no part: the compilation, result or exception, is that of the
    structure without [main]. *)
Theorem X9_intervals_override_main
    (paces : gmap string string) (repr : value -> string)
    (structure : gmap string value) (intervals : value) (start_order : Z) :
  structure !! "intervals" = Some intervals ->
  _build_structured_workout paces repr (VDict structure) start_order
  = _build_structured_workout paces repr (VDict (delete "main" structure)) start_order.
Proof.
  intros Hi. unfold _build_structured_workout.
  assert (Hw : forall st, warmup_phase paces repr (VDict (delete "main" structure)) st
                          = warmup_phase paces repr (VDict structure) st).
  { intros [steps o]. unfold warmup_phase.
    rewrite contains_key_delete, getitem_delete by discriminate. reflexivity. }
  assert (Hint : forall st, intervals_phase paces (VDict (delete "main" structure)) st
                            = intervals_phase paces (VDict structure) st).
  { intros [steps o]. unfold intervals_phase.
    rewrite contains_key_delete, getitem_delete by discriminate. reflexivity. }
  assert (Hc : forall st, cooldown_phase paces repr (VDict (delete "main" structure)) st
                          = cooldown_phase paces repr (VDict structure) st).
  { intros [steps o]. unfold cooldown_phase.
    rewrite contains_key_delete, getitem_delete by discriminate. reflexivity. }
  rewrite Hw.
  destruct (warmup_phase paces repr (VDict structure) ([], start_order)) as [st1 |];
    [| reflexivity].
  cbn [bind]. rewrite Hint.
  destruct (intervals_phase paces (VDict structure) st1) as [st2 |]; [| reflexivity].
  cbn [bind].
  rewrite (main_phase_with_intervals paces repr structure intervals st2 Hi).
  rewrite (main_phase_without_main paces repr (delete "main" structure) st2)
    by apply lookup_delete_eq.
  cbn [bind]. rewrite Hc. reflexivity.
Qed.

Lemma X9_intervals_override_main_witness :
  _build_structured_workout threshold_paces plain_repr
    (VDict {[ "intervals" := VDict ∅; "main" := VStr "ignored" ]}) 1
  = _build_structured_workout threshold_paces plain_repr
      (VDict (delete "main" {[ "intervals" := VDict ∅; "main" := VStr "ignored" ]})) 1.
Proof.
  exact (X9_intervals_override_main threshold_paces plain_repr
           {[ "intervals" := VDict ∅; "main" := VStr "ignored" ]} (VDict ∅) 1 eq_refl).
Defined.

(** *** Degenerate structures *)

Lemma build_structured_text paces repr (text : string) start_order :
  _build_structured_workout paces repr (VStr text) start_order
  = if mentions_phase (VStr text) then Raise TypeError else Ok [].
Proof.
  unfold _build_structured_workout, mentions_phase,
    warmup_phase, intervals_phase, main_phase, cooldown_phase.
  cbn [contains_key bind getitem].
  destruct (contains "warmup" text); [reflexivity |].
  cbn [bind orb]. destruct (contains "intervals" text); [reflexivity |].
  cbn [bind orb negb]. destruct (contains "main" text); [reflexivity |].
  cbn [bind orb]. destruct (contains "cooldown" text); reflexivity.
Qed.

Lemma build_structured_list paces repr (items : list value) start_order :
  _build_structured_workout paces repr (VList items) start_order
  = if mentions_phase (VList items) then Raise TypeError else Ok [].
Proof.
  unfold _build_structured_workout, mentions_phase,
    warmup_phase, intervals_phase, main_phase, cooldown_phase.
  cbn [contains_key bind getitem].
  destruct (existsb (fun x => eq_str x "warmup") items); [reflexivity |].
  cbn [bind orb]. destruct (existsb (fun x => eq_str x "intervals") items);
    [reflexivity |].
  cbn [bind orb negb]. destruct (existsb (fun x => eq_str x "main") items);
    [reflexivity |].
  cbn [bind orb]. destruct (existsb (fun x => eq_str x "cooldown") items); reflexivity.
Qed.

(** X10: a structure that is not a mapping is not rejected as such.
    A text or a sequence that mentions none of the words warmup,
    intervals, main and cooldown compiles silently to no step at all,
    and so does the empty mapping; one that mentions any of them
    raises [TypeError], as do null, a number and a boolean. *)
Theorem X10_structure_that_is_no_mapping
    (paces : gmap string string) (repr : value -> string) (start_order : Z) :
  (forall text,
      _build_structured_workout paces repr (VStr text) start_order
      = if mentions_phase (VStr text) then Raise TypeError else Ok [])
  /\ (forall items,
        _build_structured_workout paces repr (VList items) start_order
        = if mentions_phase (VList items) then Raise TypeError else Ok [])
  /\ _build_structured_workout paces repr (VDict ∅) start_order = Ok []
  /\ _build_structured_workout paces repr VNone start_order = Raise TypeError
  /\ (forall n, _build_structured_workout paces repr (VInt n) start_order
                = Raise TypeError)
  /\ (forall x, _build_structured_workout paces repr (VFloat x) start_order
                = Raise TypeError)
  /\ (forall b, _build_structured_workout paces repr (VBool b) start_order
                = Raise TypeError).
Proof.
  split; [intros text; apply build_structured_text |].
  split; [intros items; apply build_structured_list |].
  repeat split; intros; reflexivity.
Qed.

(** *** The repeat group, defaults and precedence *)

Section Extends.

Variable paces : gmap string string.
Variable repr : value -> string.

Lemma intervals_phase_extends structure steps o steps' o' :
  intervals_phase paces structure (steps, o) = Ok (steps', o') ->
  exists extra, steps' = (steps ++ extra)%list.
Proof.
  unfold intervals_phase. intros H. run_split.
  - eexists. reflexivity.
  - exists []. rewrite app_nil_r. reflexivity.
Qed.

Lemma main_phase_extends structure steps o steps' o' :
  main_phase paces repr structure (steps, o) = Ok (steps', o') ->
  exists extra, steps' = (steps ++ extra)%list.
Proof.
  unfold main_phase. intros H.
  run_split; first [ eexists; reflexivity
                   | exists []; rewrite app_nil_r; reflexivity ].
Qed.

Lemma cooldown_phase_extends structure steps o steps' o' :
  cooldown_phase paces repr structure (steps, o) = Ok (steps', o') ->
  exists extra, steps' = (steps ++ extra)%list.
Proof.
  unfold cooldown_phase. intros H. run_split.
  - eexists. reflexivity.
  - exists []. rewrite app_nil_r. reflexivity.
Qed.

Lemma rest_interval_cases (rest : value) children :
  rest_interval rest = Ok children ->
  exists r,
    rest = VDict r
    /\ (if eq_str (dict_get r "type" VNone) "jog"
        then exists seconds,
            children = [recovery_step seconds]
            /\ (r !! "duration" = None -> seconds = 150)
            /\ (forall d, r !! "duration" = Some d -> parse_duration d = Ok seconds)
        else children = []).
Proof.
  unfold rest_interval. intros H.
  destruct rest; try discriminate H.
  exists d. split; [reflexivity |].
  cbn [get bind] in H.
  destruct (eq_str (dict_get d "type" VNone) "jog");
    [| apply Ok_injective in H; subst children; reflexivity].
  cbn [contains_key bind getitem] in H.
  destruct (d !! "duration") as [text |] eqn:Hd.
  - cbn [bind] in H. apply bind_Ok in H. destruct H as (seconds & Hs & H).
    apply Ok_injective in H. subst children.
    exists seconds. split; [reflexivity |].
    split; [discriminate |]. intros d0 E. injection E as <-. exact Hs.
  - cbn [bind] in H. apply Ok_injective in H. subst children.
    exists 150. split; [reflexivity |]. split; [reflexivity | discriminate].
Qed.

Lemma work_interval_first work step :
  work_interval paces work = Ok step ->
  Step.stepOrder step = 1 /\ Step.stepTypeKey step = "interval".
Proof.
  unfold work_interval. intros H. run_split; split; reflexivity.
Qed.

End Extends.

(** X11: the repeat group of an intervals phase.  Its iteration count
    is the [repeat] entry as the plan gives it (1 when absent), and its
    children are the work step, numbered 1, followed, when and only
    when the rest type is "jog", by one recovery step numbered 2, ended
    by time and untargeted, of 150 seconds unless the rest gives a
    duration. *)
Theorem X11_repeat_group
    (paces : gmap string string) (repr : value -> string)
    (structure intervals : gmap string value) (start_order : Z)
    (steps : list workout_step) :
  structure !! "intervals" = Some (VDict intervals) ->
  _build_structured_workout paces repr (VDict structure) start_order = Ok steps ->
  exists order work_step rest_steps rest,
    In (RepeatGroupDTO order (dict_get intervals "repeat" (VInt 1))
          (work_step :: rest_steps)) steps
    /\ Step.stepOrder work_step = 1
    /\ Step.stepTypeKey work_step = "interval"
    /\ dict_get intervals "rest" (VDict ∅) = VDict rest
    /\ (if eq_str (dict_get rest "type" VNone) "jog"
        then exists seconds,
            rest_steps = [recovery_step seconds]
            /\ (rest !! "duration" = None -> seconds = 150)
            /\ (forall d, rest !! "duration" = Some d -> parse_duration d = Ok seconds)
        else rest_steps = []).
Proof.
  intros Hi H. unfold _build_structured_workout in H.
  apply bind_Ok in H. destruct H as ([s1 o1] & H1 & H).
  apply bind_Ok in H. destruct H as ([s2 o2] & H2 & H).
  apply bind_Ok in H. destruct H as ([s3 o3] & H3 & H).
  apply bind_Ok in H. destruct H as ([s4 o4] & H4 & H).
  apply Ok_injective in H. cbn [fst] in H. subst steps.
  apply main_phase_extends in H3. destruct H3 as (e3 & ->).
  apply cooldown_phase_extends in H4. destruct H4 as (e4 & ->).
  unfold intervals_phase in H2.
  cbn [contains_key getitem bind] in H2. rewrite Hi in H2.
  cbn [bind get] in H2.
  apply bind_Ok in H2. destruct H2 as (work_step & Hwork & H2).
  apply bind_Ok in H2. destruct H2 as (rest_steps & Hrest & H2).
  apply Ok_injective in H2. injection H2 as <- <-.
  apply work_interval_first in Hwork. destruct Hwork as [Ho Hk].
  apply rest_interval_cases in Hrest. destruct Hrest as (r & Hr & Hcases).
  exists o1, work_step, rest_steps, r.
  split.
  - unfold create_repeat_group.
    apply in_or_app. left. apply in_or_app. left.
    apply in_or_app. right. left. reflexivity.
  - split; [exact Ho |]. split; [exact Hk |]. split; [exact Hr | exact Hcases].
Qed.

Lemma X11_repeat_group_witness :
  exists order work_step rest_steps rest,
    In (RepeatGroupDTO order (VInt 3) (work_step :: rest_steps))
       [RepeatGroupDTO 1 (VInt 3) [threshold_work_step; threshold_recovery_step]]
    /\ Step.stepOrder work_step = 1
    /\ Step.stepTypeKey work_step = "interval"
    /\ VDict {[ "type" := VStr "jog" ]} = VDict rest
    /\ (if eq_str (dict_get rest "type" VNone) "jog"
        then exists seconds,
            rest_steps = [recovery_step seconds]
            /\ (rest !! "duration" = None -> seconds = 150)
            /\ (forall d, rest !! "duration" = Some d -> parse_duration d = Ok seconds)
        else rest_steps = []).
Proof.
  exact (X11_repeat_group threshold_paces plain_repr
           {[ "intervals" :=
                VDict {[ "work" := VDict {[ "duration" := VStr "20-25 min";
                                            "pace" := VStr "lactate_threshold" ]};
                         "rest" := VDict {[ "type" := VStr "jog" ]};
                         "repeat" := VInt 3 ]} ]}
           {[ "work" := VDict {[ "duration" := VStr "20-25 min";
                                 "pace" := VStr "lactate_threshold" ]};
              "rest" := VDict {[ "type" := VStr "jog" ]};
              "repeat" := VInt 3 ]}
           1 _ eq_refl eq_refl).
Defined.

(** X12: in a work interval a [duration] entry decides alone: the
    [distance] and [unit] entries are not read, the step is ended by
    time at the parsed number of seconds, and a duration that is not
    text (a YAML number, say) raises [AttributeError]. *)
Theorem X12_work_duration_decides
    (paces : gmap string string) (work : gmap string value) (duration : value) :
  work !! "duration" = Some duration ->
  work_interval paces (VDict work)
  = work_interval paces (VDict (delete "distance" (delete "unit" work)))
  /\ (forall step,
        work_interval paces (VDict work) = Ok step ->
        Step.conditionTypeKey step = "time"
        /\ exists seconds,
            parse_duration duration = Ok seconds
            /\ Step.endConditionValue step = VInt seconds)
  /\ ((forall text, duration <> VStr text) ->
      work_interval paces (VDict work) = Raise AttributeError).
Proof.
  intros Hd.
  assert (Hd' : delete "distance" (delete "unit" work) !! "duration" = Some duration)
    by (rewrite !lookup_delete_ne by discriminate; exact Hd).
  assert (Hpace : dict_get (delete "distance" (delete "unit" work)) "pace"
                    (VStr "lactate_threshold")
                  = dict_get work "pace" (VStr "lactate_threshold"))
    by (unfold dict_get; rewrite !lookup_delete_ne by discriminate; reflexivity).
  unfold work_interval. cbn [contains_key getitem get bind].
  rewrite Hd, Hd'. cbn [bind]. rewrite Hpace.
  split; [reflexivity |]. split.
  - intros step H.
    apply bind_Ok in H. destruct H as (seconds & Hs & H).
    apply bind_Ok in H. destruct H as (target & _ & H).
    apply Ok_injective in H. subst step.
    split; [reflexivity |]. exists seconds. split; [exact Hs | reflexivity].
  - intros Hnot. destruct duration; try reflexivity.
    exfalso. exact (Hnot s eq_refl).
Qed.

Lemma X12_work_duration_decides_witness :
  work_interval threshold_paces (VDict numeric_duration_work) = Raise AttributeError.
Proof.
  apply (proj2 (proj2 (X12_work_duration_decides threshold_paces
                         numeric_duration_work (VInt 90) eq_refl))).
  intros text H. discriminate H.
Defined.

(** X13: a work interval without [duration] is ended by distance, and
    its [distance] entry is not parsed as the other phases' distances
    are.  With unit "meters" the entry becomes the end-condition value
    as it is, whatever it is; otherwise an integer is multiplied by
    1609.34, and a text, such as "0.5" or a range, raises
    [TypeError]. *)
Theorem X13_work_distance_is_not_parsed
    (paces : gmap string string) (work : gmap string value) :
  work !! "duration" = None ->
  (eq_str (dict_get work "unit" VNone) "meters" = true ->
   forall step,
     work_interval paces (VDict work) = Ok step ->
     Step.conditionTypeKey step = "distance"
     /\ Step.endConditionValue step = dict_get work "distance" (VInt 600))
  /\ (eq_str (dict_get work "unit" VNone) "meters" = false ->
      (forall text,
          work !! "distance" = Some (VStr text) ->
          work_interval paces (VDict work) = Raise TypeError)
      /\ (forall n step,
            work !! "distance" = Some (VInt n) ->
            Z.abs n < 2 ^ 1024 - 2 ^ 970 ->
            work_interval paces (VDict work) = Ok step ->
            Step.conditionTypeKey step = "distance"
            /\ Step.endConditionValue step
               = VFloat (nearest_float n * meters_per_mile)%float)).
Proof.
  intros Hd. unfold work_interval. cbn [contains_key get bind].
  rewrite Hd. cbn [bind]. split.
  - intros Hunit. rewrite Hunit. cbn [bind]. intros step H.
    apply bind_Ok in H. destruct H as (target & _ & H).
    apply Ok_injective in H. subst step. split; reflexivity.
  - intros Hunit. rewrite Hunit. split.
    + intros text Hdist.
      assert (E : dict_get work "distance" (VInt 600) = VStr text)
        by (unfold dict_get; rewrite Hdist; reflexivity).
      rewrite E. reflexivity.
    + intros n step Hdist Hn H.
      assert (E : dict_get work "distance" (VInt 600) = VInt n)
        by (unfold dict_get; rewrite Hdist; reflexivity).
      rewrite E in H. cbn [mul_float] in H.
      rewrite float_of_int_in_range in H by exact Hn. cbn [bind] in H.
      apply bind_Ok in H. destruct H as (target & _ & H).
      apply Ok_injective in H. subst step. split; reflexivity.
Qed.

Lemma X13_work_distance_is_not_parsed_witness :
  (exists step,
      work_interval threshold_paces (VDict metric_text_work) = Ok step
      /\ Step.endConditionValue step = VStr "800")
  /\ work_interval threshold_paces (VDict text_distance_work) = Raise TypeError.
Proof.
  split.
  - destruct (work_interval threshold_paces (VDict metric_text_work))
      as [step |] eqn:E; [| vm_compute in E; discriminate E].
    exists step. split; [reflexivity |].
    exact (proj2 (proj1 (X13_work_distance_is_not_parsed threshold_paces
                           metric_text_work eq_refl) eq_refl step E)).
  - exact (proj1 (proj2 (X13_work_distance_is_not_parsed threshold_paces
                           text_distance_work eq_refl) eq_refl)
             "0.5" eq_refl).
Defined.

Lemma two_miles_in_meters : (2 * meters_per_mile = 3218.68)%float.
Proof. vm_compute. reflexivity. Qed.

Lemma parse_distance_two repr : parse_distance repr (VInt 2) = Ok 2%float.
Proof. vm_compute. reflexivity. Qed.

(** X14: a warmup or cooldown without [distance] is two miles,
    3218.68 meters, and without [pace] it is aimed at the
    [general_aerobic] zone; the warmup is the first step, numbered
    [start_order], and the cooldown the last one. *)
Theorem X14_warmup_and_cooldown_defaults
    (paces : gmap string string) (repr : value -> string)
    (structure : gmap string value) (start_order : Z) (steps : list workout_step) :
  _build_structured_workout paces repr (VDict structure) start_order = Ok steps ->
  (forall warmup,
      structure !! "warmup" = Some (VDict warmup) ->
      warmup !! "distance" = None ->
      exists target rest,
        get_target_speed_zone paces (dict_get warmup "pace" (VStr "general_aerobic"))
        = Ok target
        /\ steps = ExecutableStepDTO
                     (create_executable_step start_order 1 "warmup" 3 "distance"
                        (VFloat 3218.68%float) (Some target)) :: rest)
  /\ (forall cooldown,
        structure !! "cooldown" = Some (VDict cooldown) ->
        cooldown !! "distance" = None ->
        exists target order before,
          get_target_speed_zone paces
            (dict_get cooldown "pace" (VStr "general_aerobic")) = Ok target
          /\ steps = (before
                      ++ [ExecutableStepDTO
                            (create_executable_step order 2 "cooldown" 3 "distance"
                               (VFloat 3218.68%float) (Some target))])%list).
Proof.
  intros H. unfold _build_structured_workout in H.
  apply bind_Ok in H. destruct H as ([s1 o1] & H1 & H).
  apply bind_Ok in H. destruct H as ([s2 o2] & H2 & H).
  apply bind_Ok in H. destruct H as ([s3 o3] & H3 & H).
  apply bind_Ok in H. destruct H as ([s4 o4] & H4 & H).
  apply Ok_injective in H. cbn [fst] in H. subst steps.
  split.
  - intros warmup Hw Hdist.
    apply intervals_phase_extends in H2. destruct H2 as (e2 & ->).
    apply main_phase_extends in H3. destruct H3 as (e3 & ->).
    apply cooldown_phase_extends in H4. destruct H4 as (e4 & ->).
    unfold warmup_phase in H1. cbn [contains_key getitem bind] in H1.
    rewrite Hw in H1. cbn [bind get] in H1.
    assert (E : dict_get warmup "distance" (VInt 2) = VInt 2)
      by (unfold dict_get; rewrite Hdist; reflexivity).
    rewrite E, parse_distance_two in H1. cbn [bind] in H1.
    rewrite two_miles_in_meters in H1.
    apply bind_Ok in H1. destruct H1 as (target & Ht & H1).
    apply Ok_injective in H1. injection H1 as <- <-.
    exists target, (e2 ++ e3 ++ e4)%list. split; [exact Ht |].
    cbn [app]. rewrite <- !app_assoc. reflexivity.
  - intros cooldown Hc Hdist.
    unfold cooldown_phase in H4. cbn [contains_key getitem bind] in H4.
    rewrite Hc in H4. cbn [bind get] in H4.
    assert (E : dict_get cooldown "distance" (VInt 2) = VInt 2)
      by (unfold dict_get; rewrite Hdist; reflexivity).
    rewrite E, parse_distance_two in H4. cbn [bind] in H4.
    rewrite two_miles_in_meters in H4.
    apply bind_Ok in H4. destruct H4 as (target & Ht & H4).
    apply Ok_injective in H4. injection H4 as <- <-.
    exists target, o3, s3. split; [exact Ht | reflexivity].
Qed.

Lemma X14_warmup_and_cooldown_defaults_witness :
  exists target rest,
    get_target_speed_zone ∅ (dict_get (∅ : gmap string value) "pace"
                               (VStr "general_aerobic")) = Ok target
    /\ long_run_steps
       = ExecutableStepDTO
           (create_executable_step 1 1 "warmup" 3 "distance"
              (VFloat 3218.68%float) (Some target)) :: rest.
Proof.
  assert (H : _build_structured_workout ∅ plain_repr long_run_structure 1
              = Ok long_run_steps) by (vm_compute; reflexivity).
  exact (proj1 (X14_warmup_and_cooldown_defaults ∅ plain_repr long_run_phases 1
                  long_run_steps H) ∅ eq_refl eq_refl).
Defined.

(** X15: [parse_distance] on text.  A decimal numeral is the float
    nearest to its value; of a range "a-b" of two decimal numerals the
    second one alone counts, whatever the first.  A simple workout
    whose distance is such a range is thus one leaf of b miles. *)
Theorem X15_parse_distance_of_text
    (paces : gmap string string) (repr : value -> string)
    (a b : string) (workout_type : value) (start_order : Z) :
  decimal_text a = true -> decimal_text b = true ->
  parse_distance repr (VStr b) = Ok (nearest_float (digits_value 0 b))
  /\ parse_distance repr (VStr (a ++ String "-" b))
     = Ok (nearest_float (digits_value 0 b))
  /\ _build_simple_workout paces repr workout_type (VStr (a ++ String "-" b))
       start_order
     = (let* pace_zone := pace_zone_map_get workout_type "general_aerobic" in
        let* target := get_target_speed_zone paces (VStr pace_zone) in
        Ok [ExecutableStepDTO
              (create_executable_step start_order 3 "interval" 3 "distance"
                 (VFloat (nearest_float (digits_value 0 b) * meters_per_mile)%float)
                 (Some target))]).
Proof.
  intros Ha Hb.
  pose proof (parse_distance_range repr a b Ha Hb) as Hrange.
  split; [| split; [exact Hrange |]].
  - unfold parse_distance. cbn [str].
    pose proof Hb as Hb'. unfold decimal_text in Hb'.
    apply andb_prop in Hb'. destruct Hb' as [_ Hbd].
    rewrite (strip_decimal b Hbd).
    assert (Hno : contains "-" b = false).
    { clear Hb Hrange. induction b as [| c r IH]; [reflexivity |].
      simpl in Hbd. apply andb_prop in Hbd. destruct Hbd as [Hc Hr].
      destruct (isdigit_facts c Hc) as (_ & _ & _ & Hminus & _).
      cbn [contains startswith]. rewrite Ascii.eqb_sym, Hminus.
      cbn [andb orb]. exact (IH Hr). }
    rewrite Hno. exact (float_of_str_decimal b Hb).
  - unfold _build_simple_workout.
    assert (Htruth : truth (VStr (a ++ String "-" b)) = true).
    { destruct a; [discriminate Ha | reflexivity]. }
    rewrite Htruth. cbn [negb]. rewrite Hrange. reflexivity.
Qed.

Lemma X15_parse_distance_of_text_witness :
  parse_distance plain_repr (VStr "8") = Ok (nearest_float 8)
  /\ parse_distance plain_repr (VStr "9-8") = Ok (nearest_float 8)
  /\ _build_simple_workout threshold_paces plain_repr (VStr "long_run") (VStr "9-8") 1
     = Ok [ExecutableStepDTO
             (create_executable_step 1 3 "interval" 3 "distance"
                (VFloat (nearest_float 8 * meters_per_mile)%float)
                (Some get_no_target))].
Proof.
  exact (X15_parse_distance_of_text threshold_paces plain_repr "9" "8"
           (VStr "long_run") 1 eq_refl eq_refl).
Defined.

(** ** More on the unit converters *)

Lemma has_char_nondigit sep s :
  isdigit sep = false -> all_digits s = true -> has_char sep s = false.
Proof.
  intros Hsep. induction s as [| c r IH]; simpl; [reflexivity |].
  intros H. apply andb_prop in H. destruct H as [Hc Hr].
  rewrite (IH Hr). destruct (Ascii.eqb_spec c sep) as [-> |]; [congruence | reflexivity].
Qed.

Lemma has_char_app sep a b :
  has_char sep (a ++ b) = has_char sep a || has_char sep b.
Proof.
  induction a as [| c r IH]; simpl; [reflexivity |].
  rewrite IH. apply orb_assoc.
Qed.

Lemma contains_first_absent c rest s :
  has_char c s = false -> contains (String c rest) s = false.
Proof.
  induction s as [| d r IH]; simpl; [reflexivity |].
  intros H. apply orb_false_elim in H. destruct H as [Hd Hr].
  rewrite Ascii.eqb_sym, Hd. cbn [andb orb]. exact (IH Hr).
Qed.

Lemma lower_app a b : lower (a ++ b) = (lower a ++ lower b)%string.
Proof.
  induction a as [| c r IH]; simpl; [reflexivity |]. rewrite IH. reflexivity.
Qed.

Lemma rstrip_cons c y :
  rstrip y = y -> y <> EmptyString -> rstrip (String c y) = String c y.
Proof.
  intros Hy Hne. cbn [rstrip]. rewrite Hy.
  destruct y; [contradiction | reflexivity].
Qed.

Lemma decimal_text_inv field :
  decimal_text field = true -> field <> EmptyString /\ all_digits field = true.
Proof.
  unfold decimal_text. intros H. apply andb_prop in H. destruct H as [Hne Hd].
  split; [| exact Hd]. intros ->. discriminate Hne.
Qed.

(** Colon-joined decimal fields: white space, case, the characters
    they hold and how they split. *)
Lemma clock_text_facts fields :
  fields <> [] -> decimal_fields fields ->
  clock_text fields <> EmptyString
  /\ lstrip (clock_text fields) = clock_text fields
  /\ rstrip (clock_text fields) = clock_text fields
  /\ lower (clock_text fields) = clock_text fields
  /\ (forall sep, isdigit sep = false -> sep <> ":"%char ->
                  has_char sep (clock_text fields) = false)
  /\ split ":" (clock_text fields) = fields.
Proof.
  induction fields as [| f rest IH]; [intros H; contradiction |].
  intros _ Hall. inversion Hall as [| ? ? Hf Hrest]; subst.
  destruct (decimal_text_inv f Hf) as [Hne Hd].
  pose proof (has_char_nondigit ":" f eq_refl Hd) as Hcolon.
  destruct rest as [| g rest].
  - cbn [clock_text].
    split; [exact Hne |]. split; [exact (lstrip_decimal f Hd) |].
    split; [exact (rstrip_decimal f Hd) |]. split; [exact (lower_decimal f Hd) |].
    split; [intros sep Hs _; exact (has_char_nondigit sep f Hs Hd) |].
    exact (split_without ":" f Hcolon).
  - specialize (IH ltac:(discriminate) Hrest).
    destruct IH as (Hne' & _ & Hr' & Hl' & Hc' & Hs').
    change (clock_text (f :: g :: rest))
      with (f ++ String ":" (clock_text (g :: rest)))%string.
    remember (clock_text (g :: rest)) as tail eqn:Et. clear Et.
    split; [destruct f; [contradiction | discriminate] |].
    split.
    { destruct f as [| c r]; [contradiction |].
      simpl in Hd. apply andb_prop in Hd. destruct Hd as [Hcd _].
      simpl. destruct (isdigit_facts c Hcd) as [-> _]. reflexivity. }
    split.
    { apply rstrip_app; [| discriminate]. apply rstrip_cons; assumption. }
    split.
    { rewrite lower_app, (lower_decimal f Hd). cbn [lower].
      rewrite Hl'. reflexivity. }
    split.
    { intros sep Hsep Hnot. rewrite has_char_app.
      rewrite (has_char_nondigit sep f Hsep Hd). cbn [has_char orb].
      rewrite (Hc' sep Hsep Hnot).
      destruct (Ascii.eqb_spec ":" sep) as [E |]; [congruence | reflexivity]. }
    rewrite (split_at_first ":" f tail Hcolon), Hs'. reflexivity.
Qed.

Lemma clock_text_has_colon f g rest :
  contains ":" (clock_text (f :: g :: rest)) = true.
Proof. exact (contains_char_middle ":" f (clock_text (g :: rest))). Qed.

(** The part of [parse_duration] that precedes the clock formats lets
    a colon-joined text through unchanged. *)
Lemma parse_duration_clock_text fields :
  fields <> [] -> decimal_fields fields ->
  parse_duration (VStr (clock_text fields))
  = (let duration_str := clock_text fields in
     let* clock :=
       if contains ":" duration_str
       then
         if Nat.eqb (length fields) 3
         then
           let* h := bind (index fields 0) int_of_str in
           let* m := bind (index fields 1) int_of_str in
           let* s := bind (index fields 2) int_of_str in
           Ok (Some (h * 3600 + m * 60 + s))
         else if Nat.eqb (length fields) 2
         then
           let* m := bind (index fields 0) int_of_str in
           let* s := bind (index fields 1) int_of_str in
           Ok (Some (m * 60 + s))
         else Ok None
       else Ok None in
     match clock with
     | Some seconds => Ok seconds
     | None => let* seconds := float_of_str duration_str in int_of_float seconds
     end).
Proof.
  intros Hne Hall.
  destruct (clock_text_facts fields Hne Hall) as (_ & Hl & Hr & Hlow & Hc & Hs).
  unfold parse_duration.
  assert (Hstrip : strip (clock_text fields) = clock_text fields)
    by (unfold strip; rewrite Hl; exact Hr).
  rewrite Hstrip, Hlow.
  rewrite (contains_first_absent "-" "" _ (Hc "-"%char eq_refl ltac:(discriminate))).
  cbn [bind].
  rewrite (contains_first_absent "m" "in" _ (Hc "m"%char eq_refl ltac:(discriminate))).
  rewrite (contains_first_absent "s" "ec" _ (Hc "s"%char eq_refl ltac:(discriminate))).
  rewrite Hs. reflexivity.
Qed.

Lemma digit_is_not c d : isdigit c = true -> isdigit d = false -> Ascii.eqb c d = false.
Proof.
  intros Hc Hd. destruct (Ascii.eqb_spec c d) as [-> |]; [congruence | reflexivity].
Qed.

Lemma strip_underscores_absent s prev :
  has_char "_" s = false -> Ascii.eqb prev "_" = false ->
  strip_underscores prev s = Some s.
Proof.
  revert prev. induction s as [| c r IH]; intros prev; simpl.
  - intros _ ->. reflexivity.
  - intros H Hp. apply orb_false_elim in H. destruct H as [Hc Hr].
    rewrite Hc, Hp. cbn [andb]. rewrite (IH c Hr Hc). reflexivity.
Qed.

Lemma span_digits_stops f c tail acc count :
  all_digits f = true -> isdigit c = false ->
  span_digits acc count (f ++ String c tail)
  = (digits_value acc f, count + Z.of_nat (String.length f), String c tail).
Proof.
  intros Hf Hc. revert acc count Hf.
  induction f as [| d r IH]; intros acc count Hf.
  - change (("" ++ String c tail)%string) with (String c tail).
    cbn [span_digits digits_value String.length]. rewrite Hc.
    f_equal. f_equal. lia.
  - simpl in Hf. apply andb_prop in Hf. destruct Hf as [Hd Hr].
    change ((String d r ++ String c tail)%string)
      with (String d (r ++ String c tail)).
    cbn [span_digits digits_value String.length]. rewrite Hd.
    rewrite (IH _ _ Hr). f_equal. f_equal. lia.
Qed.

(** A decimal numeral followed by a colon is no float literal. *)
Lemma float_of_str_clock f g rest :
  decimal_fields (f :: g :: rest) ->
  float_of_str (clock_text (f :: g :: rest)) = Raise ValueError.
Proof.
  intros Hall.
  destruct (clock_text_facts (f :: g :: rest) ltac:(discriminate) Hall)
    as (_ & Hl & Hr & Hlow & Hc & _).
  unfold float_of_str. rewrite (strip_c_stripped _ Hl Hr).
  rewrite (strip_underscores_absent _ " " (Hc "_"%char eq_refl ltac:(discriminate)) eq_refl).
  revert Hlow.
  change (clock_text (f :: g :: rest))
    with (f ++ String ":" (clock_text (g :: rest)))%string.
  inversion Hall as [| ? ? Hf _]; subst.
  destruct (decimal_text_inv f Hf) as [Hne Hd].
  remember (clock_text (g :: rest)) as tail eqn:Et. clear Et.
  destruct f as [| c r]; [contradiction |].
  pose proof Hd as Hd'. simpl in Hd'. apply andb_prop in Hd'. destruct Hd' as [Hcd _].
  intros Hlow.
  assert (Hsign : split_sign (String c r ++ String ":" tail)
                  = (false, (String c r ++ String ":" tail)%string)).
  { change ((String c r ++ String ":" tail)%string)
      with (String c (r ++ String ":" tail)).
    cbn [split_sign].
    pose proof (digit_is_not c "-" Hcd eq_refl) as H1.
    pose proof (digit_is_not c "+" Hcd eq_refl) as H2.
    destruct c as [[] [] [] [] [] [] [] []]; first [reflexivity | discriminate]. }
  rewrite Hsign, Hlow.
  assert (Hword : forall w, isdigit w = false -> forall ws,
             String.eqb (String c r ++ String ":" tail) (String w ws) = false).
  { intros w Hw ws.
    change ((String c r ++ String ":" tail)%string)
      with (String c (r ++ String ":" tail)).
    cbn [String.eqb].
    rewrite (digit_is_not c w Hcd Hw). reflexivity. }
  rewrite !Hword by reflexivity. cbn [orb].
  rewrite (span_digits_stops (String c r) ":" tail 0 0 Hd eq_refl).
  cbn [String.length]. cbn [exponent_part Ascii.eqb Bool.eqb orb].
  destruct (0 <? 0 + Z.of_nat (S (String.length r)) + 0); reflexivity.
Qed.

(** X16: clock texts are read as durations by their number of fields.
    For decimal numerals h, m and s of at most 4300 digits each (the
    most [int] converts), "h:m:s" is h*3600 + m*60 + s seconds and
    "m:s" is m*60 + s seconds; no field is limited to 59.  A text of
    four or more colon-separated numerals is refused with a
    ValueError. *)
Theorem X16_clock_durations (h m s : string) (more : list string) :
  decimal_fields (h :: m :: s :: more) ->
  int_sized [h; m; s] ->
  parse_duration (VStr (clock_text [h; m; s]))
  = Ok (digits_value 0 h * 3600 + digits_value 0 m * 60 + digits_value 0 s)
  /\ parse_duration (VStr (clock_text [m; s]))
     = Ok (digits_value 0 m * 60 + digits_value 0 s)
  /\ (more <> [] ->
      parse_duration (VStr (clock_text (h :: m :: s :: more))) = Raise ValueError).
Proof.
  intros Hall Hsized.
  inversion Hall as [| ? ? Hh Hms]; subst.
  inversion Hms as [| ? ? Hm Hsm]; subst.
  inversion Hsm as [| ? ? Hs Hmore]; subst.
  inversion Hsized as [| ? ? Hlh Hsized']; subst.
  inversion Hsized' as [| ? ? Hlm Hsized'']; subst.
  inversion Hsized'' as [| ? ? Hls _]; subst.
  split; [| split].
  - rewrite parse_duration_clock_text
      by (try discriminate; repeat constructor; assumption).
    cbv zeta. rewrite clock_text_has_colon.
    cbn [length Nat.eqb index nth_error bind].
    rewrite (int_of_str_decimal h Hh Hlh). cbn [bind].
    rewrite (int_of_str_decimal m Hm Hlm). cbn [bind].
    rewrite (int_of_str_decimal s Hs Hls). reflexivity.
  - rewrite parse_duration_clock_text
      by (try discriminate; repeat constructor; assumption).
    cbv zeta. rewrite clock_text_has_colon.
    cbn [length Nat.eqb index nth_error bind].
    rewrite (int_of_str_decimal m Hm Hlm). cbn [bind].
    rewrite (int_of_str_decimal s Hs Hls). reflexivity.
  - intros Hne. destruct more as [| x more]; [contradiction |].
    rewrite parse_duration_clock_text by (try discriminate; assumption).
    cbv zeta. rewrite clock_text_has_colon.
    cbn [length Nat.eqb bind].
    rewrite (float_of_str_clock _ _ _ Hall). reflexivity.
Qed.

Lemma X16_clock_durations_witness :
  parse_duration (VStr "1:02:03") = Ok 3723
  /\ parse_duration (VStr "90:75") = Ok 5475
  /\ parse_duration (VStr "1:02:03:04") = Raise ValueError.
Proof.
  assert (H : decimal_fields ["1"; "02"; "03"; "04"]%string)
    by (repeat constructor).
  assert (Hs : int_sized ["1"; "02"; "03"]%string)
    by (repeat (apply List.Forall_cons; [cbn; lia |]); apply List.Forall_nil).
  destruct (X16_clock_durations "1" "02" "03" ["04"%string] H Hs) as (H3 & _ & H4).
  assert (H' : decimal_fields ["0"; "90"; "75"]%string) by (repeat constructor).
  assert (Hs' : int_sized ["0"; "90"; "75"]%string)
    by (repeat (apply List.Forall_cons; [cbn; lia |]); apply List.Forall_nil).
  destruct (X16_clock_durations "0" "90" "75" [] H' Hs') as (_ & H2 & _).
  split; [exact H3 |]. split; [exact H2 |].
  apply H4. discriminate.
Defined.

(** X17: a pace text is read by its first two fields only.  For
    decimal numerals, "m:s" followed by any further colon-separated
    numerals converts exactly as "m:s" does, so an hours:minutes:seconds
    pace is read as minutes:seconds of its first two fields; a single
    numeral of at most 4300 digits (the most [int] converts) without
    a colon never converts: it raises IndexError. *)
Theorem X17_pace_reads_two_fields (m s : string) (more : list string) :
  decimal_fields (m :: s :: more) ->
  int_sized [m] ->
  pace_to_speed (clock_text (m :: s :: more)) = pace_to_speed (clock_text [m; s])
  /\ pace_to_speed (clock_text [m]) = Raise IndexError.
Proof.
  intros Hall Hsized.
  inversion Hall as [| ? ? Hm Hsm]; subst.
  inversion Hsm as [| ? ? Hs Hmore]; subst.
  inversion Hsized as [| ? ? Hlm _]; subst.
  split.
  - destruct (clock_text_facts (m :: s :: more) ltac:(discriminate) Hall)
      as (_ & _ & _ & _ & _ & Hsplit).
    assert (Htwo : decimal_fields [m; s]) by (repeat constructor; assumption).
    destruct (clock_text_facts [m; s] ltac:(discriminate) Htwo)
      as (_ & _ & _ & _ & _ & Hsplit').
    unfold pace_to_speed. rewrite Hsplit, Hsplit'. reflexivity.
  - assert (H1 : decimal_fields [m]) by (repeat constructor; assumption).
    destruct (clock_text_facts [m] ltac:(discriminate) H1)
      as (_ & _ & _ & _ & _ & Hsplit).
    unfold pace_to_speed. rewrite Hsplit.
    cbn [index nth_error bind]. rewrite (int_of_str_decimal m Hm Hlm). reflexivity.
Qed.

Lemma X17_pace_reads_two_fields_witness :
  pace_to_speed "1:07:30" = pace_to_speed "1:07"
  /\ pace_to_speed "450" = Raise IndexError.
Proof.
  assert (H : decimal_fields ["1"; "07"; "30"]%string) by (repeat constructor).
  assert (Hs : int_sized ["1"%string])
    by (repeat (apply List.Forall_cons; [cbn; lia |]); apply List.Forall_nil).
  destruct (X17_pace_reads_two_fields "1" "07" ["30"%string] H Hs) as [H3 _].
  assert (H' : decimal_fields ["450"; "0"]%string) by (repeat constructor).
  assert (Hs' : int_sized ["450"%string])
    by (repeat (apply List.Forall_cons; [cbn; lia |]); apply List.Forall_nil).
  destruct (X17_pace_reads_two_fields "450" "0" [] H' Hs') as [_ H1].
  split; [exact H3 | exact H1].
Defined.

(** ** The batch operations *)

Lemma io_bind_lift {A B : Type} (r : result A) (k : A -> io B) h :
  io_bind (lift r) k h = match r with Ok a => k a h | Raise e => (h, Raise e) end.
Proof. unfold io_bind, lift. destruct r; reflexivity. Qed.

Lemma io_bind_ret {A B : Type} (a : A) (k : A -> io B) h :
  io_bind (ret a) k h = k a h.
Proof. reflexivity. Qed.

Lemma io_bind_send {A B : Type} r (answer : history -> result A) (k : A -> io B) h :
  io_bind (send r answer) k h
  = match answer h with
    | Ok a => k a (h ++ [r])%list
    | Raise e => ((h ++ [r])%list, Raise e)
    end.
Proof. unfold io_bind, send. destruct (answer h); reflexivity. Qed.

Lemma io_bind_assoc {A B C : Type} (m : io A) (k : A -> io B) (k' : B -> io C) h :
  io_bind (io_bind m k) k' h = io_bind m (fun a => io_bind (k a) k') h.
Proof. unfold io_bind. destruct (m h) as [h' [a | e]]; reflexivity. Qed.

Lemma delete_workout_run repr api workout_id h :
  exists deleted,
    delete_workout repr api workout_id h
    = ((h ++ [DeleteRequest (delete_url repr workout_id)])%list, Ok deleted).
Proof.
  unfold delete_workout, try_except. cbv zeta. rewrite io_bind_send.
  fold (delete_url repr workout_id).
  destruct (delete_status api h (delete_url repr workout_id)); eexists; reflexivity.
Qed.

Lemma schedule_workout_run repr strftime api workout_id date h :
  exists scheduled,
    schedule_workout repr strftime api workout_id date h
    = ((h ++ [PostSchedule (schedule_url repr workout_id) (strftime date)])%list,
       Ok scheduled).
Proof.
  unfold schedule_workout, try_except. cbv zeta. rewrite io_bind_send.
  fold (schedule_url repr workout_id).
  destruct (schedule_status api h (schedule_url repr workout_id) (strftime date));
    eexists; reflexivity.
Qed.

(** The calls of [upload_and_schedule]: none when the document cannot
    be built, else the upload and perhaps the scheduling. *)
Lemma upload_and_schedule_run paces repr strftime api workout workout_date
    week_number day_name h :
  exists calls r,
    upload_and_schedule paces repr strftime api workout workout_date
      week_number day_name h = ((h ++ calls)%list, r)
    /\ (calls = [] /\ is_ok r = false
        \/ exists workout_data workout_json,
             workout = VDict workout_data
             /\ build_workout_from_yaml paces repr workout_data workout_date
                  week_number day_name = Ok workout_json
             /\ (calls = [UploadWorkout workout_json]
                 \/ exists workout_id,
                      truth workout_id = true
                      /\ calls = [UploadWorkout workout_json;
                                  PostSchedule (schedule_url repr workout_id)
                                    (strftime workout_date)])).
Proof.
  unfold upload_and_schedule. rewrite io_bind_lift.
  destruct workout as [| b | n | x | s | l | workout_data];
    try (exists [], (Raise AttributeError); rewrite app_nil_r;
         split; [reflexivity | left; split; reflexivity]).
  destruct (build_workout_from_yaml paces repr workout_data workout_date
              week_number day_name) as [workout_json | e] eqn:Hbuild;
    [| exists [], (Raise e); rewrite app_nil_r;
       split; [reflexivity | left; split; reflexivity]].
  rewrite io_bind_send.
  assert (Hone : forall r : result bool,
             exists calls r',
               ((h ++ [UploadWorkout workout_json])%list, r) = ((h ++ calls)%list, r')
               /\ (calls = [] /\ is_ok r' = false
                   \/ exists workout_data0 workout_json0,
                        VDict workout_data = VDict workout_data0
                        /\ build_workout_from_yaml paces repr workout_data0 workout_date
                             week_number day_name = Ok workout_json0
                        /\ (calls = [UploadWorkout workout_json0]
                            \/ exists workout_id,
                                 truth workout_id = true
                                 /\ calls = [UploadWorkout workout_json0;
                                             PostSchedule (schedule_url repr workout_id)
                                               (strftime workout_date)]))).
  { intros r. exists [UploadWorkout workout_json], r. split; [reflexivity |].
    right. exists workout_data, workout_json.
    split; [reflexivity |]. split; [exact Hbuild |]. left. reflexivity. }
  destruct (upload_workout api h workout_json) as [result | e]; [| apply Hone].
  destruct (truth result); [| apply Hone].
  rewrite io_bind_lift.
  destruct (get result "workoutId" VNone) as [workout_id | e]; [| apply Hone].
  destruct (truth workout_id) eqn:Hwid; [| apply Hone].
  destruct (schedule_workout_run repr strftime api workout_id workout_date
              (h ++ [UploadWorkout workout_json])%list) as [scheduled Hs].
  unfold io_bind at 1. rewrite Hs. rewrite <- app_assoc.
  eexists _, _. split; [reflexivity |].
  right. exists workout_data, workout_json.
  split; [reflexivity |]. split; [exact Hbuild |].
  right. exists workout_id. split; [exact Hwid | reflexivity].
Qed.

Lemma count_uploads_app h calls :
  count_uploads (h ++ calls)%list = count_uploads h + count_uploads calls.
Proof.
  unfold count_uploads. rewrite List.filter_app, List.length_app. lia.
Qed.

(** One day of [upload_all]: its calls, when it returns, and what it
    does to the counters. *)
Lemma upload_all_day_run parse_date plan_data paces repr strftime api
    week_number counts item h :
  exists calls r,
    upload_all_day parse_date plan_data paces repr strftime api week_number counts item h
    = ((h ++ calls)%list, r)
    /\ (calls = [] \/ day_calls parse_date plan_data paces repr strftime week_number item calls)
    /\ (is_ok r = true <-> day_ready parse_date plan_data week_number item)
    /\ (forall counts',
          r = Ok counts' ->
          total_workouts counts'
          = total_workouts counts + (if is_rest_day (snd item) then 0 else 1)
          /\ skipped_workouts counts'
             = skipped_workouts counts + (if is_rest_day (snd item) then 1 else 0)
          /\ uploaded_workouts counts <= uploaded_workouts counts'
          /\ uploaded_workouts counts' - uploaded_workouts counts <= count_uploads calls
          /\ count_uploads calls <= (if is_rest_day (snd item) then 0 else 1)).
Proof.
  destruct item as [day_name workout]. unfold upload_all_day, day_ready.
  cbn [fst snd]. rewrite io_bind_lift.
  destruct (get_workout_date parse_date plan_data week_number day_name)
    as [workout_date | e] eqn:Hdate.
  2:{ exists [], (Raise e). rewrite app_nil_r. split; [reflexivity |].
      split; [left; reflexivity |]. split; [| discriminate].
      cbn [is_ok]. split; [discriminate | intros [H _]; discriminate H]. }
  rewrite io_bind_lift.
  destruct workout as [| b | n | x | s | l | workout_data];
    try (exists [], (Raise AttributeError); rewrite app_nil_r; split; [reflexivity |];
         split; [left; reflexivity |]; split; [| discriminate];
         cbn [is_ok]; split; [discriminate | intros [_ [d Hd]]; discriminate Hd]).
  cbn [get is_rest_day].
  destruct (eq_str (dict_get workout_data "type" VNone) "rest") eqn:Hrest.
  { eexists [], _. rewrite app_nil_r. split; [reflexivity |].
    split; [left; reflexivity |]. split.
    - cbn [is_ok]. split; [intros _; split; [reflexivity | eexists; reflexivity] | reflexivity].
    - intros counts' H. apply Ok_injective in H. subst counts'. cbn.
      unfold count_uploads. cbn. lia. }
  unfold try_except. rewrite io_bind_lift. cbv beta iota. rewrite io_bind_lift.
  destruct (slice_to 50 (dict_get workout_data "description" (VStr "N/A"))) as [sliced | e].
  2:{ eexists [], _. rewrite app_nil_r. split; [reflexivity |].
      split; [left; reflexivity |]. split.
      - cbn [is_ok]. split; [intros _; split; [reflexivity | eexists; reflexivity] | reflexivity].
      - intros counts' H. apply Ok_injective in H. subst counts'. cbn.
        unfold count_uploads. cbn. lia. }
  destruct (upload_and_schedule_run paces repr strftime api (VDict workout_data)
              workout_date week_number day_name h) as (calls & r & Hrun & Hcalls).
  unfold io_bind at 1. rewrite Hrun.
  assert (Hcount : count_uploads calls <= 1
                   /\ (r = Ok true -> 1 <= count_uploads calls)).
  { destruct Hcalls as [[-> Hr] | (d & w & _ & _ & [-> | (wid & _ & ->)])].
    - split; [unfold count_uploads; cbn; lia |]. intros ->. discriminate Hr.
    - unfold count_uploads; cbn; split; lia.
    - unfold count_uploads; cbn; split; lia. }
  assert (Hday : calls = []
                 \/ day_calls parse_date plan_data paces repr strftime week_number
                      (day_name, VDict workout_data) calls).
  { destruct Hcalls as [[-> _] | (d & w & Hd & Hb & Hc)]; [left; reflexivity |].
    right. injection Hd as <-. exists workout_data, workout_date, w.
    cbn [fst snd is_rest_day]. repeat split; assumption. }
  destruct Hcount as [Hle Hge].
  destruct r as [[] | e]; eexists calls, _; (split; [reflexivity |]);
    (split; [exact Hday |]); (split;
      [cbn [is_ok]; split; [intros _; split; [reflexivity | eexists; reflexivity] | reflexivity] |]);
    intros counts' H; apply Ok_injective in H; subst counts'; cbn.
  - specialize (Hge eq_refl). lia.
  - unfold count_uploads in *. lia.
  - unfold count_uploads in *. lia.
Qed.

Lemma count_in_cons p item items :
  count_in p (item :: items) = (if p (snd item) then 1 else 0) + count_in p items.
Proof.
  unfold count_in. cbn [map List.filter]. destruct (p (snd item)); cbn [length]; lia.
Qed.

Lemma count_in_nonneg p items : 0 <= count_in p items.
Proof. unfold count_in. lia. Qed.

(** The days of one week in [upload_all]. *)
Lemma upload_all_days_run parse_date plan_data paces repr strftime api
    week_number items :
  forall counts h,
  exists blocks r,
    for_each items
      (upload_all_day parse_date plan_data paces repr strftime api week_number) counts h
    = ((h ++ concat blocks)%list, r)
    /\ Forall (fun block =>
                 exists item,
                   In item items
                   /\ day_calls parse_date plan_data paces repr strftime
                        week_number item block) blocks
    /\ (is_ok r = true <-> Forall (day_ready parse_date plan_data week_number) items)
    /\ (forall counts',
          r = Ok counts' ->
          total_workouts counts' = total_workouts counts + count_in is_workout_day items
          /\ skipped_workouts counts' = skipped_workouts counts + count_in is_rest_day items
          /\ uploaded_workouts counts <= uploaded_workouts counts'
          /\ uploaded_workouts counts' - uploaded_workouts counts
             <= count_uploads (concat blocks)
          /\ count_uploads (concat blocks) <= count_in is_workout_day items).
Proof.
  induction items as [| item items IH]; intros counts h.
  - exists [], (Ok counts). cbn [for_each concat]. unfold ret. rewrite app_nil_r.
    split; [reflexivity |]. split; [constructor |].
    split; [split; [constructor | reflexivity] |].
    intros counts' H. apply Ok_injective in H. subst counts'.
    unfold count_in, count_uploads. cbn. lia.
  - cbn [for_each].
    destruct (upload_all_day_run parse_date plan_data paces repr strftime api
                week_number counts item h) as (calls & r & Hrun & Hcalls & Hok & Hcounts).
    unfold io_bind at 1. rewrite Hrun.
    assert (Hblocks : forall blocks,
               Forall (fun block =>
                         exists item0,
                           In item0 items
                           /\ day_calls parse_date plan_data paces repr strftime
                                week_number item0 block) blocks ->
               exists blocks',
                 (calls ++ concat blocks)%list = concat blocks'
                 /\ Forall (fun block =>
                              exists item0,
                                In item0 (item :: items)
                                /\ day_calls parse_date plan_data paces repr strftime
                                     week_number item0 block) blocks').
    { intros blocks Hb.
      assert (Hb' : Forall (fun block =>
                              exists item0,
                                In item0 (item :: items)
                                /\ day_calls parse_date plan_data paces repr strftime
                                     week_number item0 block) blocks).
      { eapply List.Forall_impl; [| exact Hb].
        intros block (item0 & Hin & Hd). exists item0. split; [right; exact Hin | exact Hd]. }
      destruct Hcalls as [-> | Hday].
      - exists blocks. split; [reflexivity | exact Hb'].
      - exists (calls :: blocks). split; [reflexivity |].
        constructor; [| exact Hb']. exists item. split; [left; reflexivity | exact Hday]. }
    destruct r as [counts1 | e].
    + destruct (IH counts1 (h ++ calls)%list) as (blocks & r' & Hrun' & Hb & Hok' & Hcounts').
      destruct (Hblocks blocks Hb) as (blocks' & Hcat & Hb').
      exists blocks', r'. rewrite Hrun'. rewrite <- app_assoc, Hcat.
      split; [reflexivity |]. split; [exact Hb' |]. split.
      * rewrite Hok'. split.
        -- intros H. constructor; [apply Hok; reflexivity | exact H].
        -- intros H. inversion H; assumption.
      * intros counts' Hr. specialize (Hcounts counts1 eq_refl).
        specialize (Hcounts' counts' Hr).
        rewrite <- Hcat, count_uploads_app, !count_in_cons.
        unfold is_workout_day at 1 3.
        destruct (is_rest_day (snd item)); cbn [negb]; lia.
    + destruct (Hblocks [] ltac:(constructor)) as (blocks' & Hcat & Hb').
      cbn [concat] in Hcat. rewrite app_nil_r in Hcat.
      exists blocks', (Raise e). rewrite Hcat.
      split; [reflexivity |]. split; [exact Hb' |]. split; [| discriminate].
      cbn [is_ok]. split; [discriminate |].
      intros H. inversion H as [| ? ? Hitem _]. apply Hok in Hitem. discriminate Hitem.
Qed.

(** One week of [upload_all]. *)
Lemma upload_all_week_run parse_date plan_data paces repr strftime api counts week h :
  exists blocks r,
    upload_all_week parse_date plan_data paces repr strftime api counts week h
    = ((h ++ concat blocks)%list, r)
    /\ Forall (fun block =>
                 exists item,
                   In item (Week.workouts week)
                   /\ day_calls parse_date plan_data paces repr strftime
                        (Week.week week) item block) blocks
    /\ (is_ok r = true <-> week_ready parse_date plan_data week)
    /\ (forall counts',
          r = Ok counts' ->
          total_workouts counts'
          = total_workouts counts + count_in is_workout_day (Week.workouts week)
          /\ skipped_workouts counts'
             = skipped_workouts counts + count_in is_rest_day (Week.workouts week)
          /\ uploaded_workouts counts <= uploaded_workouts counts'
          /\ uploaded_workouts counts' - uploaded_workouts counts
             <= count_uploads (concat blocks)
          /\ count_uploads (concat blocks) <= count_in is_workout_day (Week.workouts week)).
Proof.
  unfold upload_all_week, week_ready. cbv zeta. rewrite io_bind_lift.
  destruct (Week.block week) as [block |].
  - destruct (upload_all_days_run parse_date plan_data paces repr strftime api
                (Week.week week) (Week.workouts week) counts h)
      as (blocks & r & Hrun & Hb & Hok & Hcounts).
    exists blocks, r. split; [exact Hrun |]. split; [exact Hb |].
    split; [| exact Hcounts].
    rewrite Hok. split; [intros H; split; [discriminate | exact H] | intros [_ H]; exact H].
  - exists [], (Raise KeyError). cbn [concat]. rewrite app_nil_r.
    split; [reflexivity |]. split; [constructor |]. split; [| discriminate].
    cbn [is_ok]. split; [discriminate | intros [H _]; contradiction].
Qed.

Lemma count_days_nonneg p weeks : 0 <= count_days p weeks.
Proof.
  induction weeks as [| week weeks IH]; cbn [count_days fold_right]; [lia |].
  fold (count_days p weeks). pose proof (count_in_nonneg p (Week.workouts week)). lia.
Qed.

(** The whole loop of [upload_all], from any counters. *)
Lemma upload_all_weeks_run parse_date plan_data paces repr strftime api weeks :
  forall counts h,
  exists calls r,
    for_each weeks (upload_all_week parse_date plan_data paces repr strftime api) counts h
    = ((h ++ calls)%list, r)
    /\ plan_calls parse_date plan_data paces repr strftime weeks calls
    /\ (is_ok r = true <-> Forall (week_ready parse_date plan_data) weeks)
    /\ (forall counts',
          r = Ok counts' ->
          total_workouts counts' = total_workouts counts + count_days is_workout_day weeks
          /\ skipped_workouts counts' = skipped_workouts counts + count_days is_rest_day weeks
          /\ uploaded_workouts counts <= uploaded_workouts counts'
          /\ uploaded_workouts counts' - uploaded_workouts counts <= count_uploads calls
          /\ count_uploads calls <= count_days is_workout_day weeks).
Proof.
  induction weeks as [| week weeks IH]; intros counts h.
  - exists [], (Ok counts). cbn [for_each]. unfold ret. rewrite app_nil_r.
    split; [reflexivity |]. split; [exists []; split; [reflexivity | constructor] |].
    split; [split; [constructor | reflexivity] |].
    intros counts' H. apply Ok_injective in H. subst counts'.
    unfold count_days, count_uploads. cbn. lia.
  - cbn [for_each].
    destruct (upload_all_week_run parse_date plan_data paces repr strftime api
                counts week h) as (blocks & r & Hrun & Hb & Hok & Hcounts).
    unfold io_bind at 1. rewrite Hrun.
    assert (Hhere : Forall (fun block =>
                              exists week0 item,
                                In week0 (week :: weeks) /\ In item (Week.workouts week0)
                                /\ day_calls parse_date plan_data paces repr strftime
                                     (Week.week week0) item block) blocks).
    { eapply List.Forall_impl; [| exact Hb].
      intros block (item & Hin & Hd). exists week, item.
      split; [left; reflexivity |]. split; assumption. }
    destruct r as [counts1 | e].
    + destruct (IH counts1 (h ++ concat blocks)%list)
        as (calls & r' & Hrun' & (blocks' & -> & Hb') & Hok' & Hcounts').
      exists (concat blocks ++ concat blocks')%list, r'.
      rewrite Hrun', <- app_assoc. split; [reflexivity |]. split.
      { exists (blocks ++ blocks')%list. split; [symmetry; apply concat_app |].
        apply Forall_app. split; [exact Hhere |].
        eapply List.Forall_impl; [| exact Hb'].
        intros block (week0 & item & Hw & Hi & Hd). exists week0, item.
        split; [right; exact Hw |]. split; assumption. }
      split.
      * rewrite Hok'. split.
        -- intros H. constructor; [apply Hok; reflexivity | exact H].
        -- intros H. inversion H; assumption.
      * intros counts' Hr. specialize (Hcounts counts1 eq_refl).
        specialize (Hcounts' counts' Hr).
        rewrite count_uploads_app. cbn [count_days fold_right].
        fold (count_days is_workout_day weeks). fold (count_days is_rest_day weeks). lia.
    + exists (concat blocks), (Raise e). split; [reflexivity |]. split.
      { exists blocks. split; [reflexivity | exact Hhere]. }
      split; [| discriminate].
      cbn [is_ok]. split; [discriminate |].
      intros H. inversion H as [| ? ? Hweek _]. apply Hok in Hweek. discriminate Hweek.
Qed.



Lemma counted_uploads_app api a b :
  forall h,
    counted_uploads api h (a ++ b)%list
    = counted_uploads api h a + counted_uploads api (h ++ a)%list b.
Proof.
  induction a as [| r a IH]; intros h; cbn [app counted_uploads].
  - rewrite app_nil_r. lia.
  - rewrite IH, <- app_assoc. cbn [app]. lia.
Qed.

Lemma counted_uploads_bounds api calls :
  forall h, 0 <= counted_uploads api h calls <= count_uploads calls.
Proof.
  induction calls as [| r calls IH]; intros h.
  - unfold count_uploads. cbn. lia.
  - change (count_uploads (r :: calls)) with (count_uploads ([r] ++ calls)%list).
    rewrite (count_uploads_app [r] calls). cbn [counted_uploads].
    specialize (IH (h ++ [r])%list).
    assert (Hone : count_uploads [r] = if is_upload r then 1 else 0)
      by (unfold count_uploads; cbn [List.filter]; destruct (is_upload r); reflexivity).
    rewrite Hone.
    destruct r as [| url | url date | workout_json]; cbn [is_upload]; try lia.
    destruct (counted_answer (upload_workout api h workout_json)); lia.
Qed.

Lemma same_run {A : Type} (h a b : history) (x y : result A) :
  ((h ++ a)%list, x) = ((h ++ b)%list, y) -> a = b /\ x = y.
Proof.
  intros H. injection H as Hh Hx. split; [exact (app_inv_head _ _ _ Hh) | exact Hx].
Qed.

Lemma same_run_nil {A : Type} (h b : history) (x y : result A) :
  (h, x) = ((h ++ b)%list, y) -> [] = b /\ x = y.
Proof.
  intros H. apply (same_run h [] b). rewrite app_nil_r. exact H.
Qed.

(** [upload_and_schedule] tells that the upload is done exactly when
    the answer to its upload counts. *)
Lemma upload_and_schedule_counted paces repr strftime api workout workout_date
    week_number day_name h calls r :
  upload_and_schedule paces repr strftime api workout workout_date week_number day_name h
  = ((h ++ calls)%list, r) ->
  counted_uploads api h calls = match r with Ok true => 1 | _ => 0 end.
Proof.
  unfold upload_and_schedule. rewrite io_bind_lift.
  destruct workout as [| b | n | x | s | l | workout_data];
    try (intros H; apply same_run_nil in H; destruct H as [<- <-]; reflexivity).
  destruct (build_workout_from_yaml paces repr workout_data workout_date
              week_number day_name) as [workout_json | e];
    [| intros H; apply same_run_nil in H; destruct H as [<- <-]; reflexivity].
  rewrite io_bind_send.
  destruct (upload_workout api h workout_json) as [result | e] eqn:Hup.
  2:{ intros H. apply same_run in H. destruct H as [<- <-].
      cbn [counted_uploads]. rewrite Hup. reflexivity. }
  destruct (truth result) eqn:Ht.
  2:{ intros H. apply same_run in H. destruct H as [<- <-].
      cbn [counted_uploads]. rewrite Hup.
      destruct result; cbn [counted_answer]; try reflexivity.
      rewrite Ht. reflexivity. }
  rewrite io_bind_lift.
  destruct result as [| b | n | x | s | l | d]; cbn [get];
    try (intros H; apply same_run in H; destruct H as [<- <-];
         cbn [counted_uploads]; rewrite Hup; reflexivity).
  cbv beta iota.
  destruct (truth (dict_get d "workoutId" VNone)).
  - destruct (schedule_workout_run repr strftime api (dict_get d "workoutId" VNone)
                workout_date (h ++ [UploadWorkout workout_json])%list) as [scheduled Hs].
    unfold io_bind. rewrite Hs. cbn [ret]. rewrite <- app_assoc.
    intros H. apply same_run in H. destruct H as [<- <-].
    cbn [app counted_uploads]. rewrite Hup. cbn [counted_answer]. rewrite Ht. reflexivity.
  - intros H. apply same_run in H. destruct H as [<- <-].
    cbn [counted_uploads]. rewrite Hup. cbn [counted_answer]. rewrite Ht. reflexivity.
Qed.

(** One day of [upload_all] adds to the uploaded count the uploads
    of the day whose answer counts. *)
Lemma upload_all_day_counted parse_date plan_data paces repr strftime api
    week_number counts item h calls counts' :
  upload_all_day parse_date plan_data paces repr strftime api week_number counts item h
  = ((h ++ calls)%list, Ok counts') ->
  uploaded_workouts counts'
  = uploaded_workouts counts + counted_uploads api h calls.
Proof.
  destruct item as [day_name workout]. unfold upload_all_day. rewrite io_bind_lift.
  destruct (get_workout_date parse_date plan_data week_number day_name)
    as [workout_date | e];
    [| intros H; apply same_run_nil in H; destruct H as [_ H]; discriminate H].
  rewrite io_bind_lift.
  destruct workout as [| b | n | x | s | l | workout_data];
    try (intros H; apply same_run_nil in H; destruct H as [_ H]; discriminate H).
  cbn [get]. cbv beta iota.
  destruct (eq_str (dict_get workout_data "type" VNone) "rest").
  { intros H. apply same_run_nil in H. destruct H as [<- H].
    apply Ok_injective in H. subst counts'. cbn. lia. }
  unfold try_except. rewrite io_bind_lift. cbv beta iota. rewrite io_bind_lift.
  destruct (slice_to 50 (dict_get workout_data "description" (VStr "N/A"))) as [sliced | e].
  2:{ intros H. apply same_run_nil in H. destruct H as [<- H].
      apply Ok_injective in H. subst counts'. cbn. lia. }
  destruct (upload_and_schedule_run paces repr strftime api (VDict workout_data)
              workout_date week_number day_name h) as (calls0 & r & Hrun & _).
  pose proof (upload_and_schedule_counted _ _ _ _ _ _ _ _ _ _ _ Hrun) as Hcounted.
  unfold io_bind at 1. rewrite Hrun.
  destruct r as [[] | e]; cbn [ret]; intros H; apply same_run in H;
    destruct H as [<- H]; apply Ok_injective in H; subst counts'; cbn;
    rewrite Hcounted; lia.
Qed.

Lemma upload_all_days_counted parse_date plan_data paces repr strftime api
    week_number items :
  forall counts h calls counts',
    for_each items
      (upload_all_day parse_date plan_data paces repr strftime api week_number) counts h
    = ((h ++ calls)%list, Ok counts') ->
    uploaded_workouts counts'
    = uploaded_workouts counts + counted_uploads api h calls.
Proof.
  induction items as [| item items IH]; intros counts h calls counts'.
  - cbn [for_each]. unfold ret. intros H. apply same_run_nil in H.
    destruct H as [<- H]. apply Ok_injective in H. subst counts'. cbn. lia.
  - cbn [for_each].
    destruct (upload_all_day_run parse_date plan_data paces repr strftime api
                week_number counts item h) as (calls1 & r1 & Hrun1 & _).
    unfold io_bind at 1. rewrite Hrun1.
    destruct r1 as [counts1 | e];
      [| intros H; apply same_run in H; destruct H as [_ H]; discriminate H].
    destruct (upload_all_days_run parse_date plan_data paces repr strftime api
                week_number items counts1 (h ++ calls1)%list)
      as (blocks & r2 & Hrun2 & _).
    intros H. rewrite Hrun2, <- app_assoc in H. apply same_run in H.
    destruct H as [<- ->].
    rewrite counted_uploads_app.
    rewrite (IH _ _ _ _ Hrun2).
    rewrite (upload_all_day_counted _ _ _ _ _ _ _ _ _ _ _ _ Hrun1). lia.
Qed.

Lemma upload_all_weeks_counted parse_date plan_data paces repr strftime api weeks :
  forall counts h calls counts',
    for_each weeks (upload_all_week parse_date plan_data paces repr strftime api) counts h
    = ((h ++ calls)%list, Ok counts') ->
    uploaded_workouts counts'
    = uploaded_workouts counts + counted_uploads api h calls.
Proof.
  induction weeks as [| week weeks IH]; intros counts h calls counts'.
  - cbn [for_each]. unfold ret. intros H. apply same_run_nil in H.
    destruct H as [<- H]. apply Ok_injective in H. subst counts'. cbn. lia.
  - cbn [for_each].
    destruct (upload_all_week_run parse_date plan_data paces repr strftime api
                counts week h) as (blocks1 & r1 & Hrun1 & _).
    unfold io_bind at 1. rewrite Hrun1.
    destruct r1 as [counts1 | e];
      [| intros H; apply same_run in H; destruct H as [_ H]; discriminate H].
    destruct (upload_all_weeks_run parse_date plan_data paces repr strftime api
                weeks counts1 (h ++ concat blocks1)%list)
      as (calls2 & r2 & Hrun2 & _).
    intros H. rewrite Hrun2, <- app_assoc in H. apply same_run in H.
    destruct H as [<- ->].
    rewrite counted_uploads_app.
    rewrite (IH _ _ _ _ Hrun2).
    assert (Hweek : uploaded_workouts counts1
                    = uploaded_workouts counts + counted_uploads api h (concat blocks1)).
    { revert Hrun1. unfold upload_all_week. cbv zeta. rewrite io_bind_lift.
      destruct (Week.block week) as [block |];
        [| intros H; apply same_run_nil in H; destruct H as [_ H]; discriminate H].
      apply upload_all_days_counted. }
    lia.
Qed.

(** X20: the summary of [upload_all].  When the run ends, the total
    is the number of days that are not rest days, the skipped count
    is the number of rest days, and the uploaded count is exactly the
    number of uploads sent that the service answered with a mapping
    that is not empty: an upload answered with an exception, with an
    empty or null result or with a result that is no mapping was sent
    but is not counted, and whether the scheduling succeeded makes no
    difference.  At most one upload is sent per day that is not a
    rest day. *)
Theorem X20_upload_all_summary
    (parse_date : value -> result datetime) (plan_data : value)
    (paces : gmap string string) (repr : value -> string)
    (strftime : datetime -> string) (api : service) (weeks : list Week.t)
    (h calls : history) (counts : upload_counts) :
  upload_all parse_date plan_data paces repr strftime api weeks h
  = ((h ++ calls)%list, Ok counts) ->
  total_workouts counts = count_days is_workout_day weeks
  /\ skipped_workouts counts = count_days is_rest_day weeks
  /\ uploaded_workouts counts = counted_uploads api h calls
  /\ 0 <= counted_uploads api h calls <= count_uploads calls
  /\ count_uploads calls <= total_workouts counts.
Proof.
  unfold upload_all. intros Hrun.
  pose proof (upload_all_weeks_counted _ _ _ _ _ _ _ _ _ _ _ Hrun) as Hcounted.
  destruct (upload_all_weeks_run parse_date plan_data paces repr strftime api weeks
              {| total_workouts := 0; uploaded_workouts := 0; skipped_workouts := 0 |} h)
    as (calls0 & r & Hrun0 & _ & _ & Hcounts).
  rewrite Hrun0 in Hrun. apply same_run in Hrun. destruct Hrun as [-> ->].
  specialize (Hcounts counts eq_refl). cbn in Hcounts, Hcounted.
  pose proof (counted_uploads_bounds api calls h). lia.
Qed.

Lemma X20_upload_all_summary_witness :
  uploaded_workouts
    {| total_workouts := 3; uploaded_workouts := 2; skipped_workouts := 1 |}
  = counted_uploads slow_starting_service []
      (fst (upload_all parse_iso_date nyc_plan threshold_paces plain_repr iso_date
              slow_starting_service sample_weeks []))
  /\ count_uploads
       (fst (upload_all parse_iso_date nyc_plan threshold_paces plain_repr iso_date
               slow_starting_service sample_weeks []))
     = 3.
Proof.
  assert (H : upload_all parse_iso_date nyc_plan threshold_paces plain_repr iso_date
                slow_starting_service sample_weeks []
              = (([] ++ fst (upload_all parse_iso_date nyc_plan threshold_paces plain_repr
                               iso_date slow_starting_service sample_weeks []))%list,
                 Ok {| total_workouts := 3; uploaded_workouts := 2;
                       skipped_workouts := 1 |}))
    by (vm_compute; reflexivity).
  pose proof (X20_upload_all_summary _ _ _ _ _ _ _ _ _ _ H) as (_ & _ & Hu & _ & _).
  split; [exact Hu | vm_compute; reflexivity].
Defined.

(** *** Deleting *)

Lemma startswith_app sub rest : startswith sub (sub ++ rest) = true.
Proof.
  induction sub as [| c sub IH]; [destruct rest; reflexivity |].
  change (String c sub ++ rest)%string with (String c (sub ++ rest)).
  cbn [startswith]. rewrite Ascii.eqb_refl. exact IH.
Qed.

Lemma contains_startswith sub s : startswith sub s = true -> contains sub s = true.
Proof. intros H. destruct s; cbn [contains]; rewrite H; reflexivity. Qed.

Lemma contains_app sub before rest : contains sub (before ++ sub ++ rest) = true.
Proof.
  induction before as [| c before IH].
  - change ("" ++ sub ++ rest)%string with (sub ++ rest)%string.
    apply contains_startswith, startswith_app.
  - change (String c before ++ sub ++ rest)%string
      with (String c (before ++ sub ++ rest)).
    cbn [contains]. rewrite IH. apply orb_true_r.
Qed.

Lemma string_app_assoc (a b c : string) : ((a ++ b) ++ c = a ++ (b ++ c))%string.
Proof.
  induction a as [| x a IH]; [reflexivity |].
  change (String x a ++ b)%string with (String x (a ++ b)).
  change (String x (a ++ b) ++ c)%string with (String x ((a ++ b) ++ c)).
  change (String x a ++ (b ++ c))%string with (String x (a ++ (b ++ c))).
  rewrite IH. reflexivity.
Qed.

(** The name of a built document. *)
Lemma build_workout_name paces repr workout_data workout_date week_number day_name doc :
  build_workout_from_yaml paces repr workout_data workout_date week_number day_name
  = Ok doc ->
  workoutName doc = plan_workout_name week_number day_name.
Proof.
  unfold build_workout_from_yaml. intros H.
  apply bind_Ok in H. destruct H as (steps & _ & H).
  apply bind_Ok in H. destruct H as (duration & _ & H).
  apply Ok_injective in H. subst doc. reflexivity.
Qed.

Lemma named_in_plan_mapping workout :
  is_ok (named_in_plan workout) = true -> exists d, workout = VDict d.
Proof.
  destruct workout; try discriminate. intros _. eexists; reflexivity.
Qed.

Lemma named_in_week_mapping week_number workout :
  is_ok (named_in_week week_number workout) = true -> exists d, workout = VDict d.
Proof.
  destruct workout; try discriminate. intros _. eexists; reflexivity.
Qed.

(** A listing that is falsy and passes the test of [delete_all] on
    every entry has no entry of the plan. *)
Lemma falsy_listing data :
  truth data = false ->
  Forall (fun workout => is_ok (named_in_plan workout) = true) (as_list data) ->
  List.filter (selected named_in_plan) (as_list data) = [].
Proof.
  intros Ht Hall.
  destruct data as [| b | n | x | s | l | d]; cbn [as_list] in *;
    try (inversion Hall as [| ? ? H _]; discriminate H).
  - destruct l; [reflexivity | discriminate Ht].
  - cbn [truth] in Ht. apply negb_false_iff, Nat.eqb_eq in Ht.
    apply map_size_empty_iff in Ht. subst d. reflexivity.
Qed.

(** The filtering loop of [delete_all] makes no call; it keeps the
    entries of the plan when every entry can be tested and ends with
    an exception otherwise. *)
Lemma delete_all_filter_run listing :
  forall plan_workouts h,
    Forall (fun workout => is_ok (named_in_plan workout) = true) listing ->
    for_each listing delete_all_filter
      plan_workouts h
    = (h, Ok (plan_workouts ++ List.filter (selected named_in_plan) listing)%list).
Proof.
  induction listing as [| workout listing IH]; intros plan_workouts h Hall.
  - cbn. unfold ret. rewrite app_nil_r. reflexivity.
  - inversion Hall as [| ? ? Hok Hrest]; subst.
    cbn [for_each List.filter]. unfold delete_all_filter at 1.
    rewrite io_bind_assoc, io_bind_lift.
    unfold selected at 1. unfold named_in_plan in Hok |- * at 1.
    destruct (get workout "workoutName" (VStr "")) as [workout_name | e];
      [| discriminate Hok].
    cbn [bind] in Hok |- *. rewrite io_bind_assoc, io_bind_lift.
    destruct (contains_key "NYC Marathon 2026" workout_name) as [in_plan | e];
      [| discriminate Hok].
    rewrite io_bind_ret. rewrite (IH _ _ Hrest).
    destruct in_plan; [rewrite <- app_assoc |]; reflexivity.
Qed.

Lemma delete_all_filter_raises listing :
  forall plan_workouts h,
    Exists (fun workout => is_ok (named_in_plan workout) = false) listing ->
    exists e,
      for_each listing delete_all_filter
        plan_workouts h
      = (h, Raise e).
Proof.
  induction listing as [| workout listing IH]; intros plan_workouts h Hex;
    [inversion Hex |].
  cbn [for_each]. unfold delete_all_filter at 1.
  rewrite io_bind_assoc, io_bind_lift.
  destruct (get workout "workoutName" (VStr "")) as [workout_name | e] eqn:Hname;
    [| exists e; reflexivity].
  rewrite io_bind_assoc, io_bind_lift.
  destruct (contains_key "NYC Marathon 2026" workout_name) as [in_plan | e] eqn:Hin;
    [| exists e; reflexivity].
  rewrite io_bind_ret.
  inversion Hex as [? ? Hbad | ? ? Hrest]; subst.
  - unfold named_in_plan in Hbad. rewrite Hname in Hbad. cbn [bind] in Hbad.
    rewrite Hin in Hbad. discriminate Hbad.
  - exact (IH _ _ Hrest).
Qed.

(** The deleting loop of [delete_all] sends one request per workout
    and counts each of them as deleted or as failed. *)
Lemma delete_all_delete_step repr api counts d h :
  exists counts',
    delete_all_delete repr api counts (VDict d) h
    = ((h ++ [DeleteRequest (delete_url repr (listed_id (VDict d)))])%list, Ok counts')
    /\ found_count counts' = found_count counts
    /\ deleted_count counts <= deleted_count counts'
    /\ failed_count counts <= failed_count counts'
    /\ deleted_count counts' + failed_count counts'
       = deleted_count counts + failed_count counts + 1.
Proof.
  unfold delete_all_delete. rewrite io_bind_lift. cbn [get].
  rewrite io_bind_lift. cbn [listed_id].
  destruct (delete_workout_run repr api (dict_get d "workoutId" VNone) h)
    as [deleted Hdel].
  unfold try_except, io_bind. rewrite Hdel.
  destruct deleted.
  - exists {| found_count := found_count counts;
              deleted_count := deleted_count counts + 1;
              failed_count := failed_count counts |}.
    split; [reflexivity |]. cbn [found_count deleted_count failed_count]. lia.
  - exists {| found_count := found_count counts;
              deleted_count := deleted_count counts;
              failed_count := failed_count counts + 1 |}.
    split; [reflexivity |]. cbn [found_count deleted_count failed_count]. lia.
Qed.

Lemma delete_all_delete_run repr api plan_workouts :
  forall counts h,
    Forall (fun workout => exists d, workout = VDict d) plan_workouts ->
    exists counts',
      for_each plan_workouts (delete_all_delete repr api) counts h
      = ((h ++ map (delete_request repr) plan_workouts)%list,
         Ok counts')
      /\ found_count counts' = found_count counts
      /\ deleted_count counts <= deleted_count counts'
      /\ failed_count counts <= failed_count counts'
      /\ deleted_count counts' + failed_count counts'
         = deleted_count counts + failed_count counts + Z.of_nat (length plan_workouts).
Proof.
  induction plan_workouts as [| workout plan_workouts IH]; intros counts h Hall.
  - exists counts. cbn [for_each map length]. unfold ret. rewrite app_nil_r.
    split; [reflexivity | lia].
  - inversion Hall as [| ? ? [d ->] Hrest]; subst.
    destruct (delete_all_delete_step repr api counts d h)
      as (counts1 & Hstep & Hf1 & Hd1 & Hfl1 & Hsum1).
    cbn [for_each map]. unfold io_bind. rewrite Hstep.
    destruct (IH counts1 (h ++ [DeleteRequest (delete_url repr (listed_id (VDict d)))])%list
                Hrest) as (counts' & Hrun & Hf & Hd & Hfl & Hsum).
    exists counts'. rewrite Hrun, <- app_assoc.
    split; [reflexivity |]. cbn [length]. lia.
Qed.

Lemma selected_mappings (test : value -> result bool) listing :
  Forall (fun workout => is_ok (test workout) = true -> exists d, workout = VDict d) listing ->
  Forall (fun workout => exists d, workout = VDict d) (List.filter (selected test) listing).
Proof.
  induction 1 as [| workout listing Hw _ IH]; cbn [List.filter]; [constructor |].
  unfold selected at 1. destruct (test workout) as [[] | e]; try exact IH.
  constructor; [apply Hw; reflexivity | exact IH].
Qed.

(** The whole of [delete_all] on a listing whose entries can be tested. *)
Lemma delete_all_run (repr : value -> string) (api : service) (h : history)
    (data : value) :
  get_workouts api h = Ok data ->
  Forall (fun workout => is_ok (named_in_plan workout) = true) (as_list data) ->
  exists r,
    delete_all repr api h
    = ((h ++ GetWorkouts
          :: map (delete_request repr)
               (List.filter (selected named_in_plan) (as_list data)))%list, r)
    /\ match r with
       | Ok (Some counts) =>
           found_count counts
           = Z.of_nat (length (List.filter (selected named_in_plan) (as_list data)))
           /\ 0 < found_count counts
           /\ 0 <= deleted_count counts /\ 0 <= failed_count counts
           /\ deleted_count counts + failed_count counts = found_count counts
       | Ok None => List.filter (selected named_in_plan) (as_list data) = []
       | Raise _ => False
       end.
Proof.
  intros Hget Hall.
  unfold delete_all, try_except.
  rewrite io_bind_send, Hget.
  destruct (truth data) eqn:Ht; cbn [negb].
  2:{ rewrite (falsy_listing data Ht Hall). exists (Ok None). split; reflexivity. }
  cbv zeta. unfold io_bind at 1.
  rewrite (delete_all_filter_run (as_list data) [] _ Hall). cbn [app].
  pose proof (selected_mappings named_in_plan (as_list data)) as Hmaps.
  specialize (Hmaps ltac:(eapply List.Forall_impl; [| exact Hall];
                          intros w _; apply named_in_plan_mapping)).
  destruct (List.filter (selected named_in_plan) (as_list data))
    as [| workout plan_workouts] eqn:Hsel.
  { exists (Ok None). split; reflexivity. }
  destruct (delete_all_delete_run repr api (workout :: plan_workouts)
              {| found_count := Z.of_nat (length (workout :: plan_workouts));
                 deleted_count := 0; failed_count := 0 |}
              (h ++ [GetWorkouts])%list Hmaps)
    as (counts & Hrun & Hf & Hd & Hfl & Hsum).
  unfold io_bind. rewrite Hrun. cbn [ret]. rewrite <- app_assoc.
  exists (Ok (Some counts)). split; [reflexivity |].
  cbn [found_count deleted_count failed_count] in *.
  cbn [length] in *. lia.
Qed.

(** X21: what [delete_all] deletes.  When the service lists workouts
    and each entry can be tested (it is a mapping whose name is text,
    or another container), [delete_all] asks once for the listing and
    then sends exactly one deletion per listed workout whose name
    contains "NYC Marathon 2026", in the order of the listing, for
    the URL of that workout's id: any week, and also workouts this
    program did not create.  It never raises, and when it deleted
    something its summary counts every selected workout once, as
    deleted or as failed. *)
Theorem X21_delete_all_deletes_by_name
    (repr : value -> string) (api : service) (h : history) (data : value) :
  get_workouts api h = Ok data ->
  Forall (fun workout => is_ok (named_in_plan workout) = true) (as_list data) ->
  fst (delete_all repr api h)
  = (h ++ GetWorkouts
       :: map (delete_request repr)
            (List.filter (selected named_in_plan) (as_list data)))%list
  /\ match snd (delete_all repr api h) with
     | Ok (Some counts) =>
         found_count counts
         = Z.of_nat (length (List.filter (selected named_in_plan) (as_list data)))
         /\ 0 < found_count counts
         /\ 0 <= deleted_count counts /\ 0 <= failed_count counts
         /\ deleted_count counts + failed_count counts = found_count counts
     | Ok None => List.filter (selected named_in_plan) (as_list data) = []
     | Raise _ => False
     end.
Proof.
  intros Hget Hall.
  destruct (delete_all_run repr api h data Hget Hall) as (r & Hrun & Hr).
  rewrite Hrun. cbn [fst snd]. split; [reflexivity | exact Hr].
Qed.

Lemma X21_delete_all_deletes_by_name_witness :
  fst (delete_all plain_repr (accepting_service sample_listing) [])
  = ([] ++ GetWorkouts
        :: map (delete_request plain_repr)
             (List.filter (selected named_in_plan) (as_list sample_listing)))%list
  /\ map (delete_request plain_repr)
       (List.filter (selected named_in_plan) (as_list sample_listing))
     = [ DeleteRequest "/workout-service/workout/101";
         DeleteRequest "/workout-service/workout/103";
         DeleteRequest "/workout-service/workout/104" ].
Proof.
  assert (Hall : Forall (fun workout => is_ok (named_in_plan workout) = true)
                   (as_list sample_listing))
    by (repeat (apply List.Forall_cons; [vm_compute; reflexivity |]); apply List.Forall_nil).
  assert (Hget : get_workouts (accepting_service sample_listing) [] = Ok sample_listing)
    by reflexivity.
  pose proof (X21_delete_all_deletes_by_name plain_repr
                (accepting_service sample_listing) [] sample_listing Hget Hall) as H.
  destruct H as [H _].
  split; [exact H | vm_compute; reflexivity].
Defined.

(** X22: [delete_all] selects before it deletes.  When the listing
    cannot be fetched, or holds one entry that cannot be tested (an
    entry that is no mapping, or a name that is null or a number),
    [delete_all] deletes nothing at all, not even the workouts of the
    plan listed before that entry, and ends without raising. *)
Theorem X22_delete_all_unreadable_listing
    (repr : value -> string) (api : service) (h : history) :
  match get_workouts api h with
  | Ok data =>
      Exists (fun workout => is_ok (named_in_plan workout) = false) (as_list data)
  | Raise _ => True
  end ->
  delete_all repr api h = ((h ++ [GetWorkouts])%list, Ok None).
Proof.
  intros H. unfold delete_all, try_except. rewrite io_bind_send.
  destruct (get_workouts api h) as [data | e]; [| reflexivity].
  destruct (truth data); cbn [negb]; [| reflexivity].
  cbv zeta. unfold io_bind at 1.
  destruct (delete_all_filter_raises (as_list data) [] (h ++ [GetWorkouts])%list H)
    as [e ->].
  reflexivity.
Qed.

Lemma X22_delete_all_unreadable_listing_witness :
  delete_all plain_repr
    (accepting_service
       (VList [ VDict {[ "workoutId" := VInt 101;
                         "workoutName" := VStr "NYC Marathon 2026 - Week 1 - Tuesday" ]};
                VDict {[ "workoutId" := VInt 102; "workoutName" := VNone ]} ]))
    []
  = ([GetWorkouts], Ok None).
Proof.
  apply (X22_delete_all_unreadable_listing plain_repr
           (accepting_service
              (VList [ VDict {[ "workoutId" := VInt 101;
                                "workoutName" := VStr "NYC Marathon 2026 - Week 1 - Tuesday" ]};
                       VDict {[ "workoutId" := VInt 102; "workoutName" := VNone ]} ]))
           []).
  cbn [accepting_service get_workouts as_list].
  apply Exists_cons_tl, Exists_cons_hd. vm_compute. reflexivity.
Defined.

Lemma named_in_plan_built m day_name (listed : gmap string value) :
  listed !! "workoutName" = Some (VStr (plan_workout_name m day_name)) ->
  named_in_plan (VDict listed) = Ok true.
Proof.
  intros Hname. unfold named_in_plan, get, dict_get. rewrite Hname.
  cbn [bind contains_key]. unfold plan_workout_name.
  assert (Hplan : contains "NYC Marathon 2026"
                    ("NYC Marathon 2026 - Week " ++ str_of_int m
                     ++ " - " ++ capitalize day_name) = true).
  { apply contains_startswith.
    change ("NYC Marathon 2026 - Week " ++ str_of_int m
            ++ " - " ++ capitalize day_name)%string
      with ("NYC Marathon 2026"
            ++ (" - Week " ++ str_of_int m ++ " - " ++ capitalize day_name))%string.
    apply startswith_app. }
  rewrite Hplan. reflexivity.
Qed.

(** X23: what the builder names, [delete_all] deletes.  Every listed
    workout that carries the name of a document the builder returns,
    for any pace table, week and day, is sent a deletion by
    [delete_all], provided every entry of the listing can be tested. *)
Theorem X23_delete_all_deletes_what_was_built
    (repr : value -> string) (api : service) (h : history) (data : value)
    (paces : gmap string string) (builder_repr : value -> string)
    (listed workout_data : gmap string value) (workout_date : datetime)
    (week_number : Z) (day_name : string) (doc : workout) :
  get_workouts api h = Ok data ->
  Forall (fun workout => is_ok (named_in_plan workout) = true) (as_list data) ->
  In (VDict listed) (as_list data) ->
  build_workout_from_yaml paces builder_repr workout_data workout_date week_number day_name
  = Ok doc ->
  listed !! "workoutName" = Some (VStr (workoutName doc)) ->
  In (delete_request repr (VDict listed)) (fst (delete_all repr api h)).
Proof.
  intros Hget Hall Hlisted Hbuild Hname.
  destruct (delete_all_run repr api h data Hget Hall) as (r & -> & _).
  cbn [fst]. apply in_or_app. right. right.
  apply in_map. apply filter_In. split; [exact Hlisted |].
  rewrite (build_workout_name _ _ _ _ _ _ _ Hbuild) in Hname.
  unfold selected. rewrite (named_in_plan_built _ _ _ Hname). reflexivity.
Qed.

Lemma X23_delete_all_deletes_what_was_built_witness :
  In (delete_request plain_repr (VDict listed_week_twelve))
    (fst (delete_all plain_repr (accepting_service sample_listing) [])).
Proof.
  assert (Hget : get_workouts (accepting_service sample_listing) [] = Ok sample_listing)
    by reflexivity.
  assert (Hall : Forall (fun workout => is_ok (named_in_plan workout) = true)
                   (as_list sample_listing))
    by (repeat (apply List.Forall_cons; [vm_compute; reflexivity |]); apply List.Forall_nil).
  assert (Hbuild : build_workout_from_yaml threshold_paces plain_repr zero_distance_workout
                     goal_day 12 "monday" = Ok week_twelve_document)
    by (vm_compute; reflexivity).
  assert (Hname : listed_week_twelve !! "workoutName"
                  = Some (VStr (workoutName week_twelve_document)))
    by (vm_compute; reflexivity).
  assert (Hlisted : In (VDict listed_week_twelve) (as_list sample_listing))
    by (right; right; left; reflexivity).
  pose proof (X23_delete_all_deletes_what_was_built plain_repr
                (accepting_service sample_listing) [] sample_listing threshold_paces
                plain_repr listed_week_twelve zero_distance_workout goal_day 12 "monday"
                week_twelve_document Hget Hall Hlisted Hbuild Hname) as H.
  exact H.
Defined.

(** *** Updating a week *)

(** The name of a workout of week [m] passes the test of
    [update_week n] when the numeral of [n] begins that of [m]. *)
Lemma named_in_week_prefix n m day_name tail (listed : gmap string value) :
  str_of_int m = (str_of_int n ++ tail)%string ->
  listed !! "workoutName" = Some (VStr (plan_workout_name m day_name)) ->
  named_in_week n (VDict listed) = Ok true.
Proof.
  intros Hprefix Hname. unfold named_in_week, get, dict_get. rewrite Hname.
  cbn [bind contains_key]. unfold plan_workout_name. rewrite Hprefix.
  assert (Hweek : contains ("Week " ++ str_of_int n)
                    ("NYC Marathon 2026 - Week " ++ (str_of_int n ++ tail)
                     ++ " - " ++ capitalize day_name) = true).
  { change ("NYC Marathon 2026 - Week " ++ (str_of_int n ++ tail)
            ++ " - " ++ capitalize day_name)%string
      with ("NYC Marathon 2026 - "
            ++ ("Week " ++ (str_of_int n ++ tail) ++ " - " ++ capitalize day_name))%string.
    replace ("Week " ++ (str_of_int n ++ tail) ++ " - " ++ capitalize day_name)%string
      with (("Week " ++ str_of_int n) ++ (tail ++ " - " ++ capitalize day_name))%string.
    - apply contains_app.
    - rewrite !string_app_assoc. reflexivity. }
  rewrite Hweek.
  assert (Hplan : contains "NYC Marathon 2026"
                    ("NYC Marathon 2026 - Week " ++ (str_of_int n ++ tail)
                     ++ " - " ++ capitalize day_name) = true).
  { apply contains_startswith.
    change ("NYC Marathon 2026 - Week " ++ (str_of_int n ++ tail)
            ++ " - " ++ capitalize day_name)%string
      with ("NYC Marathon 2026"
            ++ (" - Week " ++ (str_of_int n ++ tail) ++ " - " ++ capitalize day_name))%string.
    apply startswith_app. }
  rewrite Hplan. reflexivity.
Qed.

(** One listed workout in step 1 of [update_week]. *)
Lemma update_week_delete_step repr api week_number deleted_count workout h :
  exists calls r,
    update_week_delete repr api week_number deleted_count workout h
    = ((h ++ calls)%list, r)
    /\ Forall lists_or_deletes calls
    /\ (is_ok (named_in_week week_number workout) = true ->
        calls = (if selected (named_in_week week_number) workout
                 then [delete_request repr workout] else [])
        /\ is_ok r = true).
Proof.
  unfold update_week_delete, selected, named_in_week.
  rewrite io_bind_lift.
  destruct workout as [| b | n | x | s | l | d];
    try (exists [], (Raise AttributeError); rewrite app_nil_r;
         split; [reflexivity |]; split; [constructor | discriminate]).
  cbn [get bind]. rewrite io_bind_lift.
  destruct (contains_key ("Week " ++ str_of_int week_number)
              (dict_get d "workoutName" (VStr ""))) as [in_week | e].
  2:{ exists [], (Raise e). rewrite app_nil_r.
      split; [reflexivity |]. split; [constructor | discriminate]. }
  cbn [bind].
  destruct in_week.
  2:{ exists [], (Ok deleted_count). rewrite app_nil_r.
      split; [reflexivity |]. split; [constructor |]. intros _. split; reflexivity. }
  rewrite io_bind_lift.
  destruct (contains_key "NYC Marathon 2026" (dict_get d "workoutName" (VStr "")))
    as [in_plan | e].
  2:{ exists [], (Raise e). rewrite app_nil_r.
      split; [reflexivity |]. split; [constructor | discriminate]. }
  destruct in_plan.
  2:{ exists [], (Ok deleted_count). rewrite app_nil_r.
      split; [reflexivity |]. split; [constructor |]. intros _. split; reflexivity. }
  rewrite io_bind_lift.
  destruct (delete_workout_run repr api (dict_get d "workoutId" VNone) h)
    as [deleted Hdel].
  unfold io_bind. rewrite Hdel.
  eexists [delete_request repr (VDict d)], _. split; [reflexivity |].
  split; [constructor; [right; eexists; reflexivity | constructor] |].
  intros _. split; reflexivity.
Qed.

(** The loop of step 1. *)
Lemma update_week_delete_run repr api week_number listing :
  forall deleted_count h,
  exists calls r,
    for_each listing (update_week_delete repr api week_number) deleted_count h
    = ((h ++ calls)%list, r)
    /\ Forall lists_or_deletes calls
    /\ (Forall (fun workout => is_ok (named_in_week week_number workout) = true) listing ->
        calls = map (delete_request repr)
                  (List.filter (selected (named_in_week week_number)) listing)
        /\ is_ok r = true).
Proof.
  induction listing as [| workout listing IH]; intros deleted_count h.
  - exists [], (Ok deleted_count). cbn [for_each]. unfold ret. rewrite app_nil_r.
    split; [reflexivity |]. split; [constructor |]. intros _. split; reflexivity.
  - cbn [for_each List.filter].
    destruct (update_week_delete_step repr api week_number deleted_count workout h)
      as (calls & r & Hstep & Hcalls & Hok).
    unfold io_bind at 1. rewrite Hstep.
    destruct r as [deleted_count' | e].
    + destruct (IH deleted_count' (h ++ calls)%list) as (calls' & r' & Hrun & Hcalls' & Hok').
      exists (calls ++ calls')%list, r'. rewrite Hrun, <- app_assoc.
      split; [reflexivity |]. split; [apply Forall_app; split; assumption |].
      intros Hall. inversion Hall as [| ? ? Hw Hrest]; subst.
      destruct (Hok Hw) as [-> _]. destruct (Hok' Hrest) as [-> Hr'].
      split; [| exact Hr'].
      destruct (selected (named_in_week week_number) workout); reflexivity.
    + exists calls, (Raise e). split; [reflexivity |]. split; [exact Hcalls |].
      intros Hall. inversion Hall as [| ? ? Hw Hrest]; subst.
      destruct (Hok Hw) as [_ Hr]. discriminate Hr.
Qed.

(** Step 1 of [update_week], with its [try]. *)
Lemma update_week_step1_run repr api week_number h :
  exists calls,
    try_except
      (let! workouts_data := send GetWorkouts (get_workouts api) in
       let! deleted_count :=
         for_each (as_list workouts_data) (update_week_delete repr api week_number) 0 in
       ret tt)
      (fun _ => ret tt) h
    = ((h ++ calls)%list, Ok tt)
    /\ Forall lists_or_deletes calls
    /\ (forall data,
          get_workouts api h = Ok data ->
          Forall (fun workout => is_ok (named_in_week week_number workout) = true)
            (as_list data) ->
          calls = GetWorkouts
                  :: map (delete_request repr)
                       (List.filter (selected (named_in_week week_number)) (as_list data))).
Proof.
  unfold try_except. rewrite io_bind_send.
  destruct (get_workouts api h) as [data | e].
  2:{ exists [GetWorkouts]. split; [reflexivity |].
      split; [constructor; [left; reflexivity | constructor] | discriminate]. }
  cbv zeta.
  destruct (update_week_delete_run repr api week_number (as_list data) 0
              (h ++ [GetWorkouts])%list) as (calls & r & Hrun & Hcalls & Hok).
  unfold io_bind. rewrite Hrun.
  exists (GetWorkouts :: calls).
  split; [destruct r; cbn [ret]; rewrite <- app_assoc; reflexivity |].
  split; [constructor; [left; reflexivity | exact Hcalls] |].
  intros data' Hd Hall. apply Ok_injective in Hd. subst data'.
  destruct (Hok Hall) as [-> _]. reflexivity.
Qed.

(** One day of step 2 of [update_week]. *)
Lemma update_week_day_run parse_date plan_data paces repr strftime api
    week_number counts item h :
  exists calls r,
    update_week_day parse_date plan_data paces repr strftime api week_number counts item h
    = ((h ++ calls)%list, r)
    /\ (calls = [] \/ day_calls parse_date plan_data paces repr strftime week_number item calls)
    /\ (is_ok r = true <-> day_ready parse_date plan_data week_number item).
Proof.
  destruct item as [day_name workout]. destruct counts as [uploaded_count failed_count].
  unfold update_week_day, day_ready. cbn [fst snd]. rewrite io_bind_lift.
  destruct (get_workout_date parse_date plan_data week_number day_name)
    as [workout_date | e] eqn:Hdate.
  2:{ exists [], (Raise e). rewrite app_nil_r. split; [reflexivity |].
      split; [left; reflexivity |].
      cbn [is_ok]. split; [discriminate | intros [H _]; discriminate H]. }
  rewrite io_bind_lift.
  destruct workout as [| b | n | x | s | l | workout_data];
    try (exists [], (Raise AttributeError); rewrite app_nil_r;
         split; [reflexivity |]; split; [left; reflexivity |];
         cbn [is_ok]; split; [discriminate | intros [_ [d Hd]]; discriminate Hd]).
  cbn [get].
  assert (Hready : true = true <->
                   is_ok (Ok workout_date) = true
                   /\ exists d, VDict workout_data = VDict d).
  { split; [intros _; split; [reflexivity | eexists; reflexivity] | reflexivity]. }
  destruct (eq_str (dict_get workout_data "type" VNone) "rest") eqn:Hrest.
  { eexists [], _. rewrite app_nil_r. split; [reflexivity |].
    split; [left; reflexivity | exact Hready]. }
  destruct (upload_and_schedule_run paces repr strftime api (VDict workout_data)
              workout_date week_number day_name h) as (calls & r & Hrun & Hcalls).
  unfold try_except, io_bind. rewrite Hrun.
  assert (Hday : calls = []
                 \/ day_calls parse_date plan_data paces repr strftime week_number
                      (day_name, VDict workout_data) calls).
  { destruct Hcalls as [[-> _] | (d & w & Hd & Hb & Hc)]; [left; reflexivity |].
    right. injection Hd as <-. exists workout_data, workout_date, w.
    cbn [fst snd is_rest_day]. repeat split; assumption. }
  destruct r as [[] | e]; eexists calls, _;
    (split; [reflexivity |]); (split; [exact Hday | exact Hready]).
Qed.

(** The loop of step 2. *)
Lemma update_week_days_run parse_date plan_data paces repr strftime api
    week_number items :
  forall counts h,
  exists blocks r,
    for_each items
      (update_week_day parse_date plan_data paces repr strftime api week_number) counts h
    = ((h ++ concat blocks)%list, r)
    /\ Forall (fun block =>
                 exists item,
                   In item items
                   /\ day_calls parse_date plan_data paces repr strftime
                        week_number item block) blocks
    /\ (is_ok r = true <-> Forall (day_ready parse_date plan_data week_number) items).
Proof.
  induction items as [| item items IH]; intros counts h.
  - exists [], (Ok counts). cbn [for_each concat]. unfold ret. rewrite app_nil_r.
    split; [reflexivity |]. split; [constructor |].
    split; [constructor | reflexivity].
  - cbn [for_each].
    destruct (update_week_day_run parse_date plan_data paces repr strftime api
                week_number counts item h) as (calls & r & Hrun & Hcalls & Hok).
    unfold io_bind at 1. rewrite Hrun.
    assert (Hweaken : forall blocks,
               Forall (fun block =>
                         exists item0,
                           In item0 items
                           /\ day_calls parse_date plan_data paces repr strftime
                                week_number item0 block) blocks ->
               Forall (fun block =>
                         exists item0,
                           In item0 (item :: items)
                           /\ day_calls parse_date plan_data paces repr strftime
                                week_number item0 block) blocks).
    { intros blocks Hb. eapply List.Forall_impl; [| exact Hb].
      intros block (item0 & Hin & Hd). exists item0. split; [right; exact Hin | exact Hd]. }
    destruct r as [counts1 | e].
    + destruct (IH counts1 (h ++ calls)%list) as (blocks & r' & Hrun' & Hb & Hok').
      rewrite Hrun', <- app_assoc.
      assert (Hboth : is_ok r' = true
                      <-> Forall (day_ready parse_date plan_data week_number) (item :: items)).
      { rewrite Hok'. split.
        - intros H. constructor; [apply Hok; reflexivity | exact H].
        - intros H. inversion H; assumption. }
      destruct Hcalls as [-> | Hday].
      * exists blocks, r'. split; [reflexivity |]. split; [exact (Hweaken _ Hb) | exact Hboth].
      * exists (calls :: blocks), r'. split; [reflexivity |].
        split; [| exact Hboth].
        constructor; [| exact (Hweaken _ Hb)].
        exists item. split; [left; reflexivity | exact Hday].
    + assert (Hneither : is_ok (A:=Z * Z) (Raise e) = true
                         <-> Forall (day_ready parse_date plan_data week_number)
                               (item :: items)).
      { cbn [is_ok]. split; [discriminate |].
        intros H. inversion H as [| ? ? Hitem _]. apply Hok in Hitem. discriminate Hitem. }
      destruct Hcalls as [-> | Hday].
      * exists [], (Raise e). split; [reflexivity |]. split; [constructor | exact Hneither].
      * exists [calls], (Raise e). cbn [concat]. rewrite app_nil_r.
        split; [reflexivity |]. split; [| exact Hneither].
        constructor; [| constructor].
        exists item. split; [left; reflexivity | exact Hday].
Qed.

Lemma week_number_listed week_number (weeks : list Week.t) week :
  In week weeks -> Week.week week = week_number ->
  existsb (Z.eqb week_number) (map Week.week weeks) = true
  /\ exists week_data,
       find (fun week => Week.week week =? week_number) weeks = Some week_data.
Proof.
  intros Hin Hn. split.
  - apply existsb_exists. exists (Week.week week).
    split; [apply in_map; exact Hin | apply Z.eqb_eq; symmetry; exact Hn].
  - destruct (find (fun week => Week.week week =? week_number) weeks) as [week_data |] eqn:Hf;
      [eexists; reflexivity |].
    pose proof (find_none _ _ Hf week Hin) as H. cbv beta in H.
    apply Z.eqb_neq in H. contradiction.
Qed.

(** The whole of [update_week]: the calls of step 1, then those of
    step 2. *)
Lemma update_week_run parse_date plan_data paces repr strftime api weeks week_number h :
  exists deletions uploads r,
    update_week parse_date plan_data paces repr strftime api weeks week_number h
    = ((h ++ deletions ++ uploads)%list, r)
    /\ Forall lists_or_deletes deletions
    /\ plan_calls parse_date plan_data paces repr strftime
         (weeks_numbered week_number weeks) uploads
    /\ (forall week monday data,
          In week weeks -> Week.week week = week_number ->
          calculate_week_start_date parse_date plan_data week_number = Ok monday ->
          is_ok (datetime_add monday 6) = true ->
          get_workouts api h = Ok data ->
          Forall (fun workout => is_ok (named_in_week week_number workout) = true)
            (as_list data) ->
          deletions
          = GetWorkouts
            :: map (delete_request repr)
                 (List.filter (selected (named_in_week week_number)) (as_list data)))
    /\ (forall week_data monday,
          existsb (Z.eqb week_number) (map Week.week weeks) = true ->
          find (fun week => Week.week week =? week_number) weeks = Some week_data ->
          calculate_week_start_date parse_date plan_data week_number = Ok monday ->
          is_ok (datetime_add monday 6) = true ->
          (is_ok r = true
           <-> Forall (day_ready parse_date plan_data week_number)
                 (Week.workouts week_data))).
Proof.
  assert (Hnone : forall r : result (option (Z * Z)),
             (forall week monday,
                In week weeks -> Week.week week = week_number ->
                calculate_week_start_date parse_date plan_data week_number = Ok monday ->
                is_ok (datetime_add monday 6) = true -> False) ->
             exists deletions uploads r',
               (h, r) = ((h ++ deletions ++ uploads)%list, r')
               /\ Forall lists_or_deletes deletions
               /\ plan_calls parse_date plan_data paces repr strftime
                    (weeks_numbered week_number weeks) uploads
               /\ (forall week monday data,
                     In week weeks -> Week.week week = week_number ->
                     calculate_week_start_date parse_date plan_data week_number = Ok monday ->
                     is_ok (datetime_add monday 6) = true ->
                     get_workouts api h = Ok data ->
                     Forall (fun workout => is_ok (named_in_week week_number workout) = true)
                       (as_list data) ->
                     deletions
                     = GetWorkouts
                       :: map (delete_request repr)
                            (List.filter (selected (named_in_week week_number))
                               (as_list data)))
               /\ (forall week_data monday,
                     existsb (Z.eqb week_number) (map Week.week weeks) = true ->
                     find (fun week => Week.week week =? week_number) weeks
                     = Some week_data ->
                     calculate_week_start_date parse_date plan_data week_number
                     = Ok monday ->
                     is_ok (datetime_add monday 6) = true ->
                     (is_ok r' = true
                      <-> Forall (day_ready parse_date plan_data week_number)
                            (Week.workouts week_data)))).
  { intros r Hno. exists [], [], r. cbn [app]. rewrite app_nil_r.
    split; [reflexivity |]. split; [constructor |].
    split; [exists []; split; [reflexivity | constructor] |].
    split.
    - intros week monday data Hin Hn Hm Hs. destruct (Hno week monday Hin Hn Hm Hs).
    - intros week_data monday _ Hfind Hm Hs.
      apply find_some in Hfind. destruct Hfind as [Hin Hnum].
      apply Z.eqb_eq in Hnum. destruct (Hno week_data monday Hin Hnum Hm Hs). }
  unfold update_week. cbv zeta.
  destruct (existsb (Z.eqb week_number) (map Week.week weeks)) eqn:Hex; cbn [negb].
  2:{ apply Hnone. intros week monday Hin Hn _ _.
      destruct (week_number_listed week_number weeks week Hin Hn) as [H _].
      rewrite H in Hex. discriminate Hex. }
  destruct (find (fun week => Week.week week =? week_number) weeks)
    as [week_data |] eqn:Hfind.
  2:{ apply Hnone. intros week monday Hin Hn _ _.
      destruct (week_number_listed week_number weeks week Hin Hn) as [_ [w H]].
      rewrite H in Hfind. discriminate Hfind. }
  rewrite io_bind_lift.
  destruct (calculate_week_start_date parse_date plan_data week_number)
    as [week_start | e] eqn:Hstart.
  2:{ apply Hnone. intros week monday _ _ H _. discriminate H. }
  rewrite io_bind_lift. change (timedelta 6) with (Ok 6). cbv beta iota.
  rewrite io_bind_lift.
  destruct (datetime_add week_start 6) as [week_end | e] eqn:Hend.
  2:{ apply Hnone. intros week monday _ _ H Hs.
      apply Ok_injective in H. subst monday. rewrite Hend in Hs. discriminate Hs. }
  destruct (update_week_step1_run repr api week_number h)
    as (deletions & Hstep1 & Hdel & Hexact).
  unfold io_bind at 1. rewrite Hstep1.
  destruct (update_week_days_run parse_date plan_data paces repr strftime api
              week_number (Week.workouts week_data) (0, 0) (h ++ deletions)%list)
    as (blocks & r & Hstep2 & Hblocks & Hready).
  unfold io_bind. rewrite Hstep2.
  apply find_some in Hfind. destruct Hfind as [Hin Hnum].
  assert (Hplan : plan_calls parse_date plan_data paces repr strftime
                    (weeks_numbered week_number weeks) (concat blocks)).
  { exists blocks. split; [reflexivity |].
    eapply List.Forall_impl; [| exact Hblocks].
    intros block (item & Hitem & Hday). exists week_data, item.
    split; [apply filter_In; split; assumption |].
    split; [exact Hitem |].
    apply Z.eqb_eq in Hnum. rewrite Hnum. exact Hday. }
  destruct r as [counts | e]; cbn [ret]; rewrite <- app_assoc;
    exists deletions, (concat blocks); eexists;
    (split; [reflexivity |]); (split; [exact Hdel |]); (split; [exact Hplan |]);
    (split; [intros week monday data _ _ _ _ Hget Hall; exact (Hexact data Hget Hall) |]);
    intros week_data' monday _ Hfind' _ _;
    injection Hfind' as <-; exact Hready.
Qed.



(** X25: which workouts [update_week] deletes.  Take a week number n
    of the plan whose Monday and Sunday can be computed, and a
    listing in which every entry can be tested.  Then every listed
    workout that carries the name the builder gives a day of week m
    is sent a deletion whenever the decimal numeral of m begins with
    that of n: the workouts of week n itself, but also those of the
    weeks 10 to 19 when week 1 is updated.  ([X24] shows that only
    days of week n are uploaded afterwards.) *)
Theorem X25_update_week_deletes_by_prefix
    (parse_date : value -> result datetime) (plan_data : value)
    (paces : gmap string string) (repr : value -> string)
    (strftime : datetime -> string) (api : service) (weeks : list Week.t)
    (h : history) (n m : Z) (week : Week.t) (monday : datetime) (data : value)
    (listed workout_data : gmap string value) (workout_date : datetime)
    (day_name tail : string) (doc : workout) :
  In week weeks -> Week.week week = n ->
  calculate_week_start_date parse_date plan_data n = Ok monday ->
  is_ok (datetime_add monday 6) = true ->
  get_workouts api h = Ok data ->
  Forall (fun workout => is_ok (named_in_week n workout) = true) (as_list data) ->
  In (VDict listed) (as_list data) ->
  build_workout_from_yaml paces repr workout_data workout_date m day_name = Ok doc ->
  listed !! "workoutName" = Some (VStr (workoutName doc)) ->
  str_of_int m = (str_of_int n ++ tail)%string ->
  In (delete_request repr (VDict listed))
    (fst (update_week parse_date plan_data paces repr strftime api weeks n h)).
Proof.
  intros Hin Hn Hmonday Hsunday Hget Hall Hlisted Hbuild Hname Hprefix.
  destruct (update_week_run parse_date plan_data paces repr strftime api weeks n h)
    as (deletions & uploads & r & Hrun & _ & _ & Hexact & _).
  rewrite Hrun. cbn [fst].
  rewrite (Hexact week monday data Hin Hn Hmonday Hsunday Hget Hall).
  apply in_or_app. right. apply in_or_app. left. right.
  apply in_map. apply filter_In. split; [exact Hlisted |].
  rewrite (build_workout_name _ _ _ _ _ _ _ Hbuild) in Hname.
  unfold selected. rewrite (named_in_week_prefix n m day_name tail listed Hprefix Hname).
  reflexivity.
Qed.

Lemma X25_update_week_deletes_by_prefix_witness :
  In (delete_request plain_repr (VDict listed_week_twelve))
    (fst (update_week parse_iso_date nyc_plan threshold_paces plain_repr iso_date
            (accepting_service sample_listing) sample_weeks 1 []))
  /\ delete_request plain_repr (VDict listed_week_twelve)
     = DeleteRequest "/workout-service/workout/103".
Proof.
  assert (Hmonday : calculate_week_start_date parse_iso_date nyc_plan 1
                    = Ok {| ordinal := 739789; time_of_day := 0 |})
    by (vm_compute; reflexivity).
  assert (Hsunday : is_ok (datetime_add {| ordinal := 739789; time_of_day := 0 |} 6) = true)
    by (vm_compute; reflexivity).
  assert (Hget : get_workouts (accepting_service sample_listing) [] = Ok sample_listing)
    by reflexivity.
  assert (Hall : Forall (fun workout => is_ok (named_in_week 1 workout) = true)
                   (as_list sample_listing))
    by (repeat (apply List.Forall_cons; [vm_compute; reflexivity |]); apply List.Forall_nil).
  assert (Hbuild : build_workout_from_yaml threshold_paces plain_repr zero_distance_workout
                     goal_day 12 "monday" = Ok week_twelve_document)
    by (vm_compute; reflexivity).
  assert (Hname : listed_week_twelve !! "workoutName"
                  = Some (VStr (workoutName week_twelve_document)))
    by (vm_compute; reflexivity).
  assert (Hprefix : str_of_int 12 = (str_of_int 1 ++ "2")%string)
    by (vm_compute; reflexivity).
  assert (Hweek : In (hd {| Week.week := 0; Week.block := None; Week.workouts := [] |}
                        sample_weeks) sample_weeks)
    by (left; reflexivity).
  assert (Hlisted : In (VDict listed_week_twelve) (as_list sample_listing))
    by (right; right; left; reflexivity).
  pose proof (X25_update_week_deletes_by_prefix parse_iso_date nyc_plan threshold_paces
                plain_repr iso_date (accepting_service sample_listing) sample_weeks []
                1 12 _ _ sample_listing listed_week_twelve zero_distance_workout goal_day
                "monday" "2" week_twelve_document
                Hweek eq_refl Hmonday Hsunday Hget Hall Hlisted Hbuild Hname Hprefix) as H.
  split; [exact H | vm_compute; reflexivity].
Defined.

(** X26: [update_week] deletes before it looks at the days.  For a
    week of the plan whose Monday and Sunday can be computed, the run
    ends without an exception exactly when every day of the week,
    rest days included, has a known weekday name and a mapping as its
    workout; but the deletions of step 1 are sent in either case.  A
    week with one misspelt day name thus loses its listed workouts
    and the update raises before the later days are uploaded. *)
Theorem X26_update_week_deletes_first
    (parse_date : value -> result datetime) (plan_data : value)
    (paces : gmap string string) (repr : value -> string)
    (strftime : datetime -> string) (api : service) (weeks : list Week.t)
    (h : history) (n : Z) (week_data : Week.t) (monday : datetime) (data : value) :
  find (fun week => Week.week week =? n) weeks = Some week_data ->
  calculate_week_start_date parse_date plan_data n = Ok monday ->
  is_ok (datetime_add monday 6) = true ->
  get_workouts api h = Ok data ->
  Forall (fun workout => is_ok (named_in_week n workout) = true) (as_list data) ->
  (is_ok (snd (update_week parse_date plan_data paces repr strftime api weeks n h)) = true
   <-> Forall (day_ready parse_date plan_data n) (Week.workouts week_data))
  /\ exists uploads,
       fst (update_week parse_date plan_data paces repr strftime api weeks n h)
       = (h ++ (GetWorkouts
                  :: map (delete_request repr)
                       (List.filter (selected (named_in_week n)) (as_list data)))
            ++ uploads)%list.
Proof.
  intros Hfind Hmonday Hsunday Hget Hall.
  destruct (update_week_run parse_date plan_data paces repr strftime api weeks n h)
    as (deletions & uploads & r & Hrun & _ & _ & Hexact & Hready).
  pose proof (find_some _ _ Hfind) as [Hin Hnum]. apply Z.eqb_eq in Hnum.
  destruct (week_number_listed n weeks week_data Hin Hnum) as [Hex _].
  rewrite Hrun. cbn [fst snd]. split.
  - exact (Hready week_data monday Hex Hfind Hmonday Hsunday).
  - exists uploads.
    rewrite (Hexact week_data monday data Hin Hnum Hmonday Hsunday Hget Hall).
    reflexivity.
Qed.

Lemma X26_update_week_deletes_first_witness :
  ((is_ok (snd (update_week parse_iso_date nyc_plan threshold_paces plain_repr iso_date
                  (accepting_service sample_listing) [misspelt_week] 1 [])) = true
    <-> Forall (day_ready parse_iso_date nyc_plan 1) (Week.workouts misspelt_week))
   /\ exists uploads,
        fst (update_week parse_iso_date nyc_plan threshold_paces plain_repr iso_date
               (accepting_service sample_listing) [misspelt_week] 1 [])
        = ([] ++ (GetWorkouts
                    :: map (delete_request plain_repr)
                         (List.filter (selected (named_in_week 1))
                            (as_list sample_listing)))
              ++ uploads)%list)
  /\ snd (update_week parse_iso_date nyc_plan threshold_paces plain_repr iso_date
            (accepting_service sample_listing) [misspelt_week] 1 [])
     = Raise ValueError
  /\ map (delete_request plain_repr)
       (List.filter (selected (named_in_week 1)) (as_list sample_listing))
     = [ DeleteRequest "/workout-service/workout/101";
         DeleteRequest "/workout-service/workout/103" ].
Proof.
  assert (Hfind : find (fun week => Week.week week =? 1) [misspelt_week]
                  = Some misspelt_week) by reflexivity.
  assert (Hmonday : calculate_week_start_date parse_iso_date nyc_plan 1
                    = Ok {| ordinal := 739789; time_of_day := 0 |})
    by (vm_compute; reflexivity).
  assert (Hsunday : is_ok (datetime_add {| ordinal := 739789; time_of_day := 0 |} 6) = true)
    by (vm_compute; reflexivity).
  assert (Hget : get_workouts (accepting_service sample_listing) [] = Ok sample_listing)
    by reflexivity.
  assert (Hall : Forall (fun workout => is_ok (named_in_week 1 workout) = true)
                   (as_list sample_listing))
    by (repeat (apply List.Forall_cons; [vm_compute; reflexivity |]); apply List.Forall_nil).
  pose proof (X26_update_week_deletes_first parse_iso_date nyc_plan threshold_paces
                plain_repr iso_date (accepting_service sample_listing) [misspelt_week] []
                1 misspelt_week _ sample_listing Hfind Hmonday Hsunday Hget Hall) as H.
  split; [exact H |]. split; vm_compute; reflexivity.
Defined.

(** ** The pace an activity is printed with *)

Lemma paces_come_back_spec minutes m s :
  paces_come_back minutes = true ->
  (m < minutes)%nat -> (s < 60)%nat -> (0 < m + s)%nat ->
  pace_round_trip (pace_text (Z.of_nat m) (Z.of_nat s))
  = Ok (pace_text (Z.of_nat m) (Z.of_nat s)).
Proof.
  unfold paces_come_back. intros Hall Hm Hs Hpos.
  pose proof (proj1 (forallb_forall _ _) Hall m) as Hrow.
  cbv beta in Hrow.
  assert (Hin : In m (seq 0 minutes)) by (apply in_seq; lia).
  specialize (Hrow Hin).
  pose proof (proj1 (forallb_forall _ _) Hrow s) as Hcell.
  cbv beta zeta in Hcell.
  assert (Hin' : In s (seq 0 60)) by (apply in_seq; lia).
  specialize (Hcell Hin').
  destruct (pace_round_trip (pace_text (Z.of_nat m) (Z.of_nat s))) as [text | e].
  - destruct m as [| m'], s as [| s']; try lia;
      apply String.eqb_eq in Hcell; subst text; reflexivity.
  - destruct m as [| m'], s as [| s']; try lia; discriminate Hcell.
Qed.

Lemma paces_table : paces_come_back 100 = true.
Proof. vm_compute. reflexivity. Qed.

(** X27: the exporter prints the paces of a plan back.  For every
    pace "m:ss" from 0:01 to 99:59 per mile, the speed the builder
    computes for it ([pace_to_speed], 1609.34 metres a mile) is
    printed by [format_pace] (2.23694 miles an hour per metre a
    second) as the same text "m:ss": the two constants and the
    truncations never lose a second in that range. *)
Theorem X27_paces_print_back (m s : Z) :
  0 <= m < 100 -> 0 <= s < 60 -> 0 < 60 * m + s ->
  pace_round_trip (pace_text m s) = Ok (pace_text m s).
Proof.
  intros Hm Hs Hpos.
  pose proof (paces_come_back_spec 100 (Z.to_nat m) (Z.to_nat s) paces_table
                ltac:(lia) ltac:(lia) ltac:(lia)) as H.
  rewrite !Z2Nat.id in H by lia. exact H.
Qed.

Lemma X27_paces_print_back_witness :
  pace_round_trip (pace_text 6 30) = Ok (pace_text 6 30) /\ pace_text 6 30 = "6:30".
Proof.
  split; [apply X27_paces_print_back; lia | vm_compute; reflexivity].
Defined.
